(** * The spaced-repetition engine of ai-study-forge

    A shallow embedding of [SpacedRepetitionService]
    (src/frontend/lib/spacedRepetitionService.ts) and the properties its
    specification states about it.

    Modelling conventions.

    - A JavaScript [number] that only ever holds an integer ([quality],
      [interval], [repetitions], [cardsReviewed], comparator results) is a
      [Z]; a [number] that holds a fraction ([easeFactor],
      [averageQuality], [accuracy]) is a [Q].  Arithmetic is exact: the
      rounding of binary64 is not modelled, and neither are [Infinity] and
      [NaN] as results of arithmetic (a division by zero gives 0 in [Q]).
      The only [NaN] that is modelled is the time value of an invalid
      [Date].  The two numeric scenarios of the specification are checked
      in binary64 as well, at the end of the file.
    - A [Date] is its time value: an integral number of milliseconds since
      the epoch, at most 8.64e15 in magnitude, or [NaN] (an invalid date).
      [TimeClip] is the ECMAScript operation of that name.
    - [localStorage] holds two items.  An item is text; the model keeps of
      the text what [JSON.parse(stored).map(...)] can tell apart: text that
      is not JSON (the empty string is such a text, and [getReviews]
      answers [[]] for it on either path), JSON that is not an array, and
      an array whose elements are [null] or objects of the record's shape.
      [localStorage] itself never throws.
    - The system clock is an input: each call of the service receives the
      [Clock] it would read with [new Date()], and reads it once.  A
      reading comes with the local time zone, which is ECMAScript's
      [LocalTZA]: the offset from UTC may differ from one instant to
      another, so a local day need not last 24 hours.  [setHours(0, 0, 0,
      0)] is computed as the language defines it, through [LocalTime],
      [Day] and [UTC].
    - The service runs in a monad of state (the storage) and exceptions;
      an exception does not undo what was written before it.
    - [SpacedRepetitionViewer] (src/frontend/components/StudyPackList.tsx),
      the component that calls the service, is its state and its handlers,
      which run in the same monad; a label built by a template string is
      the constructor of its shape, with the numbers it prints.
    - [AnalyticsService], the second service of the file, keeps three
      items of its own.  None of its functions lets an exception out, and
      they pass the storage explicitly.  A [Map] is the list of its
      entries in insertion order, a [Set] the list of its elements; the
      random part of a session id is an input. *)

From Stdlib Require Import ZArith QArith Qminmax Qround String List Bool Lia.
From Stdlib Require Import Sorted Permutation PrimFloat DecimalString.
From ExtLib Require Import Structures.Monad Structures.MonadState Structures.MonadExc.
From ExtLib Require Import Data.Monads.StateMonad Data.Monads.EitherMonad.
Import ListNotations MonadNotation.
Local Open Scope monad_scope.
Local Open Scope Z_scope.
Set Warnings "-notation-for-abbreviation,-inexact-float".

(** ** Numbers *)

(** [Math.round]: the nearest integer, a tie going up. *)
Definition Math_round (x : Q) : Z := Qfloor (x + 0.5)%Q.

Definition Math_floor (x : Q) : Z := Qfloor x.

(** A number that may be [NaN] ([None]); used for the time value of a
    [Date] and for what is computed from it. *)
Definition number := option Z.

Definition num_sub (a b : number) : number :=
  match a, b with
  | Some x, Some y => Some (x - y)
  | _, _ => None
  end.

Definition num_le (a b : number) : bool :=
  match a, b with
  | Some x, Some y => x <=? y
  | _, _ => false
  end.

Definition num_lt (a b : number) : bool :=
  match a, b with
  | Some x, Some y => x <? y
  | _, _ => false
  end.

(** [a === b] on numbers: [NaN] is equal to nothing. *)
Definition num_eq (a b : number) : bool :=
  match a, b with
  | Some x, Some y => x =? y
  | _, _ => false
  end.

(** ** Dates *)

Inductive Date : Type :=
| TimeValue (t : Z)
| InvalidDate.

Definition MAX_TIME : Z := 8640000000000000.

Definition MS_PER_DAY : Z := 24 * 60 * 60 * 1000.

Definition TimeClip (t : Z) : Date :=
  if Z.abs t <=? MAX_TIME then TimeValue t else InvalidDate.

Definition getTime (d : Date) : number :=
  match d with
  | TimeValue t => Some t
  | InvalidDate => None
  end.

(** [new Date(n)] for a number [n]. *)
Definition Date_of_number (n : number) : Date :=
  match n with
  | Some t => TimeClip t
  | None => InvalidDate
  end.

(** [a <= b], [a > b], [a >= b], [a < b] on dates compare the time values. *)
Definition Date_le (a b : Date) : bool := num_le (getTime a) (getTime b).
Definition Date_gt (a b : Date) : bool := num_lt (getTime b) (getTime a).
Definition Date_ge (a b : Date) : bool := num_le (getTime b) (getTime a).
Definition Date_lt (a b : Date) : bool := num_lt (getTime a) (getTime b).

(** What a date field of a stored record can hold. *)
Inductive JSONDate : Type :=
| DateString (t : Z)   (* a string that [Date.parse] reads as [t] *)
| DateNull             (* [null] *)
| DateOther.           (* a string that is no date, or no property at all *)

(** [new Date(v)] for the value [v] of a date field. *)
Definition Date_of_JSON (v : JSONDate) : Date :=
  match v with
  | DateString t => TimeClip t
  | DateNull => TimeValue 0
  | DateOther => InvalidDate
  end.

(** [Date.prototype.toJSON], which [JSON.stringify] calls: the ISO string
    of a valid date, [null] for an invalid one. *)
Definition Date_toJSON (d : Date) : JSONDate :=
  match d with
  | TimeValue t => DateString t
  | InvalidDate => DateNull
  end.

(** The local time zone, as ECMAScript sees it: [LocalTZA z t true] is
    the offset of local time from UTC, in milliseconds, in force at the
    instant [t], and [LocalTZA z t false] the offset to take for the local
    time value [t].  The offset may change from one instant to another, as
    it does where daylight-saving time is observed. *)
Record Zone : Type := mkZone {
  LocalTZA : Z -> bool -> Z
}.

(** A zone that keeps one offset. *)
Definition fixedZone (tz : Z) : Zone := mkZone (fun _ _ => tz).

Definition LocalTime (z : Zone) (t : Z) : Z := t + LocalTZA z t true.

Definition UTC (z : Zone) (t : Z) : Z := t - LocalTZA z t false.

Definition Day (t : Z) : Z := t / MS_PER_DAY.

(** The system clock and the local time zone, as one call sees them. *)
Record Clock : Type := mkClock {
  now : Z;        (* [new Date().getTime()] *)
  zone : Zone
}.

Definition new_Date (clk : Clock) : Date := TimeValue (now clk).

(** The number of the local calendar day of the reading. *)
Definition localDay (clk : Clock) : Z := Day (LocalTime (zone clk) (now clk)).

(** The instant at which the local calendar day [day] begins in the zone:
    [UTC(MakeDate(day, MakeTime(0, 0, 0, 0)))]. *)
Definition midnightOfDay (z : Zone) (day : Z) : Z := UTC z (day * MS_PER_DAY).

(** [d = new Date(); d.setHours(0, 0, 0, 0)]: local midnight of today,
    the beginning of the local calendar day of the reading. *)
Definition localMidnight (clk : Clock) : Z :=
  midnightOfDay (zone clk) (localDay clk).

Definition setHours0 (clk : Clock) : Date := TimeClip (localMidnight clk).

(** ** Records *)

Module Review.
Record t (D : Type) : Type := mk {
  cardId : string;
  studyPackId : string;
  quality : Z;
  reviewDate : D;
  interval : Z;
  easeFactor : Q;
  repetitions : Z;
  nextReview : D
}.
Arguments mk {D}.
Arguments cardId {D}.
Arguments studyPackId {D}.
Arguments quality {D}.
Arguments reviewDate {D}.
Arguments interval {D}.
Arguments easeFactor {D}.
Arguments repetitions {D}.
Arguments nextReview {D}.

(** [{...review, reviewDate: f(review.reviewDate), nextReview: f(review.nextReview)}] *)
Definition mapDates {D D' : Type} (f : D -> D') (r : t D) : t D' :=
  mk (cardId r) (studyPackId r) (quality r) (f (reviewDate r)) (interval r)
     (easeFactor r) (repetitions r) (f (nextReview r)).

Definition is_for {D : Type} (card pack : string) (r : t D) : bool :=
  (cardId r =? card)%string && (studyPackId r =? pack)%string.
End Review.

Module Session.
Record t (D : Type) : Type := mk {
  studyPackId : string;
  date : D;
  cardsReviewed : Z;
  averageQuality : Q
}.
Arguments mk {D}.
Arguments studyPackId {D}.
Arguments date {D}.
Arguments cardsReviewed {D}.
Arguments averageQuality {D}.

(** [{...session, date: f(session.date)}] *)
Definition mapDates {D D' : Type} (f : D -> D') (s : t D) : t D' :=
  mk (studyPackId s) (f (date s)) (cardsReviewed s) (averageQuality s).
End Session.

(** The in-memory records of the source's interfaces ... *)
Notation CardReview := (Review.t Date).
Notation StudySession := (Session.t Date).

(** ... and what [JSON.stringify] writes for them. *)
Notation CardReviewJSON := (Review.t JSONDate).
Notation StudySessionJSON := (Session.t JSONDate).

(** ** Local storage *)

Inductive Item (R : Type) : Type :=
| NotJSON                            (* [JSON.parse] throws a SyntaxError *)
| NotArray                           (* JSON, but the value has no [map] *)
| JSONArray (elems : list (option R)). (* [None] is a [null] element *)
Arguments NotJSON {R}.
Arguments NotArray {R}.
Arguments JSONArray {R}.

Record Storage : Type := mkStorage {
  studyForge_sr_reviews : option (Item CardReviewJSON);
  studyForge_sr_sessions : option (Item StudySessionJSON)
}.

Definition emptyStorage : Storage := mkStorage None None.

(** ** The monad of the service: local storage and exceptions *)

Inductive Exn : Type := SyntaxError | TypeError.

Definition JS : Type -> Type := eitherT Exn (state Storage).

#[global] Instance Monad_JS : Monad JS :=
  Monad_eitherT Exn (Monad_state Storage).
#[global] Instance MonadExc_JS : MonadExc Exn JS :=
  Exception_eitherT Exn (Monad_state Storage).
#[global] Instance MonadState_JS : MonadState Storage JS :=
  MonadState_eitherT Exn (Monad_state Storage) (MonadState_state Storage).

(** Running a computation: how it completes, and the storage it leaves. *)
Definition run {A : Type} (c : JS A) (st : Storage) : (Exn + A) * Storage :=
  runState (unEitherT c) st.

(** [JSON.parse(stored).map(f)]; [f] reads a property of its argument. *)
Fixpoint map_elems {R A : Type} (f : R -> A) (elems : list (option R)) : JS (list A) :=
  match elems with
  | [] => ret []
  | None :: _ => raise TypeError
  | Some e :: rest => tl <- map_elems f rest ;; ret (f e :: tl)
  end.

Definition JSON_parse_map {R A : Type} (f : R -> A) (stored : Item R) : JS (list A) :=
  match stored with
  | NotJSON => raise SyntaxError
  | NotArray => raise TypeError
  | JSONArray elems => map_elems f elems
  end.

(** [JSON.stringify(records)] *)
Definition JSON_stringify {R A : Type} (f : A -> R) (records : list A) : Item R :=
  JSONArray (map (fun r => Some (f r)) records).

Definition setItem_reviews (v : Item CardReviewJSON) : JS unit :=
  st <- get ;; put (mkStorage (Some v) (studyForge_sr_sessions st)).

Definition setItem_sessions (v : Item StudySessionJSON) : JS unit :=
  st <- get ;; put (mkStorage (studyForge_sr_reviews st) (Some v)).

Definition getReviews : JS (list CardReview) :=
  st <- get ;;
  match studyForge_sr_reviews st with
  | None => ret []
  | Some stored =>
      catch (JSON_parse_map (Review.mapDates Date_of_JSON) stored)
            (fun _ => ret [])
  end.

Definition getSessions : JS (list StudySession) :=
  st <- get ;;
  match studyForge_sr_sessions st with
  | None => ret []
  | Some stored =>
      catch (JSON_parse_map (Session.mapDates Date_of_JSON) stored)
            (fun _ => ret [])
  end.

(** ** Arrays *)

(** [Array.prototype.sort(cmp)].  The comparator returns a number; [NaN]
    counts as [+0].  The sort is stable (ECMAScript 2019), and for a
    consistent comparator every stable sort returns the same array:
    insertion from the right is one of them. *)
Definition cmp_le {A : Type} (cmp : A -> A -> number) (a b : A) : bool :=
  match cmp a b with
  | Some v => v <=? 0
  | None => true
  end.

Fixpoint insert_sorted {A : Type} (cmp : A -> A -> number) (x : A) (l : list A) : list A :=
  match l with
  | [] => [x]
  | y :: rest => if cmp_le cmp x y then x :: l else y :: insert_sorted cmp x rest
  end.

Definition Array_sort {A : Type} (cmp : A -> A -> number) (l : list A) : list A :=
  fold_right (insert_sorted cmp) [] l.

(** [l.slice(0, limit)]: a negative [limit] counts from the end. *)
Definition Array_slice0 {A : Type} (limit : Z) (l : list A) : list A :=
  let len := Z.of_nat (length l) in
  let final := if limit <? 0 then Z.max (len + limit) 0 else Z.min limit len in
  firstn (Z.to_nat final) l.

(** [for (const x of l) { if (...) out.push(...) }] *)
Fixpoint for_push {A B : Type} (body : A -> option B) (l : list A) : list B :=
  match l with
  | [] => []
  | x :: rest =>
      match body x with
      | Some y => y :: for_push body rest
      | None => for_push body rest
      end
  end.

(** The element a [find] callback may then mutate in place: the first one
    that satisfies [p] is replaced, the array keeps its order. *)
Fixpoint update_first {A : Type} (p : A -> bool) (f : A -> A) (l : list A) : list A :=
  match l with
  | [] => []
  | x :: rest => if p x then f x :: rest else x :: update_first p f rest
  end.

(** ** Flashcards and what the two listings return *)

Inductive Difficulty : Type := easy | medium | hard.

Module Card.
Record t : Type := mk {
  id : string;
  question : string;
  answer : string;
  difficulty : Difficulty
}.
End Card.

Module Due.
Record t : Type := mk {
  card : Card.t;
  lastReview : option Date;
  nextReview : Date;
  interval : Z;
  repetitions : Z
}.
End Due.

Module Upcoming.
Record t : Type := mk {
  card : Card.t;
  nextReview : Date;
  interval : Z
}.
End Upcoming.

Module Stats.
Record t : Type := mk {
  reviewed : Z;
  learned : Z;
  accuracy : Q;
  streak : Z
}.
End Stats.

(** ** getDueCards *)

Definition dueEntry (reviews : list CardReview) (studyPackId : string)
    (now : Date) (card : Card.t) : option Due.t :=
  match find (Review.is_for (Card.id card) studyPackId) reviews with
  | None => Some (Due.mk card None now 0 0)
  | Some review =>
      if Date_le (Review.nextReview review) now
      then Some (Due.mk card (Some (Review.reviewDate review))
                        (Review.nextReview review)
                        (Review.interval review) (Review.repetitions review))
      else None
  end.

(** New cards first, then by due date. *)
Definition due_compare (a b : Due.t) : number :=
  match Due.lastReview a, Due.lastReview b with
  | None, Some _ => Some (-1)
  | Some _, None => Some 1
  | _, _ => num_sub (getTime (Due.nextReview a)) (getTime (Due.nextReview b))
  end.

Definition getDueCards (studyPackId : string) (flashcards : list Card.t)
    (clk : Clock) : JS (list Due.t) :=
  reviews <- getReviews ;;
  let now := new_Date clk in
  let dueCards := for_push (dueEntry reviews studyPackId now) flashcards in
  ret (Array_sort due_compare dueCards).

(** ** getUpcomingCards *)

Definition upcomingEntry (reviews : list CardReview) (studyPackId : string)
    (now : Date) (card : Card.t) : option Upcoming.t :=
  match find (Review.is_for (Card.id card) studyPackId) reviews with
  | None => None
  | Some review =>
      if Date_gt (Review.nextReview review) now
      then Some (Upcoming.mk card (Review.nextReview review) (Review.interval review))
      else None
  end.

Definition upcoming_compare (a b : Upcoming.t) : number :=
  num_sub (getTime (Upcoming.nextReview a)) (getTime (Upcoming.nextReview b)).

Definition getUpcomingCards (studyPackId : string) (flashcards : list Card.t)
    (limit : Z) (clk : Clock) : JS (list Upcoming.t) :=
  reviews <- getReviews ;;
  let now := new_Date clk in
  let upcomingCards := for_push (upcomingEntry reviews studyPackId now) flashcards in
  ret (Array_slice0 limit (Array_sort upcoming_compare upcomingCards)).

(** The default value of the parameter [limit]. *)
Definition default_limit : Z := 10.

(** ** recordReview *)

(** The new ease factor and repetition count, lines 80-86. *)
Definition nextEase (existingReview : option CardReview) (quality : Z) : Q :=
  match existingReview with
  | Some e =>
      Qmax 1.3 (Review.easeFactor e
                + (0.1 - (5 - inject_Z quality)
                         * (0.08 + (5 - inject_Z quality) * 0.02)))%Q
  | None => 2.5%Q
  end.

Definition nextRepetitions (existingReview : option CardReview) (quality : Z) : Z :=
  match existingReview with
  | Some e => if quality <? 3 then 0 else Review.repetitions e + 1
  | None => if quality <? 3 then 0 else 1
  end.

(** [existingReview?.interval || 1] *)
Definition interval_or_1 (existingReview : option CardReview) : Z :=
  match existingReview with
  | Some e => if Review.interval e =? 0 then 1 else Review.interval e
  | None => 1
  end.

(** The base interval, lines 88-94. *)
Definition baseInterval (existingReview : option CardReview)
    (easeFactor : Q) (repetitions : Z) : Z :=
  if repetitions =? 0 then 1
  else if repetitions =? 1 then 6
  else Math_round (inject_Z (interval_or_1 existingReview) * easeFactor)%Q.

(** The quality-based adjustment, the [switch] of lines 97-110. *)
Definition adjustInterval (quality : Z) (interval : Z) : Z :=
  match quality with
  | 1 => Z.max 1 (Math_round (inject_Z interval * 0.2)%Q)
  | 2 => Z.max 1 (Math_round (inject_Z interval * 0.6)%Q)
  | 3 => interval
  | 4 => Math_round (inject_Z interval * 1.3)%Q
  | _ => interval
  end.

(** The record of lines 115-124. *)
Definition newReview (existingReview : option CardReview)
    (studyPackId cardId : string) (quality : Z) (clk : Clock) : CardReview :=
  let easeFactor := nextEase existingReview quality in
  let repetitions := nextRepetitions existingReview quality in
  let interval :=
    adjustInterval quality (baseInterval existingReview easeFactor repetitions) in
  let now := new_Date clk in
  let nextReview :=
    Date_of_number
      (option_map (fun t => t + interval * 24 * 60 * 60 * 1000) (getTime now)) in
  Review.mk cardId studyPackId quality now interval easeFactor repetitions nextReview.

(** The session of [studyPackId] dated [today], lines 167-171. *)
Definition is_today (studyPackId : string) (today : Date) (s : StudySession) : bool :=
  (Session.studyPackId s =? studyPackId)%string
  && num_eq (getTime (Session.date s)) (getTime today).

(** The mutation of lines 174-176. *)
Definition bumpSession (quality : Z) (todaySession : StudySession) : StudySession :=
  let totalQuality :=
    (Session.averageQuality todaySession
     * inject_Z (Session.cardsReviewed todaySession)
     + inject_Z quality)%Q in
  let cardsReviewed := Session.cardsReviewed todaySession + 1 in
  Session.mk (Session.studyPackId todaySession) (Session.date todaySession)
             cardsReviewed (totalQuality / inject_Z cardsReviewed)%Q.

(** Lines 173-185: [todaySession] is an element of [sessions], so the
    mutation shows in the array that is written back. *)
Definition upsertSession (studyPackId : string) (quality : Z) (today : Date)
    (sessions : list StudySession) : list StudySession :=
  match find (is_today studyPackId today) sessions with
  | Some _ => update_first (is_today studyPackId today) (bumpSession quality) sessions
  | None => sessions ++ [Session.mk studyPackId today 1 (inject_Z quality)]
  end.

Definition updateSessionStats (studyPackId : string) (quality : Z)
    (clk : Clock) : JS unit :=
  sessions <- getSessions ;;
  let today := setHours0 clk in
  setItem_sessions
    (JSON_stringify (Session.mapDates Date_toJSON)
                    (upsertSession studyPackId quality today sessions)).

(** Lines 126-127: the record of the pair is filtered out, the new one pushed. *)
Definition updatedReviews (reviews : list CardReview) (studyPackId cardId : string)
    (quality : Z) (clk : Clock) : list CardReview :=
  let existingReview := find (Review.is_for cardId studyPackId) reviews in
  filter (fun r => negb (Review.is_for cardId studyPackId r)) reviews
  ++ [newReview existingReview studyPackId cardId quality clk].

Definition recordReview (studyPackId cardId : string) (quality : Z)
    (clk : Clock) : JS unit :=
  reviews <- getReviews ;;
  setItem_reviews
    (JSON_stringify (Review.mapDates Date_toJSON)
                    (updatedReviews reviews studyPackId cardId quality clk)) ;;
  updateSessionStats studyPackId quality clk.

(** ** calculateStreak *)

(** The [for] loop of lines 201-211, with its [break]. *)
Fixpoint streakLoop (sessions : list StudySession) (streak : Z)
    (currentDate : Date) : Z :=
  match sessions with
  | [] => streak
  | session :: rest =>
      let sessionDate := Session.date session in
      let daysDiff :=
        option_map (fun d => Math_floor (inject_Z d / inject_Z (1000 * 60 * 60 * 24))%Q)
                   (num_sub (getTime currentDate) (getTime sessionDate)) in
      if num_eq daysDiff (Some streak)
         || ((streak =? 0) && num_le daysDiff (Some 1))
      then streakLoop rest (streak + 1) sessionDate
      else streak
  end.

Definition session_compare_desc (a b : StudySession) : number :=
  num_sub (getTime (Session.date b)) (getTime (Session.date a)).

Definition calculateStreak (studyPackId : string) (clk : Clock) : JS Z :=
  all <- getSessions ;;
  let sessions :=
    Array_sort session_compare_desc
      (filter (fun s => (Session.studyPackId s =? studyPackId)%string) all) in
  if (Z.of_nat (length sessions) =? 0) then ret 0
  else ret (streakLoop sessions 0 (setHours0 clk)).

(** ** getTodayStats *)

Definition getTodayStats (studyPackId : string) (clk : Clock) : JS Stats.t :=
  reviews <- getReviews ;;
  _ <- getSessions ;;
  let today := setHours0 clk in
  let tomorrow :=
    Date_of_number (option_map (fun t => t + 24 * 60 * 60 * 1000) (getTime today)) in
  let todayReviews :=
    filter (fun r => (Review.studyPackId r =? studyPackId)%string
                     && Date_ge (Review.reviewDate r) today
                     && Date_lt (Review.reviewDate r) tomorrow) reviews in
  let newCards :=
    Z.of_nat (length (filter (fun r => Review.repetitions r =? 1) todayReviews)) in
  let count := Z.of_nat (length todayReviews) in
  let correct :=
    fold_left (fun sum r => sum + (if 3 <=? Review.quality r then 1 else 0))
              todayReviews 0 in
  let accuracy :=
    if 0 <? count then (inject_Z correct / inject_Z count)%Q else 0%Q in
  streak <- calculateStreak studyPackId clk ;;
  ret (Stats.mk count newCards accuracy streak).

(** ** deleteData *)

Definition deleteData (studyPackId : string) : JS unit :=
  all_reviews <- getReviews ;;
  let reviews :=
    filter (fun r => negb (Review.studyPackId r =? studyPackId)%string) all_reviews in
  all_sessions <- getSessions ;;
  let sessions :=
    filter (fun s => negb (Session.studyPackId s =? studyPackId)%string) all_sessions in
  setItem_reviews (JSON_stringify (Review.mapDates Date_toJSON) reviews) ;;
  setItem_sessions (JSON_stringify (Session.mapDates Date_toJSON) sessions).

(** ** Sequences of calls *)

Inductive Call : Type :=
| CallRecordReview (studyPackId cardId : string) (quality : Z) (clk : Clock)
| CallDeleteData (studyPackId : string).

Definition perform (c : Call) : JS unit :=
  match c with
  | CallRecordReview studyPackId cardId quality clk =>
      recordReview studyPackId cardId quality clk
  | CallDeleteData studyPackId => deleteData studyPackId
  end.

Fixpoint performAll (calls : list Call) : JS unit :=
  match calls with
  | [] => ret tt
  | c :: rest => perform c ;; performAll rest
  end.

(** ** The storage as the service reads it *)

(** What [getReviews] and [getSessions] return on a storage. *)
Definition storedReviews (st : Storage) : list CardReview :=
  match fst (run getReviews st) with
  | inr reviews => reviews
  | inl _ => []
  end.

Definition storedSessions (st : Storage) : list StudySession :=
  match fst (run getSessions st) with
  | inr sessions => sessions
  | inl _ => []
  end.

(** A date after [JSON.stringify] and a later read. *)
Definition reload (d : Date) : Date := Date_of_JSON (Date_toJSON d).

(** An array without a [null] element. *)
Definition no_null {R : Type} (elems : list (option R)) : bool :=
  forallb (fun e => match e with Some _ => true | None => false end) elems.

(** What the parse inside [try], with its [catch], yields. *)
Definition parse_or_empty {R A : Type} (f : R -> A) (stored : option (Item R)) : list A :=
  match stored with
  | Some (JSONArray elems) => if no_null elems then for_push (option_map f) elems else []
  | _ => []
  end.

(** ** The storage a call leaves, and how a call ends *)

Definition afterReview (studyPackId cardId : string) (quality : Z) (clk : Clock)
    (st : Storage) : Storage :=
  snd (run (recordReview studyPackId cardId quality clk) st).

Definition afterDelete (studyPackId : string) (st : Storage) : Storage :=
  snd (run (deleteData studyPackId) st).

Definition afterCall (c : Call) (st : Storage) : Storage :=
  snd (run (perform c) st).

Definition afterCalls (calls : list Call) (st : Storage) : Storage :=
  snd (run (performAll calls) st).

(** A computation that ends in an exception. *)
Definition throws {A : Type} (c : JS A) (st : Storage) : Prop :=
  exists e, fst (run c st) = inl e.

(** [c] completes on [st], with the result it has on [st']. *)
Definition same_result {A : Type} (c : JS A) (st st' : Storage) : Prop :=
  exists a, fst (run c st) = inr a /\ fst (run c st') = inr a.

(** ** The two listings *)

Definition dueCardsOf (studyPackId : string) (flashcards : list Card.t)
    (clk : Clock) (st : Storage) : list Due.t :=
  match fst (run (getDueCards studyPackId flashcards clk) st) with
  | inr cards => cards
  | inl _ => []
  end.

Definition upcomingCardsOf (studyPackId : string) (flashcards : list Card.t)
    (limit : Z) (clk : Clock) (st : Storage) : list Upcoming.t :=
  match fst (run (getUpcomingCards studyPackId flashcards limit clk) st) with
  | inr cards => cards
  | inl _ => []
  end.

(** The order of the due list: cards never reviewed first, then by the
    time of the next review. *)
Definition due_before (a b : Due.t) : Prop :=
  match Due.lastReview a, Due.lastReview b with
  | None, _ => True
  | Some _, None => False
  | Some _, Some _ =>
      num_le (getTime (Due.nextReview a)) (getTime (Due.nextReview b)) = true
  end.

(** The order of the upcoming list: by the time of the next review. *)
Definition upcoming_before (a b : Upcoming.t) : Prop :=
  num_le (getTime (Upcoming.nextReview a)) (getTime (Upcoming.nextReview b)) = true.

(** ** Clock readings and dates in range *)

(** A date object that holds a time value. *)
Definition valid_date (d : Date) : Prop :=
  match d with
  | TimeValue t => Z.abs t <= MAX_TIME
  | InvalidDate => False
  end.

(** A clock reading that is a date, as is its local midnight. *)
Definition clock_ok (clk : Clock) : Prop :=
  Z.abs (now clk) <= MAX_TIME /\ Z.abs (localMidnight clk) <= MAX_TIME.

Definition call_clock_ok (c : Call) : Prop :=
  match c with
  | CallRecordReview _ _ _ clk => clock_ok clk
  | CallDeleteData _ => True
  end.

(** A review graded 1..4 at a clock reading that is a date. *)
Definition call_graded (c : Call) : Prop :=
  match c with
  | CallRecordReview _ _ quality clk => 1 <= quality <= 4 /\ clock_ok clk
  | CallDeleteData _ => True
  end.

(** The clock [days] days and [ms] milliseconds after [clk]. *)
Definition later (days ms : Z) (clk : Clock) : Clock :=
  mkClock (now clk + days * MS_PER_DAY + ms) (zone clk).

(** ** Invariants of the stored collections *)

Definition at_most_one_review (st : Storage) : Prop :=
  forall cardId studyPackId,
    (length (filter (Review.is_for cardId studyPackId) (storedReviews st)) <= 1)%nat.

Definition at_most_one_session (st : Storage) : Prop :=
  forall studyPackId day,
    (length (filter (is_today studyPackId day) (storedSessions st)) <= 1)%nat.

Definition session_dates_valid (st : Storage) : Prop :=
  Forall (fun s => valid_date (Session.date s)) (storedSessions st).

(** What [recordReview] keeps true of every review it stores: a positive
    interval, an ease factor of at least 1.3, a review date that is a
    date, and a next review scheduled [interval] days after it. *)
Definition review_scheduled (r : CardReview) : Prop :=
  1 <= Review.interval r
  /\ (1.3 <= Review.easeFactor r)%Q
  /\ exists t,
      Z.abs t <= MAX_TIME
      /\ Review.reviewDate r = TimeValue t
      /\ Review.nextReview r = reload (TimeClip (t + Review.interval r * MS_PER_DAY)).

(** The next review is at least 24 hours after the review. *)
Definition next_review_a_day_later (r : CardReview) : Prop :=
  exists t n,
    Review.reviewDate r = TimeValue t
    /\ Review.nextReview r = TimeValue n
    /\ t + MS_PER_DAY <= n.

(** ** Stored text that cannot be read *)

(** The text on which [JSON.parse(stored).map(...)] throws. *)
Definition parse_throws {R : Type} (stored : Item R) : bool :=
  match stored with
  | NotJSON => true
  | NotArray => true
  | JSONArray elems => negb (no_null elems)
  end.

Definition discard_unreadable {R : Type} (stored : option (Item R)) : option (Item R) :=
  match stored with
  | Some item => if parse_throws item then None else Some item
  | None => None
  end.

(** The storage with every unreadable item removed. *)
Definition recover (st : Storage) : Storage :=
  mkStorage (discard_unreadable (studyForge_sr_reviews st))
            (discard_unreadable (studyForge_sr_sessions st)).

Definition is_date_string (v : JSONDate) : bool :=
  match v with
  | DateString _ => true
  | _ => false
  end.

(** An item that is the JSON of a list of review records: an array of
    objects whose two dates are date strings. *)
Definition is_review_list (stored : Item CardReviewJSON) : bool :=
  match stored with
  | JSONArray elems =>
      forallb (fun e => match e with
                        | Some r => is_date_string (Review.reviewDate r)
                                    && is_date_string (Review.nextReview r)
                        | None => false
                        end) elems
  | _ => false
  end.

(** ** The formulas in binary64

    The same lines of [recordReview] on IEEE 754 doubles, to compare the
    exact arithmetic of the model with the arithmetic JavaScript does on
    the scenarios of the specification. *)

(** Line 81, for an ease factor and a quality that are not [NaN]. *)
Definition nextEase_binary64 (oldEase quality : float) : float :=
  let x := (oldEase + (0.1 - (5 - quality) * (0.08 + (5 - quality) * 0.02)))%float in
  if PrimFloat.ltb 1.3%float x then x else 1.3%float.

(** [Math.round(x) === n] for an integer [n] of small magnitude. *)
Definition rounds_to (x n : float) : bool :=
  PrimFloat.leb (n - 0.5)%float x && PrimFloat.ltb x (n + 0.5)%float.

(** ** Sample inputs *)

(** 2023-11-14T22:13:20Z, read in a zone on UTC. *)
Definition sample_clock : Clock := mkClock 1700000000000 (fixedZone 0).

Definition sample_card : Card.t := Card.mk "card" "What is 2 + 2?" "4" easy.

Definition sample_card2 : Card.t := Card.mk "card2" "What is 3 + 3?" "6" medium.

(** A card reviewed twice with success, six days ago. *)
Definition sample_review : CardReviewJSON :=
  Review.mk "card" "deck" 3 (DateString 1699481600000) 6 2.5%Q 2
            (DateString 1700000000000).

Definition sample_prior : Storage :=
  mkStorage (Some (JSONArray [Some sample_review])) None.

(** A stored session of [studyPackId] dated [t]. *)
Definition session_on (studyPackId : string) (t : Z) (cardsReviewed : Z)
    (averageQuality : Q) : option StudySessionJSON :=
  Some (Session.mk studyPackId (DateString t) cardsReviewed averageQuality).

(** Fifteen reviews of one card in a row, each graded 4, a minute apart. *)
Definition fifteen_easy_reviews : list Call :=
  map (fun k => CallRecordReview "deck" "card" 4 (later 0 (k * 60000) sample_clock))
      [0; 1; 2; 3; 4; 5; 6; 7; 8; 9; 10; 11; 12; 13; 14].

(** A stored review whose [nextReview] is not a date. *)
Definition undated_review : CardReviewJSON :=
  Review.mk "card" "deck" 3 (DateString 1699481600000) 6 2.5%Q 2 DateOther.

Definition undated_storage : Storage :=
  mkStorage (Some (JSONArray [Some undated_review])) None.

(** Text that is not JSON under both keys. *)
Definition corrupt_storage : Storage := mkStorage (Some NotJSON) (Some NotJSON).

(** Two cards, both reviewed, both scheduled after [sample_clock]. *)
Definition two_upcoming : Storage :=
  mkStorage
    (Some (JSONArray
       [Some (Review.mk "card" "deck" 3 (DateString 1699900000000) 6 2.5%Q 1
                        (DateString 1700418400000));
        Some (Review.mk "card2" "deck" 3 (DateString 1699900000000) 6 2.5%Q 1
                        (DateString 1700418400001))]))
    None.

(** ** Further vocabulary for the properties of the service *)

(** The record of a pair after a review of it. *)
Definition reviewAfter (studyPackId cardId : string) (quality : Z) (clk : Clock)
    (st : Storage) : option CardReview :=
  find (Review.is_for cardId studyPackId)
       (storedReviews (afterReview studyPackId cardId quality clk st)).

(** A stored review as graded calls leave it: a grade in 1..4, an ease
    factor between the floor 1.3 and the start 2.5, and repetitions that
    are 0 after a failed grade and positive after a passed one. *)
Definition review_graded (r : CardReview) : Prop :=
  1 <= Review.quality r <= 4
  /\ (1.3 <= Review.easeFactor r)%Q /\ (Review.easeFactor r <= 2.5)%Q
  /\ (Review.quality r < 3 -> Review.repetitions r = 0 /\ Review.interval r = 1)
  /\ (3 <= Review.quality r -> 1 <= Review.repetitions r).

Definition sample_calls : list Call :=
  [CallRecordReview "deck" "card" 3 sample_clock;
   CallRecordReview "deck" "card2" 1 (later 0 60000 sample_clock);
   CallRecordReview "deck" "card" 4 (later 6 0 sample_clock);
   CallRecordReview "other" "card" 2 (later 6 60000 sample_clock)].

Definition todayStatsOf (studyPackId : string) (clk : Clock) (st : Storage) : Stats.t :=
  match fst (run (getTodayStats studyPackId clk) st) with
  | inr stats => stats
  | inl _ => Stats.mk 0 0 0 0
  end.

Definition streakOf (studyPackId : string) (clk : Clock) (st : Storage) : Z :=
  match fst (run (calculateStreak studyPackId clk) st) with
  | inr streak => streak
  | inl _ => 0
  end.

(** The reviews [getTodayStats] counts: those of the deck whose review
    date is at or after today's local midnight and before the next. *)
Definition reviewedToday (studyPackId : string) (clk : Clock)
    (reviews : list CardReview) : list CardReview :=
  let today := setHours0 clk in
  let tomorrow :=
    Date_of_number (option_map (fun t => t + 24 * 60 * 60 * 1000) (getTime today)) in
  filter (fun r => (Review.studyPackId r =? studyPackId)%string
                   && Date_ge (Review.reviewDate r) today
                   && Date_lt (Review.reviewDate r) tomorrow) reviews.


(** A session of the deck dated after the instant [t]. *)
Definition session_since (studyPackId : string) (t : Z) (s : StudySession) : Prop :=
  Session.studyPackId s = studyPackId
  /\ exists d, Session.date s = TimeValue d /\ t < d.

Definition sessions_newest_first (a b : StudySession) : Prop :=
  num_le (getTime (Session.date b)) (getTime (Session.date a)) = true.


(** ** The grades a session summarises *)

(** The grades given to the cards of a deck on the day whose local
    midnight is [day], since the data of the deck was last deleted, in the
    order of the calls. *)
Definition gradesStep (studyPackId : string) (day : Z) (grades : list Z)
    (c : Call) : list Z :=
  match c with
  | CallRecordReview p _ quality clk =>
      if (p =? studyPackId)%string && (localMidnight clk =? day)
      then grades ++ [quality] else grades
  | CallDeleteData p =>
      if (p =? studyPackId)%string then [] else grades
  end.

Definition gradesOn (studyPackId : string) (day : Z) (calls : list Call) : list Z :=
  fold_left (gradesStep studyPackId day) calls [].

Definition total (grades : list Z) : Z := fold_right Z.add 0 grades.

(** The sessions stored for a deck and a day summarise the grades [grades]:
    none when there is no grade, else one, with their number and mean. *)
Definition tally (grades : list Z) (sessions : list StudySession) : Prop :=
  match grades with
  | [] => sessions = []
  | _ :: _ =>
      exists s,
        sessions = [s]
        /\ Session.cardsReviewed s = Z.of_nat (length grades)
        /\ (Session.averageQuality s * inject_Z (Z.of_nat (length grades))
            == inject_Z (total grades))%Q
  end.

Definition session_tallies (calls : list Call) (st : Storage) : Prop :=
  forall studyPackId day,
    tally (gradesOn studyPackId day calls)
          (filter (is_today studyPackId (TimeValue day)) (storedSessions st)).


(** ** Calls that concern a card *)

(** A call that writes the record of the card in the deck: a review of
    the card, or the deletion of the data of the deck. *)
Definition touches (studyPackId cardId : string) (c : Call) : bool :=
  match c with
  | CallRecordReview p card _ _ => (p =? studyPackId)%string && (card =? cardId)%string
  | CallDeleteData p => (p =? studyPackId)%string
  end.

Definition untouched (studyPackId cardId : string) (calls : list Call) : bool :=
  forallb (fun c => negb (touches studyPackId cardId c)) calls.


(** ** SpacedRepetitionViewer: the study session of the component *)

(** The state of the component.  The due cards are the objects
    [getDueCards] returns: a card with its schedule. *)
Module Viewer.
Record t : Type := mk {
  dueCards : list Due.t;
  currentCard : option Due.t;
  showAnswer : bool;
  todayStats : option Stats.t;
  sessionComplete : bool
}.
End Viewer.

(** The initial values of the [useState] hooks. *)
Definition initialViewer : Viewer.t := Viewer.mk [] None false None false.

(** [due[0] || null] *)
Definition first_or_null {A : Type} (l : list A) : option A := hd_error l.

Definition loadDueCards (studyPackId : string) (flashcards : list Card.t)
    (clk : Clock) (v : Viewer.t) : JS Viewer.t :=
  due <- getDueCards studyPackId flashcards clk ;;
  ret (Viewer.mk due (first_or_null due) false (Viewer.todayStats v)
                 (Z.of_nat (length due) =? 0)).

Definition loadTodayStats (studyPackId : string) (clk : Clock)
    (v : Viewer.t) : JS Viewer.t :=
  stats <- getTodayStats studyPackId clk ;;
  ret (Viewer.mk (Viewer.dueCards v) (Viewer.currentCard v) (Viewer.showAnswer v)
                 (Some stats) (Viewer.sessionComplete v)).

(** [handleAnswer(quality)]; [clk] is the clock reading of [recordReview],
    [clk'] the one of [getTodayStats]. *)
Definition handleAnswer (studyPackId : string) (quality : Z) (clk clk' : Clock)
    (v : Viewer.t) : JS Viewer.t :=
  match Viewer.currentCard v with
  | None => ret v
  | Some currentCard =>
      recordReview studyPackId (Card.id (Due.card currentCard)) quality clk ;;
      let remainingCards := skipn 1 (Viewer.dueCards v) in
      loadTodayStats studyPackId clk'
        (Viewer.mk remainingCards (first_or_null remainingCards) false
                   (Viewer.todayStats v)
                   (if Z.of_nat (length remainingCards) =? 0 then true
                    else Viewer.sessionComplete v))
  end.

(** One press of a grade button. *)
Record Answer : Type := mkAnswer {
  grade : Z;
  answeredAt : Clock;
  statsAt : Clock
}.

Fixpoint answerAll (studyPackId : string) (answers : list Answer)
    (v : Viewer.t) : JS Viewer.t :=
  match answers with
  | [] => ret v
  | a :: rest =>
      v' <- handleAnswer studyPackId (grade a) (answeredAt a) (statsAt a) v ;;
      answerAll studyPackId rest v'
  end.

(** The effect that runs when the component is mounted; [clk] is the
    clock reading of [getDueCards], [clk'] the one of [getTodayStats]. *)
Definition mount (studyPackId : string) (flashcards : list Card.t)
    (clk clk' : Clock) : JS Viewer.t :=
  v <- loadDueCards studyPackId flashcards clk initialViewer ;;
  loadTodayStats studyPackId clk' v.

(** The component is mounted, then the grade buttons are pressed. *)
Definition studySession (studyPackId : string) (flashcards : list Card.t)
    (clk clk' : Clock) (answers : list Answer) : JS Viewer.t :=
  v <- mount studyPackId flashcards clk clk' ;;
  answerAll studyPackId answers v.

(** The reviews a session records: the due cards in their order, each
    with the grade of the answer of the same rank. *)
Definition sessionCalls (studyPackId : string) (due : list Due.t)
    (answers : list Answer) : list Call :=
  map (fun da => CallRecordReview studyPackId (Card.id (Due.card (fst da)))
                                  (grade (snd da)) (answeredAt (snd da)))
      (combine due answers).

(** The current card is the head of the due list, and the session is
    complete exactly when the list is empty. *)
Definition viewer_ok (v : Viewer.t) : Prop :=
  Viewer.currentCard v = first_or_null (Viewer.dueCards v)
  /\ Viewer.sessionComplete v = (Z.of_nat (length (Viewer.dueCards v)) =? 0).

Definition answer_graded (a : Answer) : Prop :=
  1 <= grade a <= 4 /\ clock_ok (answeredAt a).

(** The review is scheduled within the range of dates. *)
Definition schedule_in_range (r : CardReview) : Prop :=
  match Review.reviewDate r with
  | TimeValue t => t + Review.interval r * MS_PER_DAY <= MAX_TIME
  | InvalidDate => False
  end.

Definition sample_answers : list Answer :=
  [mkAnswer 3 (later 30 1000 sample_clock) (later 30 1001 sample_clock);
   mkAnswer 1 (later 30 9000 sample_clock) (later 30 9002 sample_clock)].


Definition schedule_in_rangeb (r : CardReview) : bool :=
  match Review.reviewDate r with
  | TimeValue t => t + Review.interval r * MS_PER_DAY <=? MAX_TIME
  | InvalidDate => false
  end.


(** [formatTimeUntilNext]: the three template strings, with the numbers
    they print. *)
Inductive TimeLabel : Type :=
| DaysHours (days hours : Z)   (* `${days}d ${hours}h` *)
| HoursOnly (hours : Z)        (* `${hours}h` *)
| Soon.                        (* 'Soon' *)

Definition MS_PER_HOUR : Z := 1000 * 60 * 60.

(** [a % b] on integers: the sign of the dividend. *)
Definition num_rem (a : number) (b : Z) : number := option_map (fun x => Z.rem x b) a.

Definition num_floor_div (a : number) (b : Z) : number :=
  option_map (fun x => Math_floor (inject_Z x / inject_Z b)%Q) a.

Definition formatTimeUntilNext (nextReview : Date) (clk : Clock) : TimeLabel :=
  let now := new_Date clk in
  let diff := num_sub (getTime nextReview) (getTime now) in
  let days := num_floor_div diff (1000 * 60 * 60 * 24) in
  let hours := num_floor_div (num_rem diff (1000 * 60 * 60 * 24)) (1000 * 60 * 60) in
  match days, hours with
  | Some d, Some h =>
      if 0 <? d then DaysHours d h
      else if 0 <? h then HoursOnly h
      else Soon
  | _, _ => Soon
  end.

(** The value of the progress bar, line 347. *)
Definition progressPercent (flashcards : list Card.t) (v : Viewer.t) : Q :=
  let due := Z.of_nat (length (Viewer.dueCards v)) in
  let all := Z.of_nat (length flashcards) in
  if 0 <? due then ((inject_Z (all - due) / inject_Z all) * 100)%Q else 0%Q.

(** The viewer a study session leaves. *)
Definition viewerAfter (studyPackId : string) (flashcards : list Card.t)
    (clk clk' : Clock) (answers : list Answer) (st : Storage) : Viewer.t :=
  match fst (run (studySession studyPackId flashcards clk clk' answers) st) with
  | inr v => v
  | inl _ => initialViewer
  end.


(* ================================================================== *)
(** * AnalyticsService *)

(** [d.setHours(0, 0, 0, 0)] on a date object: the beginning of its
    local calendar day, at the offset the zone has on that day. *)
Definition Date_setHours0 (z : Zone) (d : Date) : Date :=
  match d with
  | TimeValue t => TimeClip (midnightOfDay z (Day (LocalTime z t)))
  | InvalidDate => InvalidDate
  end.

(** The number of the calendar day of an instant at the offset [tz]. *)
Definition dayOf (tz t : Z) : Z := (t + tz) / MS_PER_DAY.

Inductive SessionType : Type := type_flashcards | type_quiz | type_mindmap.

Module Performance.
Record t : Type := mk {
  totalQuestions : option Z;
  correctAnswers : option Z;
  accuracy : option Q;
  averageTimePerQuestion : option Q
}.
End Performance.

Module FlashcardStats.
Record t : Type := mk {
  cardsReviewed : Z;
  cardsMarkedDifficult : list Z;
  averageFlipTime : Q
}.
End FlashcardStats.

(** The [StudySession] of the analytics.  An optional property that is
    [undefined] is [None]; so is a [duration] that is [NaN], which
    [JSON.stringify] writes as [null]. *)
Module AnalyticsSession.
Record t (D : Type) : Type := mk {
  id : string;
  studyPackId : string;
  type : SessionType;
  startTime : D;
  endTime : option D;
  duration : option Z;
  performance : option Performance.t;
  flashcardStats : option FlashcardStats.t
}.
Arguments mk {D}.
Arguments id {D}.
Arguments studyPackId {D}.
Arguments type {D}.
Arguments startTime {D}.
Arguments endTime {D}.
Arguments duration {D}.
Arguments performance {D}.
Arguments flashcardStats {D}.

Definition mapDates {D D' : Type} (f : D -> D') (g : option D -> option D')
    (s : t D) : t D' :=
  mk (id s) (studyPackId s) (type s) (f (startTime s)) (g (endTime s))
     (duration s) (performance s) (flashcardStats s).
End AnalyticsSession.

Module Progress.
Record t (D : Type) : Type := mk {
  studyPackId : string;
  totalStudyTime : Z;
  sessionsCount : Z;
  lastStudied : D;
  averageAccuracy : Q;
  strongAreas : list string;
  weakAreas : list string;
  streakDays : Z;
  achievements : list string
}.
Arguments mk {D}.
Arguments studyPackId {D}.
Arguments totalStudyTime {D}.
Arguments sessionsCount {D}.
Arguments lastStudied {D}.
Arguments averageAccuracy {D}.
Arguments strongAreas {D}.
Arguments weakAreas {D}.
Arguments streakDays {D}.
Arguments achievements {D}.

Definition mapDates {D D' : Type} (f : D -> D') (p : t D) : t D' :=
  mk (studyPackId p) (totalStudyTime p) (sessionsCount p) (f (lastStudied p))
     (averageAccuracy p) (strongAreas p) (weakAreas p) (streakDays p)
     (achievements p).
End Progress.

Module QuizResult.
Record t (D : Type) : Type := mk {
  questionId : string;
  selectedAnswer : Z;
  correctAnswer : Z;
  isCorrect : bool;
  timeSpent : Q;
  timestamp : D
}.
Arguments mk {D}.
Arguments questionId {D}.
Arguments selectedAnswer {D}.
Arguments correctAnswer {D}.
Arguments isCorrect {D}.
Arguments timeSpent {D}.
Arguments timestamp {D}.

Definition mapDates {D D' : Type} (f : D -> D') (r : t D) : t D' :=
  mk (questionId r) (selectedAnswer r) (correctAnswer r) (isCorrect r)
     (timeSpent r) (f (timestamp r)).
End QuizResult.

(** [{ ...result, studyPackId }], what [recordQuizResult] stores. *)
Module StoredQuizResult.
Record t (D : Type) : Type := mk {
  result : QuizResult.t D;
  studyPackId : string
}.
Arguments mk {D}.
Arguments result {D}.
Arguments studyPackId {D}.

Definition mapDates {D D' : Type} (f : D -> D') (r : t D) : t D' :=
  mk (QuizResult.mapDates f (result r)) (studyPackId r).
End StoredQuizResult.

Notation AnalyticsStudySession := (AnalyticsSession.t Date).
Notation StudyPackProgress := (Progress.t Date).

(** [session.endTime ? new Date(session.endTime) : undefined]; a stored
    [Some DateOther] is a non-empty string that is no date. *)
Definition endTime_of_JSON (v : option JSONDate) : option Date :=
  match v with
  | Some (DateString t) => Some (TimeClip t)
  | Some DateOther => Some InvalidDate
  | Some DateNull => None
  | None => None
  end.

(** [JSON.stringify] leaves an [undefined] property out. *)
Definition endTime_toJSON (v : option Date) : option JSONDate :=
  option_map Date_toJSON v.

Definition reload_endTime (v : option Date) : option Date :=
  endTime_of_JSON (endTime_toJSON v).

(** The three keys of the service in local storage. *)
Record AnalyticsStorage : Type := mkAnalyticsStorage {
  studyForge_sessions : option (Item (AnalyticsSession.t JSONDate));
  studyForge_progress : option (Item (Progress.t JSONDate));
  studyForge_quiz_results : option (Item (StoredQuizResult.t JSONDate))
}.

Definition emptyAnalyticsStorage : AnalyticsStorage :=
  mkAnalyticsStorage None None None.

(** A [Set] of strings, as the list of its elements in insertion order. *)
Definition Set_has (s : list string) (x : string) : bool :=
  existsb (String.eqb x) s.

Definition Set_add (s : list string) (x : string) : list string :=
  if Set_has s x then s else s ++ [x].

Definition new_Set (l : list string) : list string := fold_left Set_add l [].

(** A [Map] with string keys, as the list of its entries in insertion
    order: [set] on a key that is present replaces the value in place. *)
Definition Map_get {V : Type} (m : list (string * V)) (k : string) : option V :=
  option_map snd (find (fun e => (fst e =? k)%string) m).

Fixpoint Map_set {V : Type} (m : list (string * V)) (k : string) (v : V)
    : list (string * V) :=
  match m with
  | [] => [(k, v)]
  | e :: rest =>
      if (fst e =? k)%string then (k, v) :: rest else e :: Map_set rest k v
  end.

Definition Map_delete {V : Type} (m : list (string * V)) (k : string)
    : list (string * V) :=
  filter (fun e => negb (fst e =? k)%string) m.

Definition new_Map {V : Type} (entries : list (string * V)) : list (string * V) :=
  fold_left (fun m e => Map_set m (fst e) (snd e)) entries [].

Definition Map_values {V : Type} (m : list (string * V)) : list V := map snd m.

(** [String(n)] for an integer. *)
Definition string_of_Z (z : Z) : string := NilZero.string_of_int (Z.to_int z).

Module AnalyticsService.

(** The service reads and writes local storage and raises no exception:
    each function takes the storage and returns the storage it leaves. *)

Definition getSessions (st : AnalyticsStorage) : list AnalyticsStudySession :=
  parse_or_empty (AnalyticsSession.mapDates Date_of_JSON endTime_of_JSON)
                 (studyForge_sessions st).

Definition setItem_sessions (sessions : list AnalyticsStudySession)
    (st : AnalyticsStorage) : AnalyticsStorage :=
  mkAnalyticsStorage
    (Some (JSON_stringify (AnalyticsSession.mapDates Date_toJSON endTime_toJSON)
                          sessions))
    (studyForge_progress st) (studyForge_quiz_results st).

(** [sessions] is what [getSessions] returns. *)
Definition getSessionsForStudyPack (studyPackId : string)
    (sessions : list AnalyticsStudySession) : list AnalyticsStudySession :=
  filter (fun s => (AnalyticsSession.studyPackId s =? studyPackId)%string) sessions.

(** [random] is [Math.random().toString(36).substring(2)]. *)
Definition startSession (studyPackId : string) (type : SessionType)
    (clk : Clock) (random : string) (st : AnalyticsStorage)
    : string * AnalyticsStorage :=
  let sessionId :=
    String.append "session_"
      (String.append (string_of_Z (now clk)) (String.append "_" random)) in
  let session :=
    AnalyticsSession.mk sessionId studyPackId type (new_Date clk) None None None None in
  let sessions := getSessions st in
  (sessionId, setItem_sessions (sessions ++ [session]) st).

Definition getQuizResults (st : AnalyticsStorage) : list (StoredQuizResult.t Date) :=
  parse_or_empty (StoredQuizResult.mapDates Date_of_JSON)
                 (studyForge_quiz_results st).

Definition setItem_quiz_results (results : list (StoredQuizResult.t Date))
    (st : AnalyticsStorage) : AnalyticsStorage :=
  mkAnalyticsStorage (studyForge_sessions st) (studyForge_progress st)
    (Some (JSON_stringify (StoredQuizResult.mapDates Date_toJSON) results)).

Definition recordQuizResult (studyPackId : string) (result : QuizResult.t Date)
    (st : AnalyticsStorage) : AnalyticsStorage :=
  let results := getQuizResults st in
  setItem_quiz_results (results ++ [StoredQuizResult.mk result studyPackId]) st.

Definition getQuizResultsForStudyPack (studyPackId : string)
    (st : AnalyticsStorage) : list (QuizResult.t Date) :=
  map StoredQuizResult.result
      (filter (fun r => (StoredQuizResult.studyPackId r =? studyPackId)%string)
              (getQuizResults st)).

Definition createEmptyProgress (studyPackId : string) (clk : Clock)
    : StudyPackProgress :=
  Progress.mk studyPackId 0 0 (new_Date clk) 0%Q [] [] 0 [].

Definition getProgressMap (st : AnalyticsStorage)
    : list (string * StudyPackProgress) :=
  new_Map
    (parse_or_empty
       (fun p => (Progress.studyPackId p, Progress.mapDates Date_of_JSON p))
       (studyForge_progress st)).

Definition saveProgressMap (progressMap : list (string * StudyPackProgress))
    (st : AnalyticsStorage) : AnalyticsStorage :=
  mkAnalyticsStorage (studyForge_sessions st)
    (Some (JSON_stringify (Progress.mapDates Date_toJSON) (Map_values progressMap)))
    (studyForge_quiz_results st).

(** [progressMap.get(studyPackId) || this.createEmptyProgress(studyPackId)] *)
Definition get_or_empty (progressMap : list (string * StudyPackProgress))
    (studyPackId : string) (clk : Clock) : StudyPackProgress :=
  match Map_get progressMap studyPackId with
  | Some progress => progress
  | None => createEmptyProgress studyPackId clk
  end.

Definition getProgress (studyPackId : string) (clk : Clock)
    (st : AnalyticsStorage) : StudyPackProgress :=
  get_or_empty (getProgressMap st) studyPackId clk.

Definition getAllProgress (st : AnalyticsStorage) : list StudyPackProgress :=
  Map_values (getProgressMap st).

(** The [for] loop of lines 460-472, with its [break]. *)
Fixpoint streakLoop (z : Zone) (sessions : list AnalyticsStudySession) (streak : Z)
    (lastDate : Date) : Z :=
  match sessions with
  | [] => streak
  | session :: rest =>
      let sessionDate := Date_setHours0 z (AnalyticsSession.startTime session) in
      let daysDiff :=
        option_map (fun d => Math_floor (inject_Z d / inject_Z (1000 * 60 * 60 * 24))%Q)
                   (num_sub (getTime lastDate) (getTime sessionDate)) in
      if num_eq daysDiff (Some 0) || num_eq daysDiff (Some 1)
      then streakLoop z rest
             (if num_eq daysDiff (Some 1) then streak + 1 else streak) sessionDate
      else streak
  end.

Definition session_compare_desc (a b : AnalyticsStudySession) : number :=
  num_sub (getTime (AnalyticsSession.startTime b))
          (getTime (AnalyticsSession.startTime a)).

(** [all] is what [getSessions] returns. *)
Definition calculateStreak (studyPackId : string) (clk : Clock)
    (all : list AnalyticsStudySession) : Z :=
  let sessions :=
    Array_sort session_compare_desc (getSessionsForStudyPack studyPackId all) in
  if Z.of_nat (length sessions) =? 0 then 0
  else streakLoop (zone clk) sessions 0 (setHours0 clk).

(** One [if] of [updateAchievements]. *)
Definition award (condition : bool) (badge : string)
    (achievements : list string) : list string :=
  if condition && negb (Set_has achievements badge)
  then Set_add achievements badge
  else achievements.

(** The progress object after [updateAchievements] has changed it. *)
Definition updateAchievements (progress : StudyPackProgress) : StudyPackProgress :=
  let achievements := new_Set (Progress.achievements progress) in
  let achievements :=
    award (5 <=? Progress.sessionsCount progress) "consistent_learner" achievements in
  let achievements :=
    award (7 <=? Progress.streakDays progress) "week_warrior" achievements in
  let achievements :=
    award (Qle_bool 0.9 (Progress.averageAccuracy progress)) "accuracy_master"
          achievements in
  let achievements :=
    award (3600 <=? Progress.totalStudyTime progress) "time_champion" achievements in
  Progress.mk (Progress.studyPackId progress) (Progress.totalStudyTime progress)
              (Progress.sessionsCount progress) (Progress.lastStudied progress)
              (Progress.averageAccuracy progress) (Progress.strongAreas progress)
              (Progress.weakAreas progress) (Progress.streakDays progress)
              achievements.

(** [s.performance?.accuracy], when it is not [undefined]. *)
Definition accuracy_of (s : AnalyticsStudySession) : option Q :=
  match AnalyticsSession.performance s with
  | Some performance => Performance.accuracy performance
  | None => None
  end.

(** [session.duration || 0] *)
Definition duration_or_0 (s : AnalyticsStudySession) : Z :=
  match AnalyticsSession.duration s with
  | Some d => d
  | None => 0
  end.

Definition updateProgress (session : AnalyticsStudySession) (clk : Clock)
    (st : AnalyticsStorage) : AnalyticsStorage :=
  let studyPackId := AnalyticsSession.studyPackId session in
  let progressMap := getProgressMap st in
  let progress := get_or_empty progressMap studyPackId clk in
  let totalStudyTime := Progress.totalStudyTime progress + duration_or_0 session in
  let sessionsCount := Progress.sessionsCount progress + 1 in
  let lastStudied := new_Date clk in
  let averageAccuracy :=
    match AnalyticsSession.performance session with
    | Some _ =>
        let sessions := getSessionsForStudyPack studyPackId (getSessions st) in
        let accuracies := for_push accuracy_of sessions in
        if 0 <? Z.of_nat (length accuracies)
        then (fold_left Qplus accuracies 0 / inject_Z (Z.of_nat (length accuracies)))%Q
        else Progress.averageAccuracy progress
    | None => Progress.averageAccuracy progress
    end in
  let streakDays := calculateStreak studyPackId clk (getSessions st) in
  let progress :=
    updateAchievements
      (Progress.mk (Progress.studyPackId progress) totalStudyTime sessionsCount
                   lastStudied averageAccuracy (Progress.strongAreas progress)
                   (Progress.weakAreas progress) streakDays
                   (Progress.achievements progress)) in
  saveProgressMap (Map_set progressMap studyPackId progress) st.

(** The assignments of lines 320-324 to [sessions[sessionIndex]]. *)
Definition closeSession (clk : Clock) (performance : option Performance.t)
    (flashcardStats : option FlashcardStats.t) (s : AnalyticsStudySession)
    : AnalyticsStudySession :=
  let endTime := new_Date clk in
  let duration :=
    option_map (fun d => Math_floor (inject_Z d / inject_Z 1000)%Q)
               (num_sub (getTime endTime) (getTime (AnalyticsSession.startTime s))) in
  AnalyticsSession.mk (AnalyticsSession.id s) (AnalyticsSession.studyPackId s)
                      (AnalyticsSession.type s) (AnalyticsSession.startTime s)
                      (Some endTime) duration performance flashcardStats.

Definition has_id (sessionId : string) (s : AnalyticsStudySession) : bool :=
  (AnalyticsSession.id s =? sessionId)%string.

Definition endSession (sessionId : string) (performance : option Performance.t)
    (flashcardStats : option FlashcardStats.t) (clk : Clock)
    (st : AnalyticsStorage) : AnalyticsStorage :=
  let sessions := getSessions st in
  match find (has_id sessionId) sessions with
  | Some session =>
      let st1 :=
        setItem_sessions
          (update_first (has_id sessionId)
                        (closeSession clk performance flashcardStats) sessions) st in
      updateProgress (closeSession clk performance flashcardStats session) clk st1
  | None => st
  end.

Definition deleteProgress (studyPackId : string) (st : AnalyticsStorage)
    : AnalyticsStorage :=
  let progressMap := Map_delete (getProgressMap st) studyPackId in
  let st1 := saveProgressMap progressMap st in
  let sessions :=
    filter (fun s => negb (AnalyticsSession.studyPackId s =? studyPackId)%string)
           (getSessions st1) in
  let st2 := setItem_sessions sessions st1 in
  let quizResults :=
    filter (fun r => negb (StoredQuizResult.studyPackId r =? studyPackId)%string)
           (getQuizResults st2) in
  setItem_quiz_results quizResults st2.

End AnalyticsService.

(** A badge and the condition under which [updateAchievements] awards it. *)
Definition earned (progress : StudyPackProgress) (badge : string) : Prop :=
  (badge = "consistent_learner"%string /\ 5 <= Progress.sessionsCount progress)
  \/ (badge = "week_warrior"%string /\ 7 <= Progress.streakDays progress)
  \/ (badge = "accuracy_master"%string /\ (0.9 <= Progress.averageAccuracy progress)%Q)
  \/ (badge = "time_champion"%string /\ 3600 <= Progress.totalStudyTime progress).

(** The calendar day, at the offset [tz], on which a session started (0
    for a start time that is no date). *)
Definition startDay (tz : Z) (s : AnalyticsStudySession) : Z :=
  match AnalyticsSession.startTime s with
  | TimeValue t => dayOf tz t
  | InvalidDate => 0
  end.

(** On the day of the instant [t] the zone is at the offset [tz]: the
    local midnight of that day is a date, and it is the midnight of
    [tz]. *)
Definition at_offset (z : Zone) (tz t : Z) : Prop :=
  Date_setHours0 z (TimeValue t) = TimeValue (MS_PER_DAY * dayOf tz t - tz).

(** A session whose start time is a date, on a day at the offset [tz]. *)
Definition start_ok (z : Zone) (tz : Z) (s : AnalyticsStudySession) : Prop :=
  match AnalyticsSession.startTime s with
  | TimeValue t => at_offset z tz t
  | InvalidDate => False
  end.

(** A zone in which clocks go forward by an hour: the offset is -5 hours
    until 10 March 2024, 07:00 UTC (02:00 local time), and -4 hours from
    then on, as in New York.  A local time in the hour that is skipped
    takes the offset before the change. *)
Definition springForward : Zone :=
  mkZone (fun t isUTC =>
            if isUTC
            then if t <? 1710054000000 then -18000000 else -14400000
            else if t <? 1710054000000 - 18000000 + 3600000
                 then -18000000 else -14400000).

Definition sample_session (id : string) (start : Z) : AnalyticsStudySession :=
  AnalyticsSession.mk id "deck" type_quiz (TimeValue start) None None None None.

Definition sample_progress : StudyPackProgress :=
  Progress.mk "deck" 4000 5 (TimeValue 1700000000000) 0.5%Q [] []
              2 ["week_warrior"%string; "week_warrior"%string].


(** The whole seconds from the start of a session to the clock reading,
    0 for a start time that is no date. *)
Definition elapsedSeconds (start : Date) (clk : Clock) : Z :=
  match start with
  | TimeValue t => (now clk - t) / 1000
  | InvalidDate => 0
  end.

(** Every entry of a progress map is filed under the deck it names. *)
Definition keyed (m : list (string * StudyPackProgress)) : Prop :=
  Forall (fun e => fst e = Progress.studyPackId (snd e)) m.

Definition sample_quiz_result : QuizResult.t Date :=
  QuizResult.mk "q1" 2 2 true 7.5%Q (TimeValue 1700000000000).

Definition sample_analytics_storage : AnalyticsStorage :=
  snd (AnalyticsService.startSession "deck" type_quiz sample_clock "k3x9"
         emptyAnalyticsStorage).

(* ================================================================== *)
(** * Properties *)

(** ** The model on small inputs *)

Example Math_round_ties :
  Math_round 7.8 = 8 /\ Math_round 2.5 = 3 /\ Math_round (-2.5) = -2
  /\ Math_round 0.2 = 0.
Proof. repeat split. Qed.

Example slice_counts_from_the_end :
  Array_slice0 2 [1; 2; 3] = [1; 2] /\ Array_slice0 (-1) [1; 2; 3] = [1; 2]
  /\ Array_slice0 (-5) [1; 2; 3] = [] /\ Array_slice0 7 [1; 2; 3] = [1; 2; 3].
Proof. repeat split. Qed.

Example sort_is_stable :
  Array_sort (fun a b : Z * Z => Some (fst a - fst b)) [(2, 0); (1, 1); (2, 2); (1, 3)]
  = [(1, 1); (1, 3); (2, 0); (2, 2)].
Proof. reflexivity. Qed.

Example local_midnight_east_of_utc :
  localMidnight (mkClock 1700000000000 (fixedZone 3600000)) = 1699916400000.
Proof. reflexivity. Qed.

Example today_stats_after_two_reviews :
  fst (run (getTodayStats "deck" (later 0 120000 sample_clock))
           (afterCalls [CallRecordReview "deck" "card" 3 sample_clock;
                        CallRecordReview "deck" "card2" 1 (later 0 60000 sample_clock)]
                       emptyStorage))
  = inr (Stats.mk 2 1 (inject_Z 1 / inject_Z 2)%Q 1).
Proof. reflexivity. Qed.

Example again_resets_the_card :
  map (fun r => (Review.repetitions r, Review.interval r))
      (storedReviews (afterReview "deck" "card" 1 sample_clock sample_prior))
  = [(0, 1)].
Proof. reflexivity. Qed.

(** ** Running computations *)

Lemma run_ret {A : Type} (a : A) st : run (ret a) st = (inr a, st).
Proof. reflexivity. Qed.

Lemma run_bind {A B : Type} (c : JS A) (f : A -> JS B) st :
  run (bind c f) st =
  match run c st with
  | (inr a, st') => run (f a) st'
  | (inl e, st') => (inl e, st')
  end.
Proof.
  unfold run. simpl.
  destruct (runState (unEitherT c) st) as [[e|a] st']; reflexivity.
Qed.

Lemma run_catch {A : Type} (c : JS A) (h : Exn -> JS A) st :
  run (catch c h) st =
  match run c st with
  | (inr a, st') => (inr a, st')
  | (inl e, st') => run (h e) st'
  end.
Proof.
  unfold run. simpl.
  destruct (runState (unEitherT c) st) as [[e|a] st']; reflexivity.
Qed.

Lemma run_get st : run get st = (inr st, st).
Proof. reflexivity. Qed.

Lemma run_put s st : run (put s) st = (inr tt, s).
Proof. reflexivity. Qed.

Lemma run_map_elems {R A : Type} (f : R -> A) elems st :
  run (map_elems f elems) st =
  (if no_null elems then inr (for_push (option_map f) elems) else inl TypeError, st).
Proof.
  unfold no_null.
  induction elems as [|[e|] rest IH];
    cbn [map_elems forallb for_push option_map andb].
  - reflexivity.
  - rewrite run_bind, IH. destruct (forallb _ rest); reflexivity.
  - reflexivity.
Qed.

(** ** Reading and writing the storage *)

Lemma run_getReviews st : run getReviews st = (inr (storedReviews st), st).
Proof.
  unfold storedReviews, getReviews.
  rewrite run_bind, run_get.
  destruct (studyForge_sr_reviews st) as [[| |elems]|]; try reflexivity.
  rewrite run_catch. cbn [JSON_parse_map]. rewrite run_map_elems.
  destruct (no_null _); reflexivity.
Qed.

Lemma run_getSessions st : run getSessions st = (inr (storedSessions st), st).
Proof.
  unfold storedSessions, getSessions.
  rewrite run_bind, run_get.
  destruct (studyForge_sr_sessions st) as [[| |elems]|]; try reflexivity.
  rewrite run_catch. cbn [JSON_parse_map]. rewrite run_map_elems.
  destruct (no_null _); reflexivity.
Qed.

Lemma storedReviews_eq st :
  storedReviews st =
  parse_or_empty (Review.mapDates Date_of_JSON) (studyForge_sr_reviews st).
Proof.
  unfold storedReviews, getReviews, parse_or_empty.
  rewrite run_bind, run_get.
  destruct (studyForge_sr_reviews st) as [[| |elems]|]; try reflexivity.
  rewrite run_catch. cbn [JSON_parse_map]. rewrite run_map_elems.
  destruct (no_null _); reflexivity.
Qed.

Lemma storedSessions_eq st :
  storedSessions st =
  parse_or_empty (Session.mapDates Date_of_JSON) (studyForge_sr_sessions st).
Proof.
  unfold storedSessions, getSessions, parse_or_empty.
  rewrite run_bind, run_get.
  destruct (studyForge_sr_sessions st) as [[| |elems]|]; try reflexivity.
  rewrite run_catch. cbn [JSON_parse_map]. rewrite run_map_elems.
  destruct (no_null _); reflexivity.
Qed.

Lemma no_null_stringify {R A : Type} (enc : A -> R) (l : list A) :
  no_null (map (fun r => Some (enc r)) l) = true.
Proof. induction l as [|x l IH]; [reflexivity | exact IH]. Qed.

Lemma parse_stringify {R A : Type} (enc : A -> R) (dec : R -> A) (l : list A) :
  parse_or_empty dec (Some (JSON_stringify enc l)) = map (fun x => dec (enc x)) l.
Proof.
  unfold parse_or_empty, JSON_stringify.
  rewrite no_null_stringify.
  induction l as [|x l IH]; [reflexivity|].
  cbn [map for_push option_map]. now rewrite IH.
Qed.

(** What a stored record is when it is read back. *)
Lemma reload_review_eq (r : CardReview) :
  Review.mapDates Date_of_JSON (Review.mapDates Date_toJSON r)
  = Review.mapDates reload r.
Proof. reflexivity. Qed.

Lemma reload_session_eq (s : StudySession) :
  Session.mapDates Date_of_JSON (Session.mapDates Date_toJSON s)
  = Session.mapDates reload s.
Proof. reflexivity. Qed.

Lemma run_setItem_reviews v st :
  run (setItem_reviews v) st = (inr tt, mkStorage (Some v) (studyForge_sr_sessions st)).
Proof. reflexivity. Qed.

Lemma run_setItem_sessions v st :
  run (setItem_sessions v) st = (inr tt, mkStorage (studyForge_sr_reviews st) (Some v)).
Proof. reflexivity. Qed.

Lemma run_updateSessionStats studyPackId quality clk st :
  run (updateSessionStats studyPackId quality clk) st =
  (inr tt,
   mkStorage (studyForge_sr_reviews st)
     (Some (JSON_stringify (Session.mapDates Date_toJSON)
              (upsertSession studyPackId quality (setHours0 clk)
                             (storedSessions st))))).
Proof.
  unfold updateSessionStats.
  rewrite run_bind, run_getSessions. cbv beta iota zeta.
  apply run_setItem_sessions.
Qed.

Lemma run_recordReview_eq studyPackId cardId quality clk st :
  run (recordReview studyPackId cardId quality clk) st =
  (inr tt,
   mkStorage
     (Some (JSON_stringify (Review.mapDates Date_toJSON)
              (updatedReviews (storedReviews st) studyPackId cardId quality clk)))
     (Some (JSON_stringify (Session.mapDates Date_toJSON)
              (upsertSession studyPackId quality (setHours0 clk)
                             (storedSessions st))))).
Proof.
  unfold recordReview.
  rewrite run_bind, run_getReviews. cbv beta iota.
  rewrite run_bind, run_setItem_reviews. cbv beta iota.
  rewrite run_updateSessionStats.
  rewrite (storedSessions_eq (mkStorage _ _)), (storedSessions_eq st).
  reflexivity.
Qed.

Lemma afterReview_eq studyPackId cardId quality clk st :
  afterReview studyPackId cardId quality clk st =
  mkStorage
    (Some (JSON_stringify (Review.mapDates Date_toJSON)
             (updatedReviews (storedReviews st) studyPackId cardId quality clk)))
    (Some (JSON_stringify (Session.mapDates Date_toJSON)
             (upsertSession studyPackId quality (setHours0 clk)
                            (storedSessions st)))).
Proof. unfold afterReview. now rewrite run_recordReview_eq. Qed.

(** [recordReview] completes normally on every storage. *)
Lemma run_recordReview studyPackId cardId quality clk st :
  run (recordReview studyPackId cardId quality clk) st =
  (inr tt, afterReview studyPackId cardId quality clk st).
Proof. now rewrite afterReview_eq, run_recordReview_eq. Qed.

Lemma storedReviews_afterReview studyPackId cardId quality clk st :
  storedReviews (afterReview studyPackId cardId quality clk st) =
  map (Review.mapDates reload)
      (updatedReviews (storedReviews st) studyPackId cardId quality clk).
Proof.
  rewrite afterReview_eq, storedReviews_eq. cbn [studyForge_sr_reviews].
  rewrite parse_stringify. reflexivity.
Qed.

Lemma storedSessions_afterReview studyPackId cardId quality clk st :
  storedSessions (afterReview studyPackId cardId quality clk st) =
  map (Session.mapDates reload)
      (upsertSession studyPackId quality (setHours0 clk) (storedSessions st)).
Proof.
  rewrite afterReview_eq, storedSessions_eq. cbn [studyForge_sr_sessions].
  rewrite parse_stringify. reflexivity.
Qed.

(** ** The record [recordReview] stores *)

Lemma is_for_mapDates {D D' : Type} (f : D -> D') card pack (r : Review.t D) :
  Review.is_for card pack (Review.mapDates f r) = Review.is_for card pack r.
Proof. reflexivity. Qed.

Lemma is_for_newReview existing studyPackId cardId quality clk :
  Review.is_for cardId studyPackId
    (newReview existing studyPackId cardId quality clk) = true.
Proof.
  unfold Review.is_for, newReview. cbn [Review.cardId Review.studyPackId].
  now rewrite !String.eqb_refl.
Qed.

Lemma find_map_invariant {A B : Type} (p : B -> bool) (q : A -> bool)
    (f : A -> B) (l : list A) :
  (forall x, p (f x) = q x) ->
  find p (map f l) = option_map f (find q l).
Proof.
  intros H. induction l as [|x l IH]; [reflexivity|].
  cbn [map find]. rewrite H. destruct (q x); [reflexivity | exact IH].
Qed.

Lemma filter_map_invariant {A B : Type} (p : B -> bool) (q : A -> bool)
    (f : A -> B) (l : list A) :
  (forall x, p (f x) = q x) ->
  filter p (map f l) = map f (filter q l).
Proof.
  intros H. induction l as [|x l IH]; [reflexivity|].
  cbn [map filter]. rewrite H, IH. now destruct (q x).
Qed.

Lemma filter_filter_negb {A : Type} (p : A -> bool) (l : list A) :
  filter p (filter (fun x => negb (p x)) l) = [].
Proof.
  induction l as [|x l IH]; [reflexivity|].
  cbn [filter]. destruct (p x) eqn:E; cbn [negb filter]; [exact IH|].
  now rewrite E.
Qed.

(** After the call the pair has one record: the new one. *)
Lemma filter_updatedReviews reviews studyPackId cardId quality clk :
  filter (Review.is_for cardId studyPackId)
         (updatedReviews reviews studyPackId cardId quality clk)
  = [newReview (find (Review.is_for cardId studyPackId) reviews)
               studyPackId cardId quality clk].
Proof.
  unfold updatedReviews. rewrite filter_app, filter_filter_negb.
  cbn [filter app]. now rewrite is_for_newReview.
Qed.

Lemma stored_record_afterReview studyPackId cardId quality clk st :
  filter (Review.is_for cardId studyPackId)
         (storedReviews (afterReview studyPackId cardId quality clk st))
  = [Review.mapDates reload
       (newReview (find (Review.is_for cardId studyPackId) (storedReviews st))
                  studyPackId cardId quality clk)].
Proof.
  rewrite storedReviews_afterReview.
  rewrite (filter_map_invariant _ (Review.is_for cardId studyPackId))
    by (intros; apply is_for_mapDates).
  now rewrite filter_updatedReviews.
Qed.

(** C1.  For a call of [recordReview] with a quality in 1..4: the call
    completes, the pair then has one stored record, and in it the ease
    factor is 2.5 when the pair had no record, else
    [max(1.3, oldEase + (0.1 - (5 - quality) * (0.08 + (5 - quality) * 0.02)))];
    the repetitions are 0 when [quality < 3], else the old repetitions
    plus 1 (1 when the pair had no record). *)
Theorem recordReview_ease_and_repetitions studyPackId cardId quality clk st :
  1 <= quality <= 4 ->
  run (recordReview studyPackId cardId quality clk) st
    = (inr tt, afterReview studyPackId cardId quality clk st)
  /\ exists r,
      filter (Review.is_for cardId studyPackId)
             (storedReviews (afterReview studyPackId cardId quality clk st)) = [r]
      /\ match find (Review.is_for cardId studyPackId) (storedReviews st) with
         | None =>
             Review.easeFactor r = 2.5%Q
             /\ Review.repetitions r = (if quality <? 3 then 0 else 1)
         | Some old =>
             Review.easeFactor r =
               Qmax 1.3 (Review.easeFactor old
                         + (0.1 - (5 - inject_Z quality)
                                  * (0.08 + (5 - inject_Z quality) * 0.02)))%Q
             /\ Review.repetitions r =
                  (if quality <? 3 then 0 else Review.repetitions old + 1)
         end.
Proof.
  intros _. split; [apply run_recordReview|].
  eexists. split; [apply stored_record_afterReview|].
  destruct (find (Review.is_for cardId studyPackId) (storedReviews st)) as [old|];
    split; reflexivity.
Qed.

Lemma recordReview_ease_and_repetitions_witness :
  run (recordReview "deck" "card" 3 sample_clock) sample_prior
    = (inr tt, afterReview "deck" "card" 3 sample_clock sample_prior)
  /\ exists r,
      filter (Review.is_for "card" "deck")
             (storedReviews (afterReview "deck" "card" 3 sample_clock sample_prior)) = [r]
      /\ match find (Review.is_for "card" "deck") (storedReviews sample_prior) with
         | None =>
             Review.easeFactor r = 2.5%Q
             /\ Review.repetitions r = (if 3 <? 3 then 0 else 1)
         | Some old =>
             Review.easeFactor r =
               Qmax 1.3 (Review.easeFactor old
                         + (0.1 - (5 - inject_Z 3)
                                  * (0.08 + (5 - inject_Z 3) * 0.02)))%Q
             /\ Review.repetitions r =
                  (if 3 <? 3 then 0 else Review.repetitions old + 1)
         end.
Proof.
  apply (recordReview_ease_and_repetitions "deck" "card" 3 sample_clock sample_prior).
  lia.
Defined.

(** ** Dates in range *)

Lemma TimeClip_in_range t : Z.abs t <= MAX_TIME -> TimeClip t = TimeValue t.
Proof.
  intros H. unfold TimeClip.
  destruct (Z.leb_spec (Z.abs t) MAX_TIME); [reflexivity | lia].
Qed.

Lemma reload_in_range t : Z.abs t <= MAX_TIME -> reload (TimeValue t) = TimeValue t.
Proof. intros H. unfold reload. cbn. now apply TimeClip_in_range. Qed.

(** C2.  The first review of a card, graded 4 (easy), at a clock time from
    which eight days can be counted: the stored record has repetitions 1
    and an interval of [round(6 * 1.3) = 8] days, the easy multiplier
    applied to the base interval 6 of the first repetition; its next
    review is [now + 8 * 24] hours to the millisecond. *)
Theorem first_review_easy studyPackId cardId clk st :
  find (Review.is_for cardId studyPackId) (storedReviews st) = None ->
  Z.abs (now clk) <= MAX_TIME ->
  now clk + 8 * (24 * 60 * 60 * 1000) <= MAX_TIME ->
  run (recordReview studyPackId cardId 4 clk) st
    = (inr tt, afterReview studyPackId cardId 4 clk st)
  /\ exists r,
      filter (Review.is_for cardId studyPackId)
             (storedReviews (afterReview studyPackId cardId 4 clk st)) = [r]
      /\ Review.repetitions r = 1
      /\ Review.interval r = Math_round (inject_Z 6 * 1.3)%Q
      /\ Review.interval r = 8
      /\ Review.reviewDate r = TimeValue (now clk)
      /\ Review.nextReview r = TimeValue (now clk + 8 * (24 * 60 * 60 * 1000)).
Proof.
  intros Hnone Hnow Hnext. split; [apply run_recordReview|].
  eexists. split; [apply stored_record_afterReview|].
  rewrite Hnone.
  cbn [newReview Review.mapDates Review.repetitions Review.interval
       Review.reviewDate Review.nextReview nextRepetitions nextEase].
  repeat split.
  - unfold new_Date. apply reload_in_range, Hnow.
  - unfold new_Date. cbn [getTime option_map Date_of_number].
    change (adjustInterval 4 (baseInterval None 2.5%Q (if 4 <? 3 then 0 else 1))) with 8.
    replace (now clk + 8 * 24 * 60 * 60 * 1000) with (now clk + 8 * (24 * 60 * 60 * 1000)) by lia.
    assert (Z.abs (now clk + 8 * (24 * 60 * 60 * 1000)) <= MAX_TIME) by lia.
    rewrite TimeClip_in_range by assumption. now apply reload_in_range.
Qed.

Lemma first_review_easy_witness :
  run (recordReview "deck" "card" 4 sample_clock) emptyStorage
    = (inr tt, afterReview "deck" "card" 4 sample_clock emptyStorage)
  /\ exists r,
      filter (Review.is_for "card" "deck")
             (storedReviews (afterReview "deck" "card" 4 sample_clock emptyStorage)) = [r]
      /\ Review.repetitions r = 1
      /\ Review.interval r = Math_round (inject_Z 6 * 1.3)%Q
      /\ Review.interval r = 8
      /\ Review.reviewDate r = TimeValue (now sample_clock)
      /\ Review.nextReview r = TimeValue (now sample_clock + 8 * (24 * 60 * 60 * 1000)).
Proof.
  apply (first_review_easy "deck" "card" sample_clock emptyStorage).
  - reflexivity.
  - vm_compute. discriminate.
  - vm_compute. discriminate.
Defined.

(** ** Rounding *)

Lemma Math_round_comp (x y : Q) : (x == y)%Q -> Math_round x = Math_round y.
Proof. intros H. unfold Math_round. now rewrite H. Qed.

(** C3, as the code has it.  A card whose record has repetitions 2, ease
    factor 2.5 and interval 6 is graded 3 (good): the new ease factor is
    2.36 and the new interval is the old one times the NEW ease factor,
    [round(6 * 2.36) = 14] days, which grade 3 leaves as it is; the
    repetitions become 3. *)
Theorem third_review_good studyPackId cardId clk st old :
  find (Review.is_for cardId studyPackId) (storedReviews st) = Some old ->
  Review.repetitions old = 2 ->
  (Review.easeFactor old == 2.5)%Q ->
  Review.interval old = 6 ->
  run (recordReview studyPackId cardId 3 clk) st
    = (inr tt, afterReview studyPackId cardId 3 clk st)
  /\ exists r,
      filter (Review.is_for cardId studyPackId)
             (storedReviews (afterReview studyPackId cardId 3 clk st)) = [r]
      /\ Review.repetitions r = 3
      /\ (Review.easeFactor r == 2.36)%Q
      /\ Review.interval r = Math_round (inject_Z 6 * 2.36)%Q
      /\ Review.interval r = 14.
Proof.
  intros Hold Hreps Hease Hint. split; [apply run_recordReview|].
  eexists. split; [apply stored_record_afterReview|].
  rewrite Hold.
  cbn [newReview Review.mapDates Review.repetitions Review.interval
       Review.easeFactor nextRepetitions].
  assert (E : (nextEase (Some old) 3 == 2.36)%Q).
  { unfold nextEase. rewrite Hease. reflexivity. }
  rewrite Hreps.
  change (adjustInterval 3 ?i) with i.
  change (baseInterval (Some old) ?e (if 3 <? 3 then 0 else 2 + 1))
    with (Math_round (inject_Z (interval_or_1 (Some old)) * e)%Q).
  cbn [interval_or_1]. rewrite Hint. cbn [Z.eqb].
  assert (R : Math_round (inject_Z 6 * nextEase (Some old) 3)%Q
              = Math_round (inject_Z 6 * 2.36)%Q).
  { apply Math_round_comp. now rewrite E. }
  repeat split; [exact E | exact R | now rewrite R].
Qed.

Lemma third_review_good_witness :
  run (recordReview "deck" "card" 3 sample_clock) sample_prior
    = (inr tt, afterReview "deck" "card" 3 sample_clock sample_prior)
  /\ exists r,
      filter (Review.is_for "card" "deck")
             (storedReviews (afterReview "deck" "card" 3 sample_clock sample_prior)) = [r]
      /\ Review.repetitions r = 3
      /\ (Review.easeFactor r == 2.36)%Q
      /\ Review.interval r = Math_round (inject_Z 6 * 2.36)%Q
      /\ Review.interval r = 14.
Proof.
  apply (third_review_good "deck" "card" sample_clock sample_prior
           (Review.mapDates Date_of_JSON sample_review));
    reflexivity.
Defined.

(** C3, as the specification words it, fails: on a record with
    repetitions 2, ease factor 2.5 and interval 6, grade 3 does not give an
    interval of 15 days. *)
Lemma third_review_good_not_15 :
  (exists old,
      find (Review.is_for "card" "deck") (storedReviews sample_prior) = Some old
      /\ Review.repetitions old = 2
      /\ Review.easeFactor old = 2.5%Q
      /\ Review.interval old = 6)
  /\ ~ (exists r,
         In r (storedReviews (afterReview "deck" "card" 3 sample_clock sample_prior))
         /\ Review.is_for "card" "deck" r = true
         /\ Review.interval r = 15).
Proof.
  split.
  - eexists. repeat split.
  - intros [r [Hin [_ Hint]]].
    vm_compute in Hin. destruct Hin as [<-|[]]. discriminate Hint.
Qed.

(** ** Grades outside 1..4 *)

Lemma adjustInterval_outside quality i :
  ~ (1 <= quality <= 4) -> adjustInterval quality i = i.
Proof.
  intros H. destruct quality as [|p|p]; try reflexivity.
  destruct p as [[[]|[]|]|[[]|[]|]|]; try reflexivity; lia.
Qed.

(** C5, as the code has it.  [recordReview] does not validate the grade:
    for a quality outside 1..4 the call completes without an exception and
    stores a record with that quality, whose ease factor, repetitions and
    base interval come from the same formulas; no case of the [switch]
    applies, so the base interval is stored as it is. *)
Theorem recordReview_no_validation studyPackId cardId quality clk st :
  ~ (1 <= quality <= 4) ->
  run (recordReview studyPackId cardId quality clk) st
    = (inr tt, afterReview studyPackId cardId quality clk st)
  /\ ~ throws (recordReview studyPackId cardId quality clk) st
  /\ exists r,
      filter (Review.is_for cardId studyPackId)
             (storedReviews (afterReview studyPackId cardId quality clk st)) = [r]
      /\ Review.quality r = quality
      /\ let existing := find (Review.is_for cardId studyPackId) (storedReviews st) in
         Review.easeFactor r = nextEase existing quality
         /\ Review.repetitions r = nextRepetitions existing quality
         /\ Review.interval r =
              baseInterval existing (nextEase existing quality)
                           (nextRepetitions existing quality).
Proof.
  intros Hq. split; [apply run_recordReview|]. split.
  - intros [e He]. rewrite run_recordReview in He. discriminate He.
  - eexists. split; [apply stored_record_afterReview|].
    cbn [newReview Review.mapDates Review.quality Review.easeFactor
         Review.repetitions Review.interval].
    repeat split. now apply adjustInterval_outside.
Qed.

Lemma recordReview_no_validation_witness :
  run (recordReview "deck" "card" 5 sample_clock) emptyStorage
    = (inr tt, afterReview "deck" "card" 5 sample_clock emptyStorage)
  /\ ~ throws (recordReview "deck" "card" 5 sample_clock) emptyStorage
  /\ exists r,
      filter (Review.is_for "card" "deck")
             (storedReviews (afterReview "deck" "card" 5 sample_clock emptyStorage)) = [r]
      /\ Review.quality r = 5
      /\ let existing := find (Review.is_for "card" "deck") (storedReviews emptyStorage) in
         Review.easeFactor r = nextEase existing 5
         /\ Review.repetitions r = nextRepetitions existing 5
         /\ Review.interval r =
              baseInterval existing (nextEase existing 5) (nextRepetitions existing 5).
Proof.
  apply (recordReview_no_validation "deck" "card" 5 sample_clock emptyStorage).
  lia.
Defined.

(** C5, as the specification words it, fails: a call with quality 5 on an
    empty storage is not rejected, and a record with interval 6 is
    stored. *)
Lemma quality_5_not_rejected :
  ~ (1 <= 5 <= 4)
  /\ ~ throws (recordReview "deck" "card" 5 sample_clock) emptyStorage
  /\ map (fun r => (Review.quality r, Review.interval r))
         (storedReviews (afterReview "deck" "card" 5 sample_clock emptyStorage))
     = [(5, 6)].
Proof.
  split; [lia|]. split.
  - intros [e He]. rewrite run_recordReview in He. discriminate He.
  - reflexivity.
Qed.

(** ** calculateStreak *)

Lemma Math_floor_days d :
  Math_floor (inject_Z d / inject_Z (1000 * 60 * 60 * 24))%Q = d / MS_PER_DAY.
Proof.
  unfold Math_floor, Qdiv, Qmult, Qinv, inject_Z. cbn [Qnum Qden Qfloor].
  change (Z.pos (1 * 86400000)) with MS_PER_DAY.
  now rewrite Z.mul_1_r.
Qed.

Lemma run_calculateStreak studyPackId clk st :
  run (calculateStreak studyPackId clk) st =
  (inr (streakLoop
          (Array_sort session_compare_desc
             (filter (fun s => (Session.studyPackId s =? studyPackId)%string)
                     (storedSessions st)))
          0 (setHours0 clk)),
   st).
Proof.
  unfold calculateStreak. rewrite run_bind, run_getSessions. cbv beta iota zeta.
  destruct (Array_sort _ _) as [|s l]; reflexivity.
Qed.

(** C4, as the code computes it.  In a zone with a fixed offset, [T] being
    today's local midnight: for a deck with sessions on [T - 2], [T - 1]
    and [T] days the streak is 2, for a deck with sessions on [T - 2] and
    [T] it is 1.  The loop compares the gap to the PREVIOUS session with
    the streak counted so far, so the third consecutive day (gap 1, streak
    2) ends the count. *)
Theorem calculateStreak_consecutive_days studyPackId clk reviews n0 a0 n1 a1 n2 a2 :
  Z.abs (localMidnight clk) <= MAX_TIME ->
  Z.abs (localMidnight clk - 2 * MS_PER_DAY) <= MAX_TIME ->
  let T := localMidnight clk in
  let three_days :=
    mkStorage reviews
      (Some (JSONArray [session_on studyPackId (T - 2 * MS_PER_DAY) n2 a2;
                        session_on studyPackId (T - 1 * MS_PER_DAY) n1 a1;
                        session_on studyPackId T n0 a0])) in
  let gap_yesterday :=
    mkStorage reviews
      (Some (JSONArray [session_on studyPackId (T - 2 * MS_PER_DAY) n2 a2;
                        session_on studyPackId T n0 a0])) in
  run (calculateStreak studyPackId clk) three_days = (inr 2, three_days)
  /\ run (calculateStreak studyPackId clk) gap_yesterday = (inr 1, gap_yesterday).
Proof.
  intros HT HT2 T three_days gap_yesterday.
  assert (HT1 : Z.abs (T - 1 * MS_PER_DAY) <= MAX_TIME)
    by (unfold MS_PER_DAY in *; subst T; lia).
  assert (D0 : (T - T) / MS_PER_DAY = 0) by (now rewrite Z.sub_diag).
  assert (D1 : (T - (T - 1 * MS_PER_DAY)) / MS_PER_DAY = 1).
  { replace (T - (T - 1 * MS_PER_DAY)) with MS_PER_DAY by lia. reflexivity. }
  assert (D1' : (T - 1 * MS_PER_DAY - (T - 2 * MS_PER_DAY)) / MS_PER_DAY = 1).
  { replace (T - 1 * MS_PER_DAY - (T - 2 * MS_PER_DAY)) with MS_PER_DAY by lia.
    reflexivity. }
  assert (D2 : (T - (T - 2 * MS_PER_DAY)) / MS_PER_DAY = 2).
  { replace (T - (T - 2 * MS_PER_DAY)) with (2 * MS_PER_DAY) by lia. reflexivity. }
  assert (Hpos : 0 < MS_PER_DAY) by reflexivity.
  set (s0 := Session.mk studyPackId (TimeValue T) n0 a0).
  set (s1 := Session.mk studyPackId (TimeValue (T - 1 * MS_PER_DAY)) n1 a1).
  set (s2 := Session.mk studyPackId (TimeValue (T - 2 * MS_PER_DAY)) n2 a2).
  assert (E3 : storedSessions three_days = [s2; s1; s0]).
  { rewrite storedSessions_eq. subst three_days s0 s1 s2.
    cbn [studyForge_sr_sessions parse_or_empty session_on no_null forallb andb
         for_push option_map Session.mapDates Session.studyPackId Session.date
         Session.cardsReviewed Session.averageQuality Date_of_JSON].
    unfold Session.mapDates.
    cbn [Session.studyPackId Session.date Session.cardsReviewed
         Session.averageQuality Date_of_JSON].
    now rewrite !TimeClip_in_range by assumption. }
  assert (E2 : storedSessions gap_yesterday = [s2; s0]).
  { rewrite storedSessions_eq. subst gap_yesterday s0 s2.
    cbn [studyForge_sr_sessions parse_or_empty session_on no_null forallb andb
         for_push option_map Session.mapDates Session.studyPackId Session.date
         Session.cardsReviewed Session.averageQuality Date_of_JSON].
    unfold Session.mapDates.
    cbn [Session.studyPackId Session.date Session.cardsReviewed
         Session.averageQuality Date_of_JSON].
    now rewrite !TimeClip_in_range by assumption. }
  assert (C10 : cmp_le session_compare_desc s1 s0 = false).
  { unfold cmp_le. subst s0 s1. cbn [session_compare_desc Session.date getTime num_sub].
    apply Z.leb_gt. lia. }
  assert (C20 : cmp_le session_compare_desc s2 s0 = false).
  { unfold cmp_le. subst s0 s2. cbn [session_compare_desc Session.date getTime num_sub].
    apply Z.leb_gt. lia. }
  assert (C21 : cmp_le session_compare_desc s2 s1 = false).
  { unfold cmp_le. subst s1 s2. cbn [session_compare_desc Session.date getTime num_sub].
    apply Z.leb_gt. lia. }
  assert (F : forall l, Forall (fun s => Session.studyPackId s = studyPackId) l ->
              filter (fun s : StudySession => (Session.studyPackId s =? studyPackId)%string) l = l).
  { induction 1 as [|x l Hx _ IH]; [reflexivity|].
    cbn [filter]. now rewrite Hx, String.eqb_refl, IH. }
  split; rewrite run_calculateStreak; f_equal; f_equal.
  - rewrite E3, F by (repeat constructor).
    unfold Array_sort. cbn [fold_right insert_sorted].
    rewrite C10. cbn [insert_sorted]. rewrite C20, C21.
    unfold setHours0. fold T. rewrite TimeClip_in_range by assumption.
    subst s0 s1 s2. cbn [streakLoop Session.date getTime num_sub option_map].
    rewrite !Math_floor_days, D0, D1, D1'. reflexivity.
  - rewrite E2, F by (repeat constructor).
    unfold Array_sort. cbn [fold_right insert_sorted].
    rewrite C20.
    unfold setHours0. fold T. rewrite TimeClip_in_range by assumption.
    subst s0 s2. cbn [streakLoop Session.date getTime num_sub option_map].
    rewrite !Math_floor_days, D0, D2. reflexivity.
Qed.

Lemma calculateStreak_consecutive_days_witness :
  let T := localMidnight sample_clock in
  let three_days :=
    mkStorage None
      (Some (JSONArray [session_on "deck" (T - 2 * MS_PER_DAY) 1 3%Q;
                        session_on "deck" (T - 1 * MS_PER_DAY) 1 3%Q;
                        session_on "deck" T 1 3%Q])) in
  let gap_yesterday :=
    mkStorage None
      (Some (JSONArray [session_on "deck" (T - 2 * MS_PER_DAY) 1 3%Q;
                        session_on "deck" T 1 3%Q])) in
  run (calculateStreak "deck" sample_clock) three_days = (inr 2, three_days)
  /\ run (calculateStreak "deck" sample_clock) gap_yesterday = (inr 1, gap_yesterday).
Proof.
  apply (calculateStreak_consecutive_days "deck" sample_clock None 1 3%Q 1 3%Q 1 3%Q);
    vm_compute; discriminate.
Defined.

(** The same through the public interface: a card is reviewed on each of
    three consecutive days, and [getTodayStats] on the third day reports a
    streak of 2. *)
Lemma streak_after_three_daily_reviews :
  let calls :=
    [CallRecordReview "deck" "card1" 3 (later (-2) 0 sample_clock);
     CallRecordReview "deck" "card2" 3 (later (-1) 0 sample_clock);
     CallRecordReview "deck" "card3" 4 sample_clock] in
  let st := afterCalls calls emptyStorage in
  map (fun s => (Session.studyPackId s, Session.date s)) (storedSessions st)
    = [("deck"%string, TimeValue (localMidnight sample_clock - 2 * MS_PER_DAY));
       ("deck"%string, TimeValue (localMidnight sample_clock - 1 * MS_PER_DAY));
       ("deck"%string, TimeValue (localMidnight sample_clock))]
  /\ fst (run (calculateStreak "deck" sample_clock) st) = inr 2
  /\ match fst (run (getTodayStats "deck" sample_clock) st) with
     | inr stats => Stats.streak stats = 2
     | inl _ => False
     end.
Proof. vm_compute. repeat split. Qed.

(** ** Sequences of calls *)

Lemma run_deleteData_eq studyPackId st :
  run (deleteData studyPackId) st =
  (inr tt,
   mkStorage
     (Some (JSON_stringify (Review.mapDates Date_toJSON)
              (filter (fun r => negb (Review.studyPackId r =? studyPackId)%string)
                      (storedReviews st))))
     (Some (JSON_stringify (Session.mapDates Date_toJSON)
              (filter (fun s => negb (Session.studyPackId s =? studyPackId)%string)
                      (storedSessions st))))).
Proof.
  unfold deleteData.
  rewrite run_bind, run_getReviews. cbv beta iota.
  rewrite run_bind, run_getSessions. cbv beta iota.
  rewrite run_bind, run_setItem_reviews. cbv beta iota.
  rewrite run_setItem_sessions. reflexivity.
Qed.

Lemma storedReviews_afterDelete studyPackId st :
  storedReviews (afterDelete studyPackId st) =
  map (Review.mapDates reload)
      (filter (fun r => negb (Review.studyPackId r =? studyPackId)%string)
              (storedReviews st)).
Proof.
  unfold afterDelete. rewrite run_deleteData_eq, storedReviews_eq.
  cbn [snd studyForge_sr_reviews]. rewrite parse_stringify. reflexivity.
Qed.

Lemma storedSessions_afterDelete studyPackId st :
  storedSessions (afterDelete studyPackId st) =
  map (Session.mapDates reload)
      (filter (fun s => negb (Session.studyPackId s =? studyPackId)%string)
              (storedSessions st)).
Proof.
  unfold afterDelete. rewrite run_deleteData_eq, storedSessions_eq.
  cbn [snd studyForge_sr_sessions]. rewrite parse_stringify. reflexivity.
Qed.

Lemma run_perform c st : run (perform c) st = (inr tt, afterCall c st).
Proof.
  unfold afterCall. destruct c as [p card q clk|p]; cbn [perform].
  - now rewrite run_recordReview.
  - now rewrite run_deleteData_eq.
Qed.

Lemma afterCalls_cons c calls st :
  afterCalls (c :: calls) st = afterCalls calls (afterCall c st).
Proof.
  unfold afterCalls. cbn [performAll].
  now rewrite run_bind, run_perform.
Qed.

(** No sequence of calls ends in an exception. *)
Lemma run_performAll calls st :
  run (performAll calls) st = (inr tt, afterCalls calls st).
Proof.
  revert st. induction calls as [|c calls IH]; intros st.
  - reflexivity.
  - rewrite afterCalls_cons. cbn [performAll].
    rewrite run_bind, run_perform. apply IH.
Qed.

Lemma afterCalls_invariant (P : Call -> Prop) (Inv : Storage -> Prop) :
  (forall c st, P c -> Inv st -> Inv (afterCall c st)) ->
  forall calls st, Forall P calls -> Inv st -> Inv (afterCalls calls st).
Proof.
  intros Hstep calls. induction calls as [|c calls IH]; intros st Hall Hst.
  - exact Hst.
  - rewrite afterCalls_cons. inversion Hall; subst.
    apply IH; [assumption|]. now apply Hstep.
Qed.

Lemma afterCall_review p card q clk st :
  afterCall (CallRecordReview p card q clk) st = afterReview p card q clk st.
Proof. reflexivity. Qed.

Lemma afterCall_delete p st :
  afterCall (CallDeleteData p) st = afterDelete p st.
Proof. reflexivity. Qed.

(** ** One record per card and deck *)

Lemma length_filter_filter {A : Type} (p q : A -> bool) (l : list A) :
  (length (filter p (filter q l)) <= length (filter p l))%nat.
Proof.
  induction l as [|x l IH]; [apply le_n|].
  cbn [filter]. destruct (q x); cbn [filter]; destruct (p x); cbn [length]; lia.
Qed.

Lemma is_for_newReview_other existing studyPackId cardId quality clk card pack :
  Review.is_for card pack (newReview existing studyPackId cardId quality clk) = true ->
  card = cardId /\ pack = studyPackId.
Proof.
  unfold Review.is_for, newReview. cbn [Review.cardId Review.studyPackId].
  intros H. apply andb_prop in H. destruct H as [H1 H2].
  apply String.eqb_eq in H1, H2. now subst.
Qed.

Lemma at_most_one_review_step c st :
  at_most_one_review st -> at_most_one_review (afterCall c st).
Proof.
  intros H card pack. destruct c as [p cardId q clk|p].
  - rewrite afterCall_review, storedReviews_afterReview.
    rewrite (filter_map_invariant _ (Review.is_for card pack))
      by (intros; apply is_for_mapDates).
    rewrite length_map. unfold updatedReviews.
    rewrite filter_app, length_app. cbn [filter].
    destruct (Review.is_for card pack (newReview _ p cardId q clk)) eqn:E.
    + apply is_for_newReview_other in E. destruct E as [-> ->].
      rewrite filter_filter_negb. cbn [length]. lia.
    + cbn [length]. rewrite Nat.add_0_r.
      etransitivity; [apply length_filter_filter | apply H].
  - rewrite afterCall_delete, storedReviews_afterDelete.
    rewrite (filter_map_invariant _ (Review.is_for card pack))
      by (intros; apply is_for_mapDates).
    rewrite length_map.
    etransitivity; [apply length_filter_filter | apply H].
Qed.

(** C6.  After any sequence of calls on an empty storage (no call ends in
    an exception) the stored reviews hold at most one record for every
    card and deck; and a further [recordReview] leaves exactly one record
    for its pair, the newly computed one as JSON writes it, whatever
    record the pair had before. *)
Theorem one_review_per_pair calls :
  let st := afterCalls calls emptyStorage in
  run (performAll calls) emptyStorage = (inr tt, st)
  /\ (forall cardId studyPackId,
        (length (filter (Review.is_for cardId studyPackId) (storedReviews st)) <= 1)%nat)
  /\ (forall studyPackId cardId quality clk,
        run (recordReview studyPackId cardId quality clk) st
          = (inr tt, afterReview studyPackId cardId quality clk st)
        /\ filter (Review.is_for cardId studyPackId)
                  (storedReviews (afterReview studyPackId cardId quality clk st))
           = [Review.mapDates reload
                (newReview (find (Review.is_for cardId studyPackId) (storedReviews st))
                           studyPackId cardId quality clk)]).
Proof.
  intros st. split; [apply run_performAll|]. split.
  - apply (afterCalls_invariant (fun _ => True) at_most_one_review).
    + intros c st0 _. apply at_most_one_review_step.
    + apply Forall_forall. trivial.
    + intros card pack. cbn. lia.
  - intros p card q clk. split; [apply run_recordReview|].
    apply stored_record_afterReview.
Qed.

(** ** One session per deck and day *)

Lemma reload_valid d : valid_date d -> reload d = d.
Proof. destruct d as [t|]; [apply reload_in_range | intros []]. Qed.

Lemma valid_date_TimeValue d :
  valid_date d -> exists t, d = TimeValue t /\ Z.abs t <= MAX_TIME.
Proof. destruct d as [t|]; [intros H; now exists t | intros []]. Qed.

Lemma map_reload_sessions (l : list StudySession) :
  Forall (fun s => valid_date (Session.date s)) l ->
  map (Session.mapDates reload) l = l.
Proof.
  induction 1 as [|s l Hs _ IH]; [reflexivity|].
  cbn [map]. rewrite IH. f_equal.
  destruct s as [p d n a]. unfold Session.mapDates.
  cbn [Session.studyPackId Session.date Session.cardsReviewed Session.averageQuality] in *.
  now rewrite reload_valid.
Qed.

Lemma Forall_update_first {A : Type} (P : A -> Prop) (p : A -> bool) (f : A -> A) l :
  (forall x, P x -> P (f x)) -> Forall P l -> Forall P (update_first p f l).
Proof.
  intros Hf. induction 1 as [|x l Hx Hl IH]; [constructor|].
  cbn [update_first]. destruct (p x); constructor; auto.
Qed.

Lemma upsertSession_valid studyPackId quality today sessions :
  valid_date today ->
  Forall (fun s => valid_date (Session.date s)) sessions ->
  Forall (fun s => valid_date (Session.date s))
         (upsertSession studyPackId quality today sessions).
Proof.
  intros Ht Hl. unfold upsertSession.
  destruct (find (is_today studyPackId today) sessions).
  - apply Forall_update_first; [|assumption]. intros x Hx. exact Hx.
  - apply Forall_app. split; [assumption|]. constructor; [exact Ht | constructor].
Qed.

Lemma setHours0_ok clk :
  clock_ok clk -> setHours0 clk = TimeValue (localMidnight clk).
Proof. intros [_ H]. now apply TimeClip_in_range. Qed.

Lemma storedSessions_afterReview_ok studyPackId cardId quality clk st :
  clock_ok clk -> session_dates_valid st ->
  storedSessions (afterReview studyPackId cardId quality clk st)
  = upsertSession studyPackId quality (TimeValue (localMidnight clk))
                  (storedSessions st).
Proof.
  intros Hclk Hst. rewrite storedSessions_afterReview, setHours0_ok by assumption.
  apply map_reload_sessions, upsertSession_valid; [apply Hclk | exact Hst].
Qed.

Lemma Forall_filter {A : Type} (P : A -> Prop) (p : A -> bool) l :
  Forall P l -> Forall P (filter p l).
Proof.
  induction 1 as [|x l Hx _ IH]; [constructor|].
  cbn [filter]. destruct (p x); [constructor|]; assumption.
Qed.

Lemma storedSessions_afterDelete_ok studyPackId st :
  session_dates_valid st ->
  storedSessions (afterDelete studyPackId st)
  = filter (fun s => negb (Session.studyPackId s =? studyPackId)%string)
           (storedSessions st).
Proof.
  intros Hst. rewrite storedSessions_afterDelete.
  now apply map_reload_sessions, Forall_filter.
Qed.

Lemma session_dates_valid_step c st :
  call_clock_ok c -> session_dates_valid st -> session_dates_valid (afterCall c st).
Proof.
  intros Hc Hst. unfold session_dates_valid. destruct c as [p card q clk|p].
  - rewrite afterCall_review, storedSessions_afterReview_ok by assumption.
    apply upsertSession_valid; [apply Hc | exact Hst].
  - rewrite afterCall_delete, storedSessions_afterDelete_ok by assumption.
    now apply Forall_filter.
Qed.

Lemma is_today_bump studyPackId day quality s :
  is_today studyPackId day (bumpSession quality s) = is_today studyPackId day s.
Proof. reflexivity. Qed.

Lemma length_filter_update_first {A : Type} (P p : A -> bool) (f : A -> A) l :
  (forall x, P (f x) = P x) ->
  length (filter P (update_first p f l)) = length (filter P l).
Proof.
  intros Hf. induction l as [|x l IH]; [reflexivity|].
  cbn [update_first]. destruct (p x); cbn [filter].
  - rewrite Hf. destruct (P x); reflexivity.
  - destruct (P x); cbn [length]; now rewrite IH.
Qed.

Lemma filter_update_first {A : Type} (p : A -> bool) (f : A -> A) l :
  (forall x, p (f x) = p x) ->
  filter p (update_first p f l) =
  match filter p l with
  | [] => []
  | x :: rest => f x :: rest
  end.
Proof.
  intros Hf. induction l as [|x l IH]; [reflexivity|].
  cbn [update_first filter]. destruct (p x) eqn:E.
  - cbn [filter]. now rewrite Hf, E.
  - cbn [filter]. now rewrite E.
Qed.

Lemma find_none_filter {A : Type} (p : A -> bool) l :
  find p l = None -> filter p l = [].
Proof.
  induction l as [|x l IH]; [reflexivity|].
  cbn [find filter]. destruct (p x); [discriminate | exact IH].
Qed.

Lemma find_some_filter {A : Type} (p : A -> bool) l x :
  find p l = Some x -> exists rest, filter p l = x :: rest.
Proof.
  induction l as [|y l IH]; [discriminate|].
  cbn [find filter]. destruct (p y).
  - intros [= ->]. now eexists.
  - exact IH.
Qed.

(** Two keys under which the same session is today's are the same key. *)
Lemma is_today_same_key p day p' day' s0 :
  is_today p day s0 = true -> is_today p' day' s0 = true ->
  forall s, is_today p' day' s = is_today p day s.
Proof.
  unfold is_today. intros H H' s.
  apply andb_prop in H, H'. destruct H as [Hp Hd], H' as [Hp' Hd'].
  apply String.eqb_eq in Hp, Hp'. subst p p'.
  f_equal. destruct (getTime (Session.date s0)) as [t0|]; [|discriminate].
  destruct (getTime day) as [t|], (getTime day') as [t'|]; try discriminate.
  cbn [num_eq] in Hd, Hd'. apply Z.eqb_eq in Hd, Hd'. now subst.
Qed.

Lemma at_most_one_session_step c st :
  call_clock_ok c -> session_dates_valid st ->
  at_most_one_session st -> at_most_one_session (afterCall c st).
Proof.
  intros Hc Hv H p' day'. destruct c as [p card q clk|p].
  - rewrite afterCall_review, storedSessions_afterReview_ok by assumption.
    unfold upsertSession.
    destruct (find (is_today p (TimeValue (localMidnight clk))) (storedSessions st))
      as [old|] eqn:Efind.
    + rewrite length_filter_update_first by (intros; apply is_today_bump). apply H.
    + rewrite filter_app, length_app. cbn [filter].
      destruct (is_today p' day' (Session.mk p (TimeValue (localMidnight clk)) 1 (inject_Z q)))
        eqn:E; cbn [length].
      * assert (Hnew : is_today p (TimeValue (localMidnight clk))
                         (Session.mk p (TimeValue (localMidnight clk)) 1 (inject_Z q)) = true).
        { unfold is_today. cbn. now rewrite String.eqb_refl, Z.eqb_refl. }
        rewrite (filter_ext _ _ (is_today_same_key _ _ _ _ _ Hnew E)).
        rewrite (find_none_filter _ _ Efind). cbn [length]. lia.
      * rewrite Nat.add_0_r. apply H.
  - rewrite afterCall_delete, storedSessions_afterDelete_ok by assumption.
    etransitivity; [apply length_filter_filter | apply H].
Qed.

Lemma sessions_invariant calls :
  Forall call_clock_ok calls ->
  session_dates_valid (afterCalls calls emptyStorage)
  /\ at_most_one_session (afterCalls calls emptyStorage).
Proof.
  intros Hcalls.
  apply (afterCalls_invariant call_clock_ok
           (fun st => session_dates_valid st /\ at_most_one_session st)).
  - intros c st Hc [Hv H1]. split.
    + now apply session_dates_valid_step.
    + now apply at_most_one_session_step.
  - exact Hcalls.
  - split; [constructor | intros p day; cbn; lia].
Qed.

Lemma is_today_date studyPackId t s :
  is_today studyPackId (TimeValue t) s = true ->
  Session.studyPackId s = studyPackId /\ Session.date s = TimeValue t.
Proof.
  unfold is_today. intros H. apply andb_prop in H. destruct H as [Hp Hd].
  apply String.eqb_eq in Hp. split; [exact Hp|].
  destruct (Session.date s) as [t'|]; [|discriminate].
  cbn in Hd. apply Z.eqb_eq in Hd. now subst.
Qed.


(** A second review on the same day: the mean of 3 and 4 over two cards. *)
Example second_review_same_day :
  storedSessions
    (afterCalls [CallRecordReview "deck" "card1" 3 sample_clock;
                 CallRecordReview "deck" "card2" 4 (later 0 60000 sample_clock)]
                emptyStorage)
  = [Session.mk "deck" (TimeValue 1699920000000) 2 ((3 * 1 + 4) / 2)%Q].
Proof. reflexivity. Qed.

(** ** Intervals stay positive *)

Lemma Math_round_ge_1 (x : Q) : (1 <= x)%Q -> 1 <= Math_round x.
Proof.
  intros H. unfold Math_round.
  change 1 with (Qfloor (1 + 0.5)%Q).
  apply Qfloor_resp_le. now apply Qplus_le_l.
Qed.

Lemma scaled_ge_1 (i : Z) (e : Q) : 1 <= i -> (1 <= e)%Q -> (1 <= inject_Z i * e)%Q.
Proof.
  intros Hi He. unfold Qle, Qmult, inject_Z in *. cbn [Qnum Qden] in *.
  rewrite Pos.mul_1_l. nia.
Qed.

Lemma nextEase_ge existing quality : (1.3 <= nextEase existing quality)%Q.
Proof.
  destruct existing as [e|]; cbn [nextEase].
  - apply Q.le_max_l.
  - discriminate.
Qed.

Lemma interval_or_1_ge existing :
  (forall e, existing = Some e -> 1 <= Review.interval e) ->
  1 <= interval_or_1 existing.
Proof.
  intros H. destruct existing as [e|]; cbn [interval_or_1]; [|lia].
  specialize (H e eq_refl). destruct (Z.eqb_spec (Review.interval e) 0); lia.
Qed.

Lemma baseInterval_ge existing ease repetitions :
  (forall e, existing = Some e -> 1 <= Review.interval e) ->
  (1.3 <= ease)%Q ->
  1 <= baseInterval existing ease repetitions.
Proof.
  intros He Hease. unfold baseInterval.
  destruct (repetitions =? 0); [lia|]. destruct (repetitions =? 1); [lia|].
  apply Math_round_ge_1, scaled_ge_1; [now apply interval_or_1_ge|].
  eapply Qle_trans; [|exact Hease]. discriminate.
Qed.

Lemma adjustInterval_ge quality i :
  1 <= quality <= 4 -> 1 <= i -> 1 <= adjustInterval quality i.
Proof.
  intros Hq Hi.
  assert (C : quality = 1 \/ quality = 2 \/ quality = 3 \/ quality = 4) by lia.
  destruct C as [-> | [-> | [-> | ->]]]; cbn [adjustInterval].
  - apply Z.le_max_l.
  - apply Z.le_max_l.
  - exact Hi.
  - apply Math_round_ge_1.
    setoid_replace (inject_Z i * 1.3)%Q with (1.3 * inject_Z i)%Q by apply Qmult_comm.
    unfold Qle, Qmult, inject_Z. cbn [Qnum Qden]. lia.
Qed.

Lemma newReview_interval_ge existing studyPackId cardId quality clk :
  1 <= quality <= 4 ->
  (forall e, existing = Some e -> 1 <= Review.interval e) ->
  1 <= Review.interval (newReview existing studyPackId cardId quality clk).
Proof.
  intros Hq He. cbn [newReview Review.interval].
  apply adjustInterval_ge; [exact Hq|].
  apply baseInterval_ge; [exact He | apply nextEase_ge].
Qed.

Lemma reload_reload_TimeClip x : reload (reload (TimeClip x)) = reload (TimeClip x).
Proof.
  unfold TimeClip. destruct (Z.leb_spec (Z.abs x) MAX_TIME) as [H|H].
  - now rewrite !reload_in_range.
  - reflexivity.
Qed.

Lemma review_scheduled_reload r :
  review_scheduled r -> review_scheduled (Review.mapDates reload r).
Proof.
  intros [Hi [He [t [Ht [Hd Hn]]]]]. unfold review_scheduled, Review.mapDates.
  cbn [Review.interval Review.easeFactor Review.reviewDate Review.nextReview].
  split; [exact Hi|]. split; [exact He|].
  exists t. split; [exact Ht|]. split.
  - rewrite Hd. now apply reload_in_range.
  - rewrite Hn. apply reload_reload_TimeClip.
Qed.

Lemma review_scheduled_new existing studyPackId cardId quality clk :
  1 <= quality <= 4 -> clock_ok clk ->
  (forall e, existing = Some e -> review_scheduled e) ->
  review_scheduled
    (Review.mapDates reload (newReview existing studyPackId cardId quality clk)).
Proof.
  intros Hq [Hnow _] He.
  assert (Hi : 1 <= Review.interval (newReview existing studyPackId cardId quality clk)).
  { apply newReview_interval_ge; [exact Hq|]. intros e E. now apply (He e E). }
  revert Hi. unfold review_scheduled, Review.mapDates.
  cbn [newReview Review.interval Review.easeFactor Review.reviewDate
       Review.nextReview].
  intros Hi. split; [exact Hi|]. split; [apply nextEase_ge|].
  exists (now clk). split; [exact Hnow|]. split.
  - unfold new_Date. now apply reload_in_range.
  - unfold new_Date. cbn [getTime option_map Date_of_number].
    do 2 f_equal. unfold MS_PER_DAY. lia.
Qed.

Lemma reviews_scheduled_step c st :
  call_graded c ->
  Forall review_scheduled (storedReviews st) ->
  Forall review_scheduled (storedReviews (afterCall c st)).
Proof.
  intros Hc Hst. destruct c as [p card q clk|p].
  - destruct Hc as [Hq Hclk].
    rewrite afterCall_review, storedReviews_afterReview. unfold updatedReviews.
    rewrite map_app. apply Forall_app. split.
    + apply Forall_map. apply Forall_filter.
      revert Hst. apply Forall_impl. intros r. apply review_scheduled_reload.
    + cbn [map]. constructor; [|constructor].
      apply review_scheduled_new; [exact Hq | exact Hclk |].
      intros e E. apply find_some in E. destruct E as [Hin _].
      rewrite Forall_forall in Hst. now apply Hst.
  - rewrite afterCall_delete, storedReviews_afterDelete.
    apply Forall_map. apply Forall_filter.
    revert Hst. apply Forall_impl. intros r. apply review_scheduled_reload.
Qed.

(** C10, as the code has it.  After any sequence of reviews graded 1..4 at
    clock readings that are dates, every stored review has an interval of
    at least 1 day; its next review is the review date plus the interval
    in days of 24 hours, so at least 24 hours later, as long as that
    instant is within the range of [Date] (8.64e15 ms).  Beyond the range
    the next review is an invalid date, written as [null] and read back as
    the epoch. *)
Theorem stored_interval_positive calls :
  Forall call_graded calls ->
  let st := afterCalls calls emptyStorage in
  run (performAll calls) emptyStorage = (inr tt, st)
  /\ forall r, In r (storedReviews st) ->
       1 <= Review.interval r
       /\ exists t,
           Review.reviewDate r = TimeValue t
           /\ (t + Review.interval r * MS_PER_DAY <= MAX_TIME ->
               Review.nextReview r = TimeValue (t + Review.interval r * MS_PER_DAY)
               /\ t + MS_PER_DAY <= t + Review.interval r * MS_PER_DAY)
           /\ (MAX_TIME < t + Review.interval r * MS_PER_DAY ->
               Review.nextReview r = TimeValue 0).
Proof.
  intros Hcalls st. split; [apply run_performAll|].
  assert (Hall : Forall review_scheduled (storedReviews st)).
  { apply (afterCalls_invariant call_graded
             (fun s => Forall review_scheduled (storedReviews s))).
    - intros c s. apply reviews_scheduled_step.
    - exact Hcalls.
    - constructor. }
  intros r Hr. rewrite Forall_forall in Hall.
  destruct (Hall r Hr) as [Hi [_ [t [Ht [Hd Hn]]]]].
  split; [exact Hi|]. exists t. split; [exact Hd|].
  assert (Hday : 0 < MS_PER_DAY) by reflexivity.
  assert (Hk : MS_PER_DAY <= Review.interval r * MS_PER_DAY) by nia.
  split; intros Hrange; rewrite Hn.
  - split; [|lia].
    rewrite TimeClip_in_range by lia. apply reload_in_range. lia.
  - unfold TimeClip.
    destruct (Z.leb_spec (Z.abs (t + Review.interval r * MS_PER_DAY)) MAX_TIME);
      [lia | reflexivity].
Qed.

Lemma stored_interval_positive_witness :
  let calls := [CallRecordReview "deck" "card" 2 sample_clock] in
  let st := afterCalls calls emptyStorage in
  run (performAll calls) emptyStorage = (inr tt, st)
  /\ forall r, In r (storedReviews st) ->
       1 <= Review.interval r
       /\ exists t,
           Review.reviewDate r = TimeValue t
           /\ (t + Review.interval r * MS_PER_DAY <= MAX_TIME ->
               Review.nextReview r = TimeValue (t + Review.interval r * MS_PER_DAY)
               /\ t + MS_PER_DAY <= t + Review.interval r * MS_PER_DAY)
           /\ (MAX_TIME < t + Review.interval r * MS_PER_DAY ->
               Review.nextReview r = TimeValue 0).
Proof.
  apply (stored_interval_positive [CallRecordReview "deck" "card" 2 sample_clock]).
  repeat constructor; vm_compute; discriminate.
Defined.

(** C10, as it is worded, fails.  After fifteen reviews of one card in a
    row, each graded 4, the interval is 118496157 days; the next review is
    beyond the range of [Date], is stored as [null] and read back as the
    epoch, which is not 24 hours after the review date. *)
Lemma next_review_not_a_day_later :
  Forall call_graded fifteen_easy_reviews
  /\ exists r,
      In r (storedReviews (afterCalls fifteen_easy_reviews emptyStorage))
      /\ Review.interval r = 118496157
      /\ Review.reviewDate r = TimeValue 1700000840000
      /\ Review.nextReview r = TimeValue 0
      /\ ~ next_review_a_day_later r.
Proof.
  split.
  - unfold fifteen_easy_reviews. cbn [map].
    repeat constructor; vm_compute; discriminate.
  - eexists. split; [vm_compute; left; reflexivity|].
    repeat split.
    intros [t [n [Ht [Hn Hle]]]].
    cbn [Review.reviewDate Review.nextReview] in Ht, Hn.
    injection Ht as <-. injection Hn as <-.
    vm_compute in Hle. apply Hle. reflexivity.
Qed.

(** ** Unreadable storage *)

Lemma parse_or_empty_discard {R A : Type} (f : R -> A) stored :
  parse_or_empty f (discard_unreadable stored) = parse_or_empty f stored.
Proof.
  destruct stored as [[| |elems]|]; try reflexivity.
  cbn [discard_unreadable parse_throws parse_or_empty].
  destruct (no_null elems) eqn:E; cbn [negb parse_or_empty]; [|reflexivity].
  now rewrite E.
Qed.

Lemma storedReviews_recover st : storedReviews (recover st) = storedReviews st.
Proof. rewrite !storedReviews_eq. apply parse_or_empty_discard. Qed.

Lemma storedSessions_recover st : storedSessions (recover st) = storedSessions st.
Proof. rewrite !storedSessions_eq. apply parse_or_empty_discard. Qed.

Lemma run_getDueCards studyPackId flashcards clk st :
  run (getDueCards studyPackId flashcards clk) st =
  (inr (Array_sort due_compare
          (for_push (dueEntry (storedReviews st) studyPackId (new_Date clk))
                    flashcards)),
   st).
Proof. unfold getDueCards. now rewrite run_bind, run_getReviews. Qed.

Lemma run_getUpcomingCards studyPackId flashcards limit clk st :
  run (getUpcomingCards studyPackId flashcards limit clk) st =
  (inr (Array_slice0 limit
          (Array_sort upcoming_compare
             (for_push (upcomingEntry (storedReviews st) studyPackId (new_Date clk))
                       flashcards))),
   st).
Proof. unfold getUpcomingCards. now rewrite run_bind, run_getReviews. Qed.

(** [getTodayStats] completes, leaves the storage as it is, and its result
    is a function of what [getReviews] and [getSessions] return. *)
Lemma run_getTodayStats studyPackId clk st :
  exists stats,
    run (getTodayStats studyPackId clk) st = (inr stats, st)
    /\ forall st',
        storedReviews st' = storedReviews st ->
        storedSessions st' = storedSessions st ->
        run (getTodayStats studyPackId clk) st' = (inr stats, st').
Proof.
  unfold getTodayStats. eexists. split.
  - rewrite run_bind, run_getReviews. cbv beta iota.
    rewrite run_bind, run_getSessions. cbv beta iota zeta.
    rewrite run_bind, run_calculateStreak. cbv beta iota.
    rewrite run_ret. reflexivity.
  - intros st' Hr Hs.
    rewrite run_bind, run_getReviews. cbv beta iota.
    rewrite run_bind, run_getSessions. cbv beta iota zeta.
    rewrite run_bind, run_calculateStreak. cbv beta iota.
    rewrite run_ret, Hr, Hs. reflexivity.
Qed.

Lemma unreadable_reviews st item :
  studyForge_sr_reviews st = Some item -> parse_throws item = true ->
  storedReviews st = [].
Proof.
  intros E H. rewrite storedReviews_eq, E.
  destruct item as [| |elems]; try reflexivity.
  cbn [parse_throws] in H. cbn [parse_or_empty].
  apply negb_true_iff in H. now rewrite H.
Qed.

Lemma unreadable_sessions st item :
  studyForge_sr_sessions st = Some item -> parse_throws item = true ->
  storedSessions st = [].
Proof.
  intros E H. rewrite storedSessions_eq, E.
  destruct item as [| |elems]; try reflexivity.
  cbn [parse_throws] in H. cbn [parse_or_empty].
  apply negb_true_iff in H. now rewrite H.
Qed.

(** Without reviews every card is new, and the sort keeps their order. *)
Lemma due_all_new studyPackId now cards :
  Array_sort due_compare (for_push (dueEntry [] studyPackId now) cards)
  = map (fun c => Due.mk c None now 0 0) cards.
Proof.
  induction cards as [|c cards IH]; [reflexivity|].
  cbn [for_push dueEntry find map]. unfold Array_sort in *.
  cbn [fold_right]. rewrite IH.
  destruct cards as [|c' cards']; [reflexivity|].
  cbn [map insert_sorted]. unfold cmp_le, due_compare.
  cbn [Due.lastReview Due.nextReview].
  destruct (getTime now) as [t|]; cbn [num_sub]; [|reflexivity].
  now rewrite Z.sub_diag.
Qed.

Lemma upcoming_none studyPackId now cards :
  for_push (upcomingEntry [] studyPackId now) cards = [].
Proof. induction cards as [|c cards IH]; [reflexivity | exact IH]. Qed.

(** C9, as the code has it.  An item on which [JSON.parse(stored).map(...)]
    throws (text that is not JSON, JSON that is not an array, an array
    with a [null] element) counts as absent: every operation completes
    without an exception, with the result, and for the two writers the
    storage, it has once such items are removed.  With unreadable reviews
    every card is new and due and none is upcoming; with unreadable
    sessions the streak is 0. *)
Theorem unreadable_storage_is_empty_history st :
  (forall p cards clk, same_result (getDueCards p cards clk) st (recover st))
  /\ (forall p cards limit clk,
        same_result (getUpcomingCards p cards limit clk) st (recover st))
  /\ (forall p clk, same_result (getTodayStats p clk) st (recover st))
  /\ (forall p clk, same_result (calculateStreak p clk) st (recover st))
  /\ (forall p card q clk,
        same_result (recordReview p card q clk) st (recover st)
        /\ afterReview p card q clk st = afterReview p card q clk (recover st))
  /\ (forall p,
        same_result (deleteData p) st (recover st)
        /\ afterDelete p st = afterDelete p (recover st))
  /\ (forall item,
        studyForge_sr_reviews st = Some item -> parse_throws item = true ->
        forall p cards limit clk,
          fst (run (getDueCards p cards clk) st)
            = inr (map (fun c => Due.mk c None (new_Date clk) 0 0) cards)
          /\ fst (run (getUpcomingCards p cards limit clk) st) = inr [])
  /\ (forall item,
        studyForge_sr_sessions st = Some item -> parse_throws item = true ->
        forall p clk, fst (run (calculateStreak p clk) st) = inr 0).
Proof.
  pose proof (storedReviews_recover st) as Hr.
  pose proof (storedSessions_recover st) as Hs.
  repeat apply conj.
  - intros p cards clk. eexists.
    rewrite !run_getDueCards, Hr. split; reflexivity.
  - intros p cards limit clk. eexists.
    rewrite !run_getUpcomingCards, Hr. split; reflexivity.
  - intros p clk. destruct (run_getTodayStats p clk st) as [stats [E E']].
    exists stats. rewrite E, (E' (recover st) Hr Hs). split; reflexivity.
  - intros p clk. eexists.
    rewrite !run_calculateStreak, Hs. split; reflexivity.
  - intros p card q clk. split.
    + eexists. rewrite !run_recordReview. split; reflexivity.
    + now rewrite !afterReview_eq, Hr, Hs.
  - intros p. split.
    + eexists. rewrite !run_deleteData_eq. split; reflexivity.
    + unfold afterDelete. now rewrite !run_deleteData_eq, Hr, Hs.
  - intros item E H p cards limit clk. split.
    + rewrite run_getDueCards, (unreadable_reviews st item) by assumption.
      cbn [fst]. now rewrite due_all_new.
    + rewrite run_getUpcomingCards, (unreadable_reviews st item) by assumption.
      cbn [fst]. rewrite upcoming_none. unfold Array_slice0.
      cbn [Array_sort fold_right]. now rewrite firstn_nil.
  - intros item E H p clk.
    rewrite run_calculateStreak, (unreadable_sessions st item) by assumption.
    reflexivity.
Qed.

Lemma unreadable_storage_is_empty_history_witness :
  fst (run (getDueCards "deck" [sample_card] sample_clock) corrupt_storage)
    = inr [Due.mk sample_card None (new_Date sample_clock) 0 0]
  /\ fst (run (getUpcomingCards "deck" [sample_card] 10 sample_clock) corrupt_storage)
       = inr []
  /\ fst (run (calculateStreak "deck" sample_clock) corrupt_storage) = inr 0
  /\ afterReview "deck" "card" 3 sample_clock corrupt_storage
       = afterReview "deck" "card" 3 sample_clock emptyStorage.
Proof.
  destruct (unreadable_storage_is_empty_history corrupt_storage)
    as [_ [_ [_ [_ [Hrec [_ [Hdue Hstreak]]]]]]].
  destruct (Hdue NotJSON eq_refl eq_refl "deck"%string [sample_card] 10 sample_clock)
    as [H1 H2].
  split; [exact H1|]. split; [exact H2|]. split.
  - exact (Hstreak NotJSON eq_refl eq_refl "deck"%string sample_clock).
  - exact (proj2 (Hrec "deck"%string "card"%string 3 sample_clock)).
Defined.

(** C9, as it is worded, fails.  A stored review whose [nextReview] is not
    a date is not the JSON of a review record, yet it is used as it is: its
    card is neither due nor upcoming, where with no history it is due. *)
Lemma undated_review_hides_card :
  studyForge_sr_reviews undated_storage = Some (JSONArray [Some undated_review])
  /\ is_review_list (JSONArray [Some undated_review]) = false
  /\ fst (run (getDueCards "deck" [sample_card] sample_clock) undated_storage) = inr []
  /\ fst (run (getUpcomingCards "deck" [sample_card] 10 sample_clock) undated_storage)
       = inr []
  /\ fst (run (getDueCards "deck" [sample_card] sample_clock) emptyStorage)
       = inr [Due.mk sample_card None (new_Date sample_clock) 0 0].
Proof. repeat split. Qed.

(** ** Sorting *)

Section Sorting.
Context {A : Type}.
Variable cmp : A -> A -> number.

Lemma insert_sorted_perm x l : Permutation (x :: l) (insert_sorted cmp x l).
Proof.
  induction l as [|y l IH]; cbn [insert_sorted]; [reflexivity|].
  destruct (cmp_le cmp x y); [reflexivity|].
  rewrite perm_swap. now apply perm_skip.
Qed.

Lemma Array_sort_perm l : Permutation l (Array_sort cmp l).
Proof.
  unfold Array_sort. induction l as [|x l IH]; cbn [fold_right]; [constructor|].
  rewrite <- insert_sorted_perm. now apply perm_skip.
Qed.

Lemma Array_sort_In x l : In x (Array_sort cmp l) <-> In x l.
Proof.
  split; apply Permutation_in; [symmetry|]; apply Array_sort_perm.
Qed.

(** The comparator decides an order [R] on the elements that satisfy [P]. *)
Variable R : A -> A -> Prop.
Variable P : A -> Prop.
Hypothesis cmp_le_R : forall a b, P a -> P b -> cmp_le cmp a b = true -> R a b.
Hypothesis cmp_gt_R : forall a b, P a -> P b -> cmp_le cmp a b = false -> R b a.

Lemma insert_sorted_Sorted x l :
  P x -> Forall P l -> Sorted R l -> Sorted R (insert_sorted cmp x l).
Proof.
  intros Hx Hl Hs. induction l as [|y l IH]; cbn [insert_sorted].
  - repeat constructor.
  - inversion Hl as [|? ? Hy Hl']; subst. inversion Hs as [|? ? Hs' Hhd]; subst.
    destruct (cmp_le cmp x y) eqn:E.
    + constructor; [assumption|]. constructor. now apply cmp_le_R.
    + constructor; [now apply IH|].
      destruct l as [|z l]; cbn [insert_sorted].
      * constructor. now apply cmp_gt_R.
      * destruct (cmp_le cmp x z).
        -- constructor. now apply cmp_gt_R.
        -- constructor. now inversion Hhd.
Qed.

Lemma Array_sort_Sorted l : Forall P l -> Sorted R (Array_sort cmp l).
Proof.
  unfold Array_sort. induction 1 as [|x l Hx Hl IH]; cbn [fold_right].
  - constructor.
  - apply insert_sorted_Sorted; [assumption | | assumption].
    apply Forall_forall. intros y Hy. rewrite Forall_forall in Hl.
    apply Hl. now apply Array_sort_In.
Qed.

End Sorting.

(** ** Slices and loops *)

Lemma for_push_In {A B : Type} (body : A -> option B) l y :
  In y (for_push body l) <-> exists x, In x l /\ body x = Some y.
Proof.
  induction l as [|x l IH]; cbn [for_push].
  - split; [intros [] | intros [x [[] _]]].
  - destruct (body x) as [y'|] eqn:E.
    + cbn [In]. rewrite IH. split.
      * intros [<- | [x' [Hin Hx']]]; [exists x; auto | exists x'; auto].
      * intros [x' [[<- | Hin] Hx']]; [left; congruence | right; exists x'; auto].
    + rewrite IH. split.
      * intros [x' [Hin Hx']]. exists x'. cbn [In]. auto.
      * intros [x' [[<- | Hin] Hx']]; [congruence | exists x'; auto].
Qed.

Lemma for_push_length {A B : Type} (body : A -> option B) l :
  (length (for_push body l) <= length l)%nat.
Proof.
  induction l as [|x l IH]; cbn [for_push length]; [lia|].
  destruct (body x); cbn [length]; lia.
Qed.

Lemma firstn_incl {A : Type} n (l : list A) x : In x (firstn n l) -> In x l.
Proof.
  revert n. induction l as [|y l IH]; intros [|n]; cbn [firstn In]; try tauto.
  intros [->|H]; [now left | right; now apply (IH n)].
Qed.

Lemma Array_slice0_In {A : Type} limit (l : list A) x :
  In x (Array_slice0 limit l) -> In x l.
Proof. unfold Array_slice0. apply firstn_incl. Qed.

Lemma Array_slice0_all {A : Type} limit (l : list A) :
  Z.of_nat (length l) <= limit -> Array_slice0 limit l = l.
Proof.
  intros H. unfold Array_slice0.
  destruct (Z.ltb_spec limit 0); [lia|].
  rewrite Z.min_r by lia. rewrite Nat2Z.id. apply firstn_all.
Qed.

Lemma Array_slice0_length {A : Type} limit (l : list A) :
  0 <= limit -> Z.of_nat (length (Array_slice0 limit l)) <= limit.
Proof.
  intros H. unfold Array_slice0.
  destruct (Z.ltb_spec limit 0); [lia|].
  rewrite length_firstn. lia.
Qed.

Lemma StronglySorted_firstn {A : Type} (R : A -> A -> Prop) n l :
  StronglySorted R l -> StronglySorted R (firstn n l).
Proof.
  intros H. revert n. induction H as [|x l Hs IH Hall]; intros n.
  - rewrite firstn_nil. constructor.
  - destruct n as [|n]; cbn [firstn]; constructor; [apply IH|].
    apply Forall_forall. intros y Hy. rewrite Forall_forall in Hall.
    apply Hall. eapply firstn_incl, Hy.
Qed.

(** ** Due and upcoming cards *)

Lemma Date_le_TimeValue d now :
  Date_le d (TimeValue now) = true <-> exists t, d = TimeValue t /\ t <= now.
Proof.
  destruct d as [t|]; unfold Date_le; cbn [getTime num_le].
  - rewrite Z.leb_le. split; [intros H; now exists t | now intros [t' [[= <-] H]]].
  - split; [discriminate | now intros [t [? _]]].
Qed.

Lemma Date_gt_TimeValue d now :
  Date_gt d (TimeValue now) = true <-> exists t, d = TimeValue t /\ now < t.
Proof.
  destruct d as [t|]; unfold Date_gt; cbn [getTime num_lt].
  - rewrite Z.ltb_lt. split; [intros H; now exists t | now intros [t' [[= <-] H]]].
  - split; [discriminate | now intros [t [? _]]].
Qed.

(** What [getDueCards] pushes for a card, and when. *)
Lemma dueEntry_Some reviews studyPackId now c d :
  dueEntry reviews studyPackId (TimeValue now) c = Some d <->
  (find (Review.is_for (Card.id c) studyPackId) reviews = None
   /\ d = Due.mk c None (TimeValue now) 0 0)
  \/ (exists r t,
        find (Review.is_for (Card.id c) studyPackId) reviews = Some r
        /\ Review.nextReview r = TimeValue t /\ t <= now
        /\ d = Due.mk c (Some (Review.reviewDate r)) (TimeValue t)
                      (Review.interval r) (Review.repetitions r)).
Proof.
  unfold dueEntry.
  destruct (find (Review.is_for (Card.id c) studyPackId) reviews) as [r|].
  - destruct (Date_le (Review.nextReview r) (TimeValue now)) eqn:E.
    + apply Date_le_TimeValue in E. destruct E as [t [Et Hle]]. split.
      * intros [= <-]. right. exists r, t. rewrite Et. auto.
      * intros [[? _] | [r' [t' [[= <-] [Et' [_ ->]]]]]]; [discriminate|].
        now rewrite Et'.
    + split; [discriminate|].
      intros [[? _] | [r' [t' [[= <-] [Et' [Hle _]]]]]]; [discriminate|].
      assert (Date_le (Review.nextReview r) (TimeValue now) = true)
        by (apply Date_le_TimeValue; eauto).
      congruence.
  - split.
    + intros [= <-]. now left.
    + intros [[_ ->] | [r [t [? _]]]]; [reflexivity | discriminate].
Qed.

(** What [getUpcomingCards] pushes for a card, and when. *)
Lemma upcomingEntry_Some reviews studyPackId now c u :
  upcomingEntry reviews studyPackId (TimeValue now) c = Some u <->
  exists r t,
    find (Review.is_for (Card.id c) studyPackId) reviews = Some r
    /\ Review.nextReview r = TimeValue t /\ now < t
    /\ u = Upcoming.mk c (TimeValue t) (Review.interval r).
Proof.
  unfold upcomingEntry.
  destruct (find (Review.is_for (Card.id c) studyPackId) reviews) as [r|].
  - destruct (Date_gt (Review.nextReview r) (TimeValue now)) eqn:E.
    + apply Date_gt_TimeValue in E. destruct E as [t [Et Hlt]]. split.
      * intros [= <-]. exists r, t. rewrite Et. auto.
      * intros [r' [t' [[= <-] [Et' [_ ->]]]]]. now rewrite Et'.
    + split; [discriminate|].
      intros [r' [t' [[= <-] [Et' [Hlt _]]]]].
      assert (Date_gt (Review.nextReview r) (TimeValue now) = true)
        by (apply Date_gt_TimeValue; eauto).
      congruence.
  - split; [discriminate | intros [r [t [? _]]]; discriminate].
Qed.

Lemma dueCardsOf_eq studyPackId flashcards clk st :
  dueCardsOf studyPackId flashcards clk st =
  Array_sort due_compare
    (for_push (dueEntry (storedReviews st) studyPackId (TimeValue (now clk)))
              flashcards).
Proof. unfold dueCardsOf. now rewrite run_getDueCards. Qed.

Lemma upcomingCardsOf_eq studyPackId flashcards limit clk st :
  upcomingCardsOf studyPackId flashcards limit clk st =
  Array_slice0 limit
    (Array_sort upcoming_compare
       (for_push (upcomingEntry (storedReviews st) studyPackId (TimeValue (now clk)))
                 flashcards)).
Proof. unfold upcomingCardsOf. now rewrite run_getUpcomingCards. Qed.

(** With a limit of the number of cards nothing is cut off. *)
Lemma upcomingCardsOf_all studyPackId flashcards clk st :
  upcomingCardsOf studyPackId flashcards (Z.of_nat (length flashcards)) clk st =
  Array_sort upcoming_compare
    (for_push (upcomingEntry (storedReviews st) studyPackId (TimeValue (now clk)))
              flashcards).
Proof.
  rewrite upcomingCardsOf_eq. apply Array_slice0_all.
  rewrite <- (Permutation_length (Array_sort_perm upcoming_compare _)).
  apply Nat2Z.inj_le, for_push_length.
Qed.

Lemma In_dueCardsOf studyPackId flashcards clk st d :
  In d (dueCardsOf studyPackId flashcards clk st) <->
  exists c, In c flashcards
            /\ dueEntry (storedReviews st) studyPackId (TimeValue (now clk)) c = Some d.
Proof. now rewrite dueCardsOf_eq, Array_sort_In, for_push_In. Qed.

Lemma In_upcomingCardsOf_all studyPackId flashcards clk st u :
  In u (upcomingCardsOf studyPackId flashcards (Z.of_nat (length flashcards)) clk st) <->
  exists c, In c flashcards
            /\ upcomingEntry (storedReviews st) studyPackId (TimeValue (now clk)) c = Some u.
Proof. now rewrite upcomingCardsOf_all, Array_sort_In, for_push_In. Qed.

Lemma upcomingCardsOf_slice studyPackId flashcards limit clk st :
  upcomingCardsOf studyPackId flashcards limit clk st =
  Array_slice0 limit
    (upcomingCardsOf studyPackId flashcards (Z.of_nat (length flashcards)) clk st).
Proof. now rewrite upcomingCardsOf_all, upcomingCardsOf_eq. Qed.

Lemma due_compare_le a b :
  (exists t, Due.nextReview a = TimeValue t) ->
  (exists t, Due.nextReview b = TimeValue t) ->
  cmp_le due_compare a b = true -> due_before a b.
Proof.
  intros [ta Ha] [tb Hb]. unfold cmp_le, due_compare, due_before.
  rewrite Ha, Hb. cbn [getTime num_sub num_le].
  destruct (Due.lastReview a), (Due.lastReview b); try easy.
  intros H. apply Z.leb_le in H. apply Z.leb_le. lia.
Qed.

Lemma due_compare_gt a b :
  (exists t, Due.nextReview a = TimeValue t) ->
  (exists t, Due.nextReview b = TimeValue t) ->
  cmp_le due_compare a b = false -> due_before b a.
Proof.
  intros [ta Ha] [tb Hb]. unfold cmp_le, due_compare, due_before.
  rewrite Ha, Hb. cbn [getTime num_sub num_le].
  destruct (Due.lastReview a), (Due.lastReview b); try easy.
  intros H. apply Z.leb_gt in H. apply Z.leb_le. lia.
Qed.

Lemma due_before_trans a b c : due_before a b -> due_before b c -> due_before a c.
Proof.
  unfold due_before.
  destruct (Due.lastReview a), (Due.lastReview b), (Due.lastReview c); try easy.
  destruct (getTime (Due.nextReview a)), (getTime (Due.nextReview b)),
    (getTime (Due.nextReview c)); cbn [num_le]; try easy.
  rewrite !Z.leb_le. lia.
Qed.

Lemma upcoming_compare_le a b :
  (exists t, Upcoming.nextReview a = TimeValue t) ->
  (exists t, Upcoming.nextReview b = TimeValue t) ->
  cmp_le upcoming_compare a b = true -> upcoming_before a b.
Proof.
  intros [ta Ha] [tb Hb]. unfold cmp_le, upcoming_compare, upcoming_before.
  rewrite Ha, Hb. cbn [getTime num_sub num_le].
  intros H. apply Z.leb_le in H. apply Z.leb_le. lia.
Qed.

Lemma upcoming_compare_gt a b :
  (exists t, Upcoming.nextReview a = TimeValue t) ->
  (exists t, Upcoming.nextReview b = TimeValue t) ->
  cmp_le upcoming_compare a b = false -> upcoming_before b a.
Proof.
  intros [ta Ha] [tb Hb]. unfold cmp_le, upcoming_compare, upcoming_before.
  rewrite Ha, Hb. cbn [getTime num_sub num_le].
  intros H. apply Z.leb_gt in H. apply Z.leb_le. lia.
Qed.

Lemma upcoming_before_trans a b c :
  upcoming_before a b -> upcoming_before b c -> upcoming_before a c.
Proof.
  unfold upcoming_before.
  destruct (getTime (Upcoming.nextReview a)), (getTime (Upcoming.nextReview b)),
    (getTime (Upcoming.nextReview c)); cbn [num_le]; try easy.
  rewrite !Z.leb_le. lia.
Qed.

Lemma dueCardsOf_sorted studyPackId flashcards clk st :
  StronglySorted due_before (dueCardsOf studyPackId flashcards clk st).
Proof.
  apply Sorted_StronglySorted; [exact due_before_trans|].
  rewrite dueCardsOf_eq.
  apply (Array_sort_Sorted due_compare due_before
           (fun d => exists t, Due.nextReview d = TimeValue t));
    [exact due_compare_le | exact due_compare_gt |].
  apply Forall_forall. intros d Hd.
  apply for_push_In in Hd. destruct Hd as [c [_ Hc]].
  apply dueEntry_Some in Hc.
  destruct Hc as [[_ ->] | [r [t [_ [_ [_ ->]]]]]]; now eexists.
Qed.

Lemma upcomingCardsOf_sorted studyPackId flashcards limit clk st :
  StronglySorted upcoming_before (upcomingCardsOf studyPackId flashcards limit clk st).
Proof.
  rewrite upcomingCardsOf_eq. unfold Array_slice0. apply StronglySorted_firstn.
  apply Sorted_StronglySorted; [exact upcoming_before_trans|].
  apply (Array_sort_Sorted upcoming_compare upcoming_before
           (fun u => exists t, Upcoming.nextReview u = TimeValue t));
    [exact upcoming_compare_le | exact upcoming_compare_gt |].
  apply Forall_forall. intros u Hu.
  apply for_push_In in Hu. destruct Hu as [c [_ Hc]].
  apply upcomingEntry_Some in Hc.
  destruct Hc as [r [t [_ [_ [_ ->]]]]]. now eexists.
Qed.

(** C7, as the code has it.  For every storage, deck, list of cards, limit
    and clock reading, with [upcoming] the answer of [getUpcomingCards] and
    [all_upcoming] its answer when the limit is the number of cards:
    - both calls complete and leave the storage as it is;
    - a card is due exactly when it is one of the cards and has no review
      or its next review is at or before now, however long before;
    - a card is in [all_upcoming] exactly when it is one of the cards and
      its next review is after now, and [upcoming] is the slice
      [0..limit) of [all_upcoming], so a part of it;
    - no card id is both due and in [all_upcoming];
    - every card is due, or in [all_upcoming], or has a review whose next
      review is an invalid date; [upcoming] is all of [all_upcoming] when
      the limit is at least its length;
    - the due list has the never-reviewed cards first and then ascends by
      next review; the upcoming list ascends by next review and, for a
      limit that is not negative, is at most [limit] long. *)
Theorem due_and_upcoming studyPackId flashcards limit clk st :
  let due := dueCardsOf studyPackId flashcards clk st in
  let upcoming := upcomingCardsOf studyPackId flashcards limit clk st in
  let all_upcoming :=
    upcomingCardsOf studyPackId flashcards (Z.of_nat (length flashcards)) clk st in
  let review c := find (Review.is_for (Card.id c) studyPackId) (storedReviews st) in
  (run (getDueCards studyPackId flashcards clk) st = (inr due, st)
   /\ run (getUpcomingCards studyPackId flashcards limit clk) st = (inr upcoming, st))
  /\ (forall c,
        In c (map Due.card due) <->
        In c flashcards
        /\ (review c = None
            \/ exists r t, review c = Some r
                           /\ Review.nextReview r = TimeValue t /\ t <= now clk))
  /\ (forall c,
        In c (map Upcoming.card all_upcoming) <->
        In c flashcards
        /\ exists r t, review c = Some r
                       /\ Review.nextReview r = TimeValue t /\ now clk < t)
  /\ upcoming = Array_slice0 limit all_upcoming
  /\ (forall u, In u upcoming -> In u all_upcoming)
  /\ (forall d u, In d due -> In u all_upcoming ->
        Card.id (Due.card d) <> Card.id (Upcoming.card u))
  /\ (forall c, In c flashcards ->
        In c (map Due.card due)
        \/ In c (map Upcoming.card all_upcoming)
        \/ exists r, review c = Some r /\ Review.nextReview r = InvalidDate)
  /\ (Z.of_nat (length all_upcoming) <= limit -> upcoming = all_upcoming)
  /\ StronglySorted due_before due
  /\ (forall d, In d due -> (Due.lastReview d = None <-> review (Due.card d) = None))
  /\ StronglySorted upcoming_before upcoming
  /\ (0 <= limit -> Z.of_nat (length upcoming) <= limit).
Proof.
  intros due upcoming all_upcoming review.
  assert (Hdue : forall c,
             In c (map Due.card due) <->
             In c flashcards
             /\ (review c = None
                 \/ exists r t, review c = Some r
                                /\ Review.nextReview r = TimeValue t /\ t <= now clk)).
  { intros c. rewrite in_map_iff. split.
    - intros [d [<- Hd]]. apply In_dueCardsOf in Hd. destruct Hd as [c [Hc Hd]].
      apply dueEntry_Some in Hd.
      destruct Hd as [[Hnone ->] | [r [t [Hr [Ht [Hle ->]]]]]];
        cbn [Due.card]; split; trivial; [now left | right; eauto].
    - intros [Hc [Hnone | [r [t [Hr [Ht Hle]]]]]].
      + eexists. split; [|apply In_dueCardsOf; exists c; split; [exact Hc|];
                          apply dueEntry_Some; left; split; [exact Hnone | reflexivity]].
        reflexivity.
      + eexists. split; [|apply In_dueCardsOf; exists c; split; [exact Hc|];
                          apply dueEntry_Some; right; exists r, t; repeat split; eauto].
        reflexivity. }
  assert (Hup : forall c,
             In c (map Upcoming.card all_upcoming) <->
             In c flashcards
             /\ exists r t, review c = Some r
                            /\ Review.nextReview r = TimeValue t /\ now clk < t).
  { intros c. rewrite in_map_iff. split.
    - intros [u [<- Hu]]. apply In_upcomingCardsOf_all in Hu.
      destruct Hu as [c [Hc Hu]]. apply upcomingEntry_Some in Hu.
      destruct Hu as [r [t [Hr [Ht [Hlt ->]]]]]. cbn [Upcoming.card]. eauto 6.
    - intros [Hc [r [t [Hr [Ht Hlt]]]]].
      eexists. split; [|apply In_upcomingCardsOf_all; exists c; split; [exact Hc|];
                        apply upcomingEntry_Some; exists r, t; repeat split; eauto].
      reflexivity. }
  split.
  { unfold due, upcoming. rewrite dueCardsOf_eq, upcomingCardsOf_eq.
    split; [apply run_getDueCards | apply run_getUpcomingCards]. }
  split; [exact Hdue|]. split; [exact Hup|].
  split; [apply upcomingCardsOf_slice|].
  split.
  { intros u. unfold upcoming. rewrite upcomingCardsOf_slice.
    apply Array_slice0_In. }
  split.
  { intros d u Hd Hu Heq.
    apply In_dueCardsOf in Hd. destruct Hd as [c [_ Hd]].
    apply In_upcomingCardsOf_all in Hu. destruct Hu as [c' [_ Hu]].
    apply dueEntry_Some in Hd. apply upcomingEntry_Some in Hu.
    destruct Hu as [r' [t' [Hr' [Ht' [Hlt ->]]]]]. cbn [Upcoming.card] in Heq.
    destruct Hd as [[Hnone ->] | [r [t [Hr [Ht [Hle ->]]]]]];
      cbn [Due.card] in Heq; rewrite Heq in *; [congruence|].
    rewrite Hr in Hr'. injection Hr' as <-. rewrite Ht in Ht'.
    injection Ht' as <-. lia. }
  split.
  { intros c Hc. destruct (review c) as [r|] eqn:Er.
    - destruct (Review.nextReview r) as [t|] eqn:Et.
      + destruct (Z.le_gt_cases t (now clk)).
        * left. apply Hdue. split; [exact Hc|]. right. exists r, t. auto.
        * right. left. apply Hup. split; [exact Hc|]. exists r, t. auto.
      + right. right. now exists r.
    - left. apply Hdue. split; [exact Hc | now left]. }
  split.
  { intros Hlen. unfold upcoming. rewrite upcomingCardsOf_slice.
    now apply Array_slice0_all. }
  split; [apply dueCardsOf_sorted|].
  split.
  { intros d Hd. apply In_dueCardsOf in Hd. destruct Hd as [c [_ Hd]].
    apply dueEntry_Some in Hd.
    destruct Hd as [[Hnone ->] | [r [t [Hr [_ [_ ->]]]]]];
      cbn [Due.card Due.lastReview]; unfold review.
    - now rewrite Hnone.
    - rewrite Hr. split; discriminate. }
  split; [apply upcomingCardsOf_sorted|].
  intros Hlimit. unfold upcoming. rewrite upcomingCardsOf_eq.
  now apply Array_slice0_length.
Qed.

Lemma due_and_upcoming_witness :
  let cards := [sample_card2; sample_card] in
  upcomingCardsOf "deck" cards default_limit sample_clock two_upcoming
    = upcomingCardsOf "deck" cards (Z.of_nat (length cards)) sample_clock two_upcoming
  /\ Z.of_nat (length (upcomingCardsOf "deck" cards default_limit sample_clock
                                       two_upcoming)) <= default_limit.
Proof.
  destruct (due_and_upcoming "deck" [sample_card2; sample_card] default_limit
              sample_clock two_upcoming)
    as (_ & _ & _ & _ & _ & _ & _ & Hall & _ & _ & _ & Hlen).
  split; [apply Hall | apply Hlen]; vm_compute; discriminate.
Defined.

(** C7, as it is worded, fails.  Two cards are both scheduled after now and
    the limit is 1: the second card has a review record and is in neither
    list.  And with a limit of -1 the upcoming list, one card long, is
    longer than the limit. *)
Lemma upcoming_beyond_limit :
  let cards := [sample_card; sample_card2] in
  let due := dueCardsOf "deck" cards sample_clock two_upcoming in
  let upcoming := upcomingCardsOf "deck" cards 1 sample_clock two_upcoming in
  In sample_card2 cards
  /\ (exists r, find (Review.is_for (Card.id sample_card2) "deck")
                     (storedReviews two_upcoming) = Some r)
  /\ ~ In sample_card2 (map Due.card due)
  /\ ~ In sample_card2 (map Upcoming.card upcoming)
  /\ ~ (Z.of_nat (length (upcomingCardsOf "deck" cards (-1) sample_clock two_upcoming))
        <= -1).
Proof.
  cbv zeta. split; [right; now left|]. split; [now eexists|].
  split; [vm_compute; tauto|]. split.
  - vm_compute. intros [H|[]]. discriminate H.
  - vm_compute. intros H. apply H. reflexivity.
Qed.

Example upcoming_within_limit :
  map (fun u => (Card.id (Upcoming.card u), Upcoming.nextReview u))
      (upcomingCardsOf "deck" [sample_card2; sample_card] default_limit
                       sample_clock two_upcoming)
  = [("card"%string, TimeValue 1700418400000);
     ("card2"%string, TimeValue 1700418400001)].
Proof. reflexivity. Qed.

(** ** Exact arithmetic and binary64 agree on the scenarios *)

(** In binary64 too: [round(6 * 1.3)] is 8; grade 3 takes the ease factor
    2.5 to the double of 2.36, and [round(6 * 2.36)] is 14, not 15; grade
    4 leaves the ease factor 2.5 as it is. *)
Lemma scenarios_in_binary64 :
  rounds_to (6 * 1.3)%float 8%float = true
  /\ PrimFloat.eqb (nextEase_binary64 2.5%float 3%float) 2.36%float = true
  /\ rounds_to (6 * nextEase_binary64 2.5%float 3%float)%float 14%float = true
  /\ rounds_to (6 * nextEase_binary64 2.5%float 3%float)%float 15%float = false
  /\ PrimFloat.eqb (nextEase_binary64 2.5%float 4%float) 2.5%float = true.
Proof. repeat split; vm_compute; reflexivity. Qed.

(* ================================================================== *)
(** * Further properties of the service *)

(** ** Invariants of the stored reviews, in general *)

Lemma reviewAfter_eq studyPackId cardId quality clk st :
  reviewAfter studyPackId cardId quality clk st =
  Some (Review.mapDates reload
          (newReview (find (Review.is_for cardId studyPackId) (storedReviews st))
                     studyPackId cardId quality clk)).
Proof.
  unfold reviewAfter.
  pose proof (stored_record_afterReview studyPackId cardId quality clk st) as H.
  destruct (find (Review.is_for cardId studyPackId)
              (storedReviews (afterReview studyPackId cardId quality clk st)))
    as [r|] eqn:E.
  - destruct (find_some_filter _ _ _ E) as [rest Hrest].
    rewrite Hrest in H. now injection H as -> _.
  - rewrite (find_none_filter _ _ E) in H. discriminate H.
Qed.

Section ReviewInvariant.
Variable P : CardReview -> Prop.
Variable C : Call -> Prop.
Hypothesis P_reload : forall r, P r -> P (Review.mapDates reload r).
Hypothesis P_new :
  forall existing studyPackId cardId quality clk,
    C (CallRecordReview studyPackId cardId quality clk) ->
    (forall e, existing = Some e -> P e) ->
    P (Review.mapDates reload (newReview existing studyPackId cardId quality clk)).

Lemma review_invariant_step c st :
  C c -> Forall P (storedReviews st) -> Forall P (storedReviews (afterCall c st)).
Proof.
  intros Hc Hst. destruct c as [p card q clk|p].
  - rewrite afterCall_review, storedReviews_afterReview. unfold updatedReviews.
    rewrite map_app. apply Forall_app. split.
    + apply Forall_map, Forall_filter.
      revert Hst. apply Forall_impl. exact P_reload.
    + cbn [map]. constructor; [|constructor].
      apply P_new; [exact Hc|].
      intros e E. apply find_some in E. destruct E as [Hin _].
      rewrite Forall_forall in Hst. now apply Hst.
  - rewrite afterCall_delete, storedReviews_afterDelete.
    apply Forall_map, Forall_filter.
    revert Hst. apply Forall_impl. exact P_reload.
Qed.

Lemma review_invariant calls :
  Forall C calls -> Forall P (storedReviews (afterCalls calls emptyStorage)).
Proof.
  intros Hcalls.
  apply (afterCalls_invariant C (fun s => Forall P (storedReviews s)));
    [exact review_invariant_step | exact Hcalls | constructor].
Qed.

End ReviewInvariant.

(** ** Grades, ease factor and repetitions of a stored review *)

Lemma ease_delta_nonpositive quality :
  1 <= quality <= 4 ->
  (0.1 - (5 - inject_Z quality) * (0.08 + (5 - inject_Z quality) * 0.02) <= 0)%Q.
Proof.
  intros Hq.
  assert (C : quality = 1 \/ quality = 2 \/ quality = 3 \/ quality = 4) by lia.
  destruct C as [-> | [-> | [-> | ->]]]; discriminate.
Qed.

Lemma nextEase_le existing quality :
  1 <= quality <= 4 ->
  (forall e, existing = Some e -> (Review.easeFactor e <= 2.5)%Q) ->
  (nextEase existing quality <= 2.5)%Q.
Proof.
  intros Hq He. destruct existing as [e|]; cbn [nextEase]; [|discriminate].
  apply Q.max_lub; [discriminate|].
  specialize (He e eq_refl).
  pose proof (ease_delta_nonpositive quality Hq) as Hd.
  setoid_replace 2.5%Q with (2.5 + 0)%Q by ring.
  now apply Qplus_le_compat.
Qed.

Lemma failed_grade_interval existing ease quality :
  quality = 1 \/ quality = 2 ->
  adjustInterval quality (baseInterval existing ease 0) = 1.
Proof. intros [-> | ->]; reflexivity. Qed.

Lemma review_graded_new existing studyPackId cardId quality clk :
  call_graded (CallRecordReview studyPackId cardId quality clk) ->
  (forall e, existing = Some e -> review_graded e) ->
  review_graded
    (Review.mapDates reload (newReview existing studyPackId cardId quality clk)).
Proof.
  intros [Hq _] He. unfold review_graded, Review.mapDates.
  cbn [newReview Review.quality Review.easeFactor Review.repetitions Review.interval].
  split; [exact Hq|]. split; [apply nextEase_ge|]. split.
  { apply nextEase_le; [exact Hq|]. intros e E. apply (He e E). }
  split.
  - intros Hlt.
    assert (R : nextRepetitions existing quality = 0).
    { destruct existing; cbn [nextRepetitions];
        destruct (Z.ltb_spec quality 3); lia. }
    rewrite R. split; [reflexivity|].
    apply failed_grade_interval. lia.
  - intros Hge. destruct existing as [e|]; cbn [nextRepetitions];
      destruct (Z.ltb_spec quality 3) as [Hlt|_]; try lia.
    destruct (He e eq_refl) as (Hqe & _ & _ & Hfail & Hpass).
    destruct (Z.lt_ge_cases (Review.quality e) 3) as [Hq3|Hq3].
    + destruct (Hfail Hq3) as [-> _]. lia.
    + specialize (Hpass Hq3). lia.
Qed.

(** X1.  After any sequence of reviews graded 1..4, started on an empty
    storage, every stored review has a grade in 1..4, an ease factor
    between 1.3 and 2.5 (no grade ever raises it above its start), no
    repetitions and an interval of one day when its grade is below 3, and
    at least one repetition when its grade is 3 or 4. *)
Theorem stored_reviews_graded calls :
  Forall call_graded calls ->
  forall r, In r (storedReviews (afterCalls calls emptyStorage)) ->
    1 <= Review.quality r <= 4
    /\ (1.3 <= Review.easeFactor r)%Q /\ (Review.easeFactor r <= 2.5)%Q
    /\ (Review.quality r < 3 -> Review.repetitions r = 0 /\ Review.interval r = 1)
    /\ (3 <= Review.quality r -> 1 <= Review.repetitions r).
Proof.
  intros Hcalls r Hr.
  pose proof (review_invariant review_graded call_graded) as H.
  specialize (H (fun r0 Hr0 => Hr0) review_graded_new calls Hcalls).
  rewrite Forall_forall in H. exact (H r Hr).
Qed.

Lemma stored_reviews_graded_witness :
  exists r,
    In r (storedReviews (afterCalls sample_calls emptyStorage))
    /\ 1 <= Review.quality r <= 4
    /\ (1.3 <= Review.easeFactor r)%Q /\ (Review.easeFactor r <= 2.5)%Q
    /\ (Review.quality r < 3 -> Review.repetitions r = 0 /\ Review.interval r = 1)
    /\ (3 <= Review.quality r -> 1 <= Review.repetitions r).
Proof.
  destruct (storedReviews (afterCalls sample_calls emptyStorage)) as [|r l] eqn:E.
  - vm_compute in E. discriminate E.
  - exists r. split; [now left|].
    apply (stored_reviews_graded sample_calls).
    + repeat constructor; vm_compute; discriminate.
    + rewrite E. now left.
Defined.

(** ** How the grade moves the next review *)

Lemma Math_round_le (x y : Q) : (x <= y)%Q -> Math_round x <= Math_round y.
Proof.
  intros H. unfold Math_round. apply Qfloor_resp_le. now apply Qplus_le_l.
Qed.

Lemma Math_round_easy_ge (i : Z) : 0 <= i -> i <= Math_round (inject_Z i * 1.3)%Q.
Proof.
  intros Hi. unfold Math_round.
  rewrite <- (Qfloor_Z i) at 1. apply Qfloor_resp_le.
  unfold Qle, Qplus, Qmult, inject_Z. cbn [Qnum Qden]. lia.
Qed.

Lemma nextEase_good_le_easy existing :
  (nextEase existing 3 <= nextEase existing 4)%Q.
Proof.
  destruct existing as [e|]; cbn [nextEase]; [|apply Qle_refl].
  apply Q.max_le_compat_l. apply Qplus_le_r. discriminate.
Qed.

Lemma interval_or_1_pos existing :
  (forall e, existing = Some e -> 0 <= Review.interval e) ->
  1 <= interval_or_1 existing.
Proof.
  intros H. destruct existing as [e|]; cbn [interval_or_1]; [|lia].
  specialize (H e eq_refl). destruct (Z.eqb_spec (Review.interval e) 0); lia.
Qed.

Lemma baseInterval_pos existing ease repetitions :
  (forall e, existing = Some e -> 0 <= Review.interval e) ->
  (1.3 <= ease)%Q ->
  1 <= baseInterval existing ease repetitions.
Proof.
  intros He Hease. unfold baseInterval.
  destruct (repetitions =? 0); [lia|]. destruct (repetitions =? 1); [lia|].
  apply Math_round_ge_1, scaled_ge_1; [now apply interval_or_1_pos|].
  eapply Qle_trans; [|exact Hease]. discriminate.
Qed.

Lemma baseInterval_mono existing e3 e4 repetitions :
  (forall e, existing = Some e -> 0 <= Review.interval e) ->
  (e3 <= e4)%Q ->
  baseInterval existing e3 repetitions <= baseInterval existing e4 repetitions.
Proof.
  intros He Hle. unfold baseInterval.
  destruct (repetitions =? 0); [lia|]. destruct (repetitions =? 1); [lia|].
  apply Math_round_le. apply Qmult_le_l; [|exact Hle].
  pose proof (interval_or_1_pos existing He) as H.
  unfold Qlt, inject_Z. cbn [Qnum Qden]. lia.
Qed.

(** X2.  A failed review (grade 1 or 2) forgets the history of the card:
    whatever the storage holds, the stored record has no repetitions and
    an interval of one day, and, when the clock reading and the next day
    are dates, the next review is exactly 24 hours after the review. *)
Theorem failed_review_is_due_tomorrow studyPackId cardId quality clk st :
  quality = 1 \/ quality = 2 ->
  Z.abs (now clk) <= MAX_TIME ->
  now clk + MS_PER_DAY <= MAX_TIME ->
  exists r,
    reviewAfter studyPackId cardId quality clk st = Some r
    /\ Review.repetitions r = 0
    /\ Review.interval r = 1
    /\ Review.reviewDate r = TimeValue (now clk)
    /\ Review.nextReview r = TimeValue (now clk + MS_PER_DAY).
Proof.
  intros Hq Hnow Hnext. eexists. split; [apply reviewAfter_eq|].
  set (existing := find (Review.is_for cardId studyPackId) (storedReviews st)).
  assert (R : nextRepetitions existing quality = 0).
  { destruct existing; cbn [nextRepetitions]; destruct Hq as [-> | ->]; reflexivity. }
  assert (I : Review.interval (newReview existing studyPackId cardId quality clk) = 1).
  { cbn [newReview Review.interval]. rewrite R. now apply failed_grade_interval. }
  unfold Review.mapDates.
  cbn [Review.repetitions Review.interval Review.reviewDate Review.nextReview].
  split; [cbn [newReview Review.repetitions]; exact R|].
  split; [exact I|]. split.
  - cbn [newReview Review.reviewDate]. unfold new_Date. now apply reload_in_range.
  - revert I. cbn [newReview Review.interval Review.nextReview]. intros I.
    rewrite I. unfold new_Date. cbn [getTime option_map Date_of_number].
    change (now clk + 1 * 24 * 60 * 60 * 1000) with (now clk + MS_PER_DAY).
    assert (Z.abs (now clk + MS_PER_DAY) <= MAX_TIME)
      by (unfold MS_PER_DAY in *; lia).
    rewrite TimeClip_in_range by assumption. now apply reload_in_range.
Qed.

Lemma failed_review_is_due_tomorrow_witness :
  exists r,
    reviewAfter "deck" "card" 2 sample_clock sample_prior = Some r
    /\ Review.repetitions r = 0
    /\ Review.interval r = 1
    /\ Review.reviewDate r = TimeValue (now sample_clock)
    /\ Review.nextReview r = TimeValue (now sample_clock + MS_PER_DAY).
Proof.
  apply (failed_review_is_due_tomorrow "deck" "card" 2 sample_clock sample_prior).
  - now right.
  - vm_compute. discriminate.
  - vm_compute. discriminate.
Defined.

(** X3.  For the same storage and clock reading, a better grade never
    schedules the card earlier: when the record of the pair, if there is
    one, has an interval that is not negative, grades 1 and 2 store an
    interval of 1 day, grade 3 an interval of at least 1 day, and grade 4
    an interval at least that of grade 3. *)
Theorem better_grade_longer_interval studyPackId cardId clk st :
  (forall old,
      find (Review.is_for cardId studyPackId) (storedReviews st) = Some old ->
      0 <= Review.interval old) ->
  exists r1 r2 r3 r4,
    reviewAfter studyPackId cardId 1 clk st = Some r1
    /\ reviewAfter studyPackId cardId 2 clk st = Some r2
    /\ reviewAfter studyPackId cardId 3 clk st = Some r3
    /\ reviewAfter studyPackId cardId 4 clk st = Some r4
    /\ Review.interval r1 = 1
    /\ Review.interval r2 = 1
    /\ 1 <= Review.interval r3
    /\ Review.interval r3 <= Review.interval r4.
Proof.
  intros Hold. do 4 eexists.
  repeat (split; [apply reviewAfter_eq|]).
  set (existing := find (Review.is_for cardId studyPackId) (storedReviews st)) in *.
  unfold Review.mapDates. cbn [newReview Review.interval].
  assert (R12 : forall q, q = 1 \/ q = 2 -> nextRepetitions existing q = 0).
  { intros q Hq. destruct existing; cbn [nextRepetitions];
      destruct Hq as [-> | ->]; reflexivity. }
  assert (R34 : nextRepetitions existing 3 = nextRepetitions existing 4).
  { destruct existing; reflexivity. }
  rewrite (R12 1), (R12 2) by auto. rewrite R34.
  split; [reflexivity|]. split; [reflexivity|]. split.
  - cbn [adjustInterval]. apply baseInterval_pos; [exact Hold | apply nextEase_ge].
  - cbn [adjustInterval].
    etransitivity;
      [apply (baseInterval_mono existing _ (nextEase existing 4)); 
       [exact Hold | apply nextEase_good_le_easy]|].
    apply Math_round_easy_ge.
    pose proof (baseInterval_pos existing (nextEase existing 4)
                  (nextRepetitions existing 4) Hold (nextEase_ge _ _)). lia.
Qed.

Lemma better_grade_longer_interval_witness :
  exists r1 r2 r3 r4,
    reviewAfter "deck" "card" 1 sample_clock sample_prior = Some r1
    /\ reviewAfter "deck" "card" 2 sample_clock sample_prior = Some r2
    /\ reviewAfter "deck" "card" 3 sample_clock sample_prior = Some r3
    /\ reviewAfter "deck" "card" 4 sample_clock sample_prior = Some r4
    /\ Review.interval r1 = 1
    /\ Review.interval r2 = 1
    /\ 1 <= Review.interval r3
    /\ Review.interval r3 <= Review.interval r4.
Proof.
  apply (better_grade_longer_interval "deck" "card" sample_clock sample_prior).
  intros old H. vm_compute in H. injection H as <-. vm_compute. discriminate.
Defined.

Example grades_on_the_sample_card :
  map (fun q => option_map Review.interval
                  (reviewAfter "deck" "card" q sample_clock sample_prior))
      [1; 2; 3; 4]
  = [Some 1; Some 1; Some 14; Some 20].
Proof. reflexivity. Qed.

(** ** A review and the two listings *)

Lemma In_due_cards studyPackId flashcards clk st c :
  In c (map Due.card (dueCardsOf studyPackId flashcards clk st)) <->
  In c flashcards
  /\ (find (Review.is_for (Card.id c) studyPackId) (storedReviews st) = None
      \/ exists r t,
          find (Review.is_for (Card.id c) studyPackId) (storedReviews st) = Some r
          /\ Review.nextReview r = TimeValue t /\ t <= now clk).
Proof.
  rewrite in_map_iff. split.
  - intros [d [<- Hd]]. apply In_dueCardsOf in Hd. destruct Hd as [c [Hc Hd]].
    apply dueEntry_Some in Hd.
    destruct Hd as [[Hnone ->] | [r [t [Hr [Ht [Hle ->]]]]]];
      cbn [Due.card]; split; trivial; [now left | right; eauto].
  - intros [Hc [Hnone | [r [t [Hr [Ht Hle]]]]]].
    + exists (Due.mk c None (TimeValue (now clk)) 0 0). split; [reflexivity|].
      apply In_dueCardsOf. exists c. split; [exact Hc|].
      apply dueEntry_Some. left. now split.
    + exists (Due.mk c (Some (Review.reviewDate r)) (TimeValue t)
                     (Review.interval r) (Review.repetitions r)).
      split; [reflexivity|].
      apply In_dueCardsOf. exists c. split; [exact Hc|].
      apply dueEntry_Some. right. exists r, t. auto.
Qed.

Lemma In_upcoming_cards studyPackId flashcards clk st c :
  In c (map Upcoming.card
          (upcomingCardsOf studyPackId flashcards (Z.of_nat (length flashcards)) clk st))
  <->
  In c flashcards
  /\ exists r t,
      find (Review.is_for (Card.id c) studyPackId) (storedReviews st) = Some r
      /\ Review.nextReview r = TimeValue t /\ now clk < t.
Proof.
  rewrite in_map_iff. split.
  - intros [u [<- Hu]]. apply In_upcomingCardsOf_all in Hu.
    destruct Hu as [c [Hc Hu]]. apply upcomingEntry_Some in Hu.
    destruct Hu as [r [t [Hr [Ht [Hlt ->]]]]]. cbn [Upcoming.card]. eauto 6.
  - intros [Hc [r [t [Hr [Ht Hlt]]]]].
    exists (Upcoming.mk c (TimeValue t) (Review.interval r)).
    split; [reflexivity|].
    apply In_upcomingCardsOf_all. exists c. split; [exact Hc|].
    apply upcomingEntry_Some. exists r, t. auto.
Qed.

Lemma reviews_scheduled calls :
  Forall call_graded calls ->
  Forall review_scheduled (storedReviews (afterCalls calls emptyStorage)).
Proof.
  intros Hcalls.
  apply (afterCalls_invariant call_graded
           (fun s => Forall review_scheduled (storedReviews s)));
    [intros c s; apply reviews_scheduled_step | exact Hcalls | constructor].
Qed.

Lemma review_scheduled_fixed r :
  review_scheduled r -> Review.mapDates reload r = r.
Proof.
  intros [_ [_ [t [Ht [Hd Hn]]]]]. destruct r as [c p q d i e n nx].
  unfold Review.mapDates. cbn [Review.cardId Review.studyPackId Review.quality
    Review.reviewDate Review.interval Review.easeFactor Review.repetitions
    Review.nextReview] in *.
  subst d nx. now rewrite reload_in_range, reload_reload_TimeClip.
Qed.

Lemma map_reload_scheduled (l : list CardReview) :
  Forall review_scheduled l -> map (Review.mapDates reload) l = l.
Proof.
  induction 1 as [|r l Hr _ IH]; [reflexivity|].
  cbn [map]. now rewrite IH, review_scheduled_fixed.
Qed.

(** The record a review stores, when the review and its state are in range. *)
Lemma reviewAfter_scheduled calls studyPackId cardId quality clk :
  Forall call_graded calls -> 1 <= quality <= 4 -> clock_ok clk ->
  exists r,
    reviewAfter studyPackId cardId quality clk (afterCalls calls emptyStorage) = Some r
    /\ 1 <= Review.interval r
    /\ Review.reviewDate r = TimeValue (now clk)
    /\ Review.nextReview r
       = reload (TimeClip (now clk + Review.interval r * MS_PER_DAY)).
Proof.
  intros Hcalls Hq Hclk. eexists. split; [apply reviewAfter_eq|].
  pose proof (reviews_scheduled calls Hcalls) as Hall. rewrite Forall_forall in Hall.
  pose proof (review_scheduled_new
                (find (Review.is_for cardId studyPackId)
                      (storedReviews (afterCalls calls emptyStorage)))
                studyPackId cardId quality clk Hq Hclk) as Hnew.
  destruct Hnew as [Hi [_ [t [Ht [Hd Hn]]]]].
  { intros e E. apply find_some in E. apply Hall, E. }
  split; [exact Hi|]. split; [|].
  - unfold Review.mapDates. cbn [newReview Review.reviewDate]. unfold new_Date.
    apply reload_in_range, Hclk.
  - rewrite Hn. f_equal. f_equal. f_equal.
    unfold Review.mapDates in Hd. cbn [newReview Review.reviewDate] in Hd.
    unfold new_Date in Hd. rewrite reload_in_range in Hd by apply Hclk.
    now injection Hd as <-.
Qed.

(** X4.  A reviewed card leaves the due list until its interval has
    passed.  After any sequence of graded reviews, a card of the list is
    reviewed with a grade in 1..4; the stored interval is at least one
    day, and when the scheduled instant is within the range of dates, the
    card is due at a later reading of the clock exactly when that reading
    is at or after the review time plus the interval in days of 24 hours,
    and upcoming exactly before. *)
Theorem reviewed_card_due_after_interval calls studyPackId card quality clk
    flashcards clk' :
  Forall call_graded calls -> 1 <= quality <= 4 -> clock_ok clk ->
  In card flashcards ->
  let st := afterCalls calls emptyStorage in
  let st' := afterReview studyPackId (Card.id card) quality clk st in
  exists r,
    reviewAfter studyPackId (Card.id card) quality clk st = Some r
    /\ 1 <= Review.interval r
    /\ (now clk + Review.interval r * MS_PER_DAY <= MAX_TIME ->
        (In card (map Due.card (dueCardsOf studyPackId flashcards clk' st'))
         <-> now clk + Review.interval r * MS_PER_DAY <= now clk')
        /\ (In card (map Upcoming.card
                       (upcomingCardsOf studyPackId flashcards
                          (Z.of_nat (length flashcards)) clk' st'))
            <-> now clk' < now clk + Review.interval r * MS_PER_DAY)).
Proof.
  intros Hcalls Hq Hclk Hcard st st'.
  destruct (reviewAfter_scheduled calls studyPackId (Card.id card) quality clk
              Hcalls Hq Hclk) as [r [Hr [Hi [Hd Hn]]]].
  fold st in Hr. exists r. split; [exact Hr|]. split; [exact Hi|].
  intros Hrange.
  assert (Hday : 0 < MS_PER_DAY) by reflexivity.
  assert (Hk : MS_PER_DAY <= Review.interval r * MS_PER_DAY) by nia.
  destruct Hclk as [Hnow _].
  rewrite TimeClip_in_range, reload_in_range in Hn by lia.
  unfold reviewAfter in Hr. fold st' in Hr.
  split.
  - rewrite In_due_cards. rewrite Hr. split.
    + intros [_ [Hnone | [r0 [t [[= <-] [Ht Hle]]]]]]; [discriminate|].
      rewrite Hn in Ht. injection Ht as <-. exact Hle.
    + intros Hle. split; [exact Hcard|]. right. eauto.
  - rewrite In_upcoming_cards. rewrite Hr. split.
    + intros [_ [r0 [t [[= <-] [Ht Hlt]]]]].
      rewrite Hn in Ht. injection Ht as <-. exact Hlt.
    + intros Hlt. split; [exact Hcard|]. eauto.
Qed.

Lemma reviewed_card_due_after_interval_witness :
  let st := afterCalls sample_calls emptyStorage in
  let st' := afterReview "deck" (Card.id sample_card) 3 (later 30 0 sample_clock) st in
  exists r,
    reviewAfter "deck" (Card.id sample_card) 3 (later 30 0 sample_clock) st = Some r
    /\ 1 <= Review.interval r
    /\ (now (later 30 0 sample_clock) + Review.interval r * MS_PER_DAY <= MAX_TIME ->
        (In sample_card
            (map Due.card (dueCardsOf "deck" [sample_card; sample_card2]
                                      (later 31 0 sample_clock) st'))
         <-> now (later 30 0 sample_clock) + Review.interval r * MS_PER_DAY
             <= now (later 31 0 sample_clock))
        /\ (In sample_card
               (map Upcoming.card
                    (upcomingCardsOf "deck" [sample_card; sample_card2]
                       (Z.of_nat (length [sample_card; sample_card2]))
                       (later 31 0 sample_clock) st'))
            <-> now (later 31 0 sample_clock)
                < now (later 30 0 sample_clock) + Review.interval r * MS_PER_DAY)).
Proof.
  apply (reviewed_card_due_after_interval sample_calls "deck" sample_card 3
           (later 30 0 sample_clock) [sample_card; sample_card2]
           (later 31 0 sample_clock)).
  - repeat constructor; vm_compute; discriminate.
  - lia.
  - split; vm_compute; discriminate.
  - now left.
Defined.

(** ** What a review leaves alone *)

Lemma find_filter_implied {A : Type} (p q : A -> bool) (l : list A) :
  (forall x, p x = true -> q x = true) ->
  find p (filter q l) = find p l.
Proof.
  intros H. induction l as [|x l IH]; [reflexivity|].
  cbn [filter find]. destruct (p x) eqn:Ep.
  - rewrite (H x Ep). cbn [find]. now rewrite Ep.
  - destruct (q x); cbn [find]; [rewrite Ep|]; exact IH.
Qed.

Lemma find_app_single {A : Type} (p : A -> bool) (l : list A) (x : A) :
  p x = false -> find p (l ++ [x]) = find p l.
Proof.
  intros H. induction l as [|y l IH]; cbn [app find].
  - now rewrite H.
  - destruct (p y); [reflexivity | exact IH].
Qed.

Lemma is_for_other cardId studyPackId cardId' studyPackId' (r : CardReview) :
  cardId' <> cardId \/ studyPackId' <> studyPackId ->
  Review.is_for cardId' studyPackId' r = true ->
  negb (Review.is_for cardId studyPackId r) = true.
Proof.
  unfold Review.is_for. intros Hne H. apply andb_prop in H. destruct H as [H1 H2].
  apply String.eqb_eq in H1, H2. apply negb_true_iff, andb_false_iff.
  destruct Hne as [Hne | Hne]; [left | right]; apply String.eqb_neq; congruence.
Qed.

(** For another pair, the record the service finds after a review is the
    one it found before, as JSON writes and reads it. *)
Lemma find_other_afterReview studyPackId cardId quality clk st cardId' studyPackId' :
  cardId' <> cardId \/ studyPackId' <> studyPackId ->
  find (Review.is_for cardId' studyPackId')
       (storedReviews (afterReview studyPackId cardId quality clk st))
  = option_map (Review.mapDates reload)
      (find (Review.is_for cardId' studyPackId') (storedReviews st)).
Proof.
  intros Hne. rewrite storedReviews_afterReview.
  rewrite (find_map_invariant _ (Review.is_for cardId' studyPackId'))
    by (intros; apply is_for_mapDates).
  f_equal. unfold updatedReviews.
  rewrite find_app_single.
  - apply find_filter_implied. intros x. now apply is_for_other.
  - destruct (Review.is_for cardId' studyPackId' (newReview _ _ _ _ _)) eqn:E;
      [|reflexivity].
    apply is_for_newReview_other in E. destruct E as [-> ->].
    destruct Hne as [Hne | Hne]; now elim Hne.
Qed.

Lemma sessions_valid calls :
  Forall call_graded calls -> session_dates_valid (afterCalls calls emptyStorage).
Proof.
  intros Hcalls. apply sessions_invariant.
  revert Hcalls. apply Forall_impl. intros [p c q clk|p]; cbn; tauto.
Qed.

Lemma is_today_other_deck studyPackId today studyPackId' (s : StudySession) :
  studyPackId' <> studyPackId ->
  (Session.studyPackId s =? studyPackId')%string = true ->
  is_today studyPackId today s = false.
Proof.
  intros Hne H. apply String.eqb_eq in H. unfold is_today.
  apply andb_false_iff. left. apply String.eqb_neq. congruence.
Qed.

Lemma filter_update_first_other {A : Type} (P p : A -> bool) (f : A -> A) l :
  (forall x, P x = true -> p x = false) ->
  (forall x, P (f x) = P x) ->
  filter P (update_first p f l) = filter P l.
Proof.
  intros Hdisj Hf. induction l as [|x l IH]; [reflexivity|].
  cbn [update_first]. destruct (p x) eqn:Ep; cbn [filter].
  - rewrite Hf. destruct (P x) eqn:EP; [|reflexivity].
    rewrite (Hdisj x EP) in Ep. discriminate.
  - now rewrite IH.
Qed.

(** X5.  A review changes the schedule of its own card and deck only.
    After any sequence of graded reviews, a review of a pair leaves the
    stored record of every other card or deck as it was, and the sessions
    of every other deck as they were. *)
Theorem review_leaves_the_rest calls studyPackId cardId quality clk :
  Forall call_graded calls -> clock_ok clk ->
  let st := afterCalls calls emptyStorage in
  let st' := afterReview studyPackId cardId quality clk st in
  (forall cardId' studyPackId',
      cardId' <> cardId \/ studyPackId' <> studyPackId ->
      find (Review.is_for cardId' studyPackId') (storedReviews st')
      = find (Review.is_for cardId' studyPackId') (storedReviews st))
  /\ (forall studyPackId',
        studyPackId' <> studyPackId ->
        filter (fun s => (Session.studyPackId s =? studyPackId')%string)
               (storedSessions st')
        = filter (fun s => (Session.studyPackId s =? studyPackId')%string)
                 (storedSessions st)).
Proof.
  intros Hcalls Hclk st st'. split.
  - intros c' p' Hne. unfold st'. rewrite find_other_afterReview by exact Hne.
    pose proof (reviews_scheduled calls Hcalls) as Hall. fold st in Hall.
    destruct (find (Review.is_for c' p') (storedReviews st)) as [r|] eqn:E;
      [|reflexivity].
    cbn [option_map]. f_equal. apply review_scheduled_fixed.
    apply find_some in E. rewrite Forall_forall in Hall. apply Hall, E.
  - intros p' Hne. unfold st'.
    rewrite storedSessions_afterReview_ok
      by (try exact Hclk; apply sessions_valid, Hcalls).
    unfold upsertSession.
    fold st.
    destruct (find (is_today studyPackId (TimeValue (localMidnight clk)))
                (storedSessions st)).
    + apply filter_update_first_other; [|reflexivity].
      intros x. now apply is_today_other_deck.
    + rewrite filter_app. cbn [filter Session.studyPackId].
      replace (studyPackId =? p')%string with false; [apply app_nil_r|].
      symmetry. apply String.eqb_neq. congruence.
Qed.

Lemma review_leaves_the_rest_witness :
  let st := afterCalls sample_calls emptyStorage in
  let st' := afterReview "deck" "card" 4 (later 30 0 sample_clock) st in
  (forall cardId' studyPackId',
      cardId' <> "card"%string \/ studyPackId' <> "deck"%string ->
      find (Review.is_for cardId' studyPackId') (storedReviews st')
      = find (Review.is_for cardId' studyPackId') (storedReviews st))
  /\ (forall studyPackId',
        studyPackId' <> "deck"%string ->
        filter (fun s => (Session.studyPackId s =? studyPackId')%string)
               (storedSessions st')
        = filter (fun s => (Session.studyPackId s =? studyPackId')%string)
                 (storedSessions st)).
Proof.
  apply (review_leaves_the_rest sample_calls "deck" "card" 4 (later 30 0 sample_clock)).
  - repeat constructor; vm_compute; discriminate.
  - split; vm_compute; discriminate.
Defined.

(** ** deleteData *)

Lemma todayStatsOf_eq studyPackId clk st :
  let todayReviews := reviewedToday studyPackId clk (storedReviews st) in
  let count := Z.of_nat (length todayReviews) in
  let correct :=
    fold_left (fun sum r => sum + (if 3 <=? Review.quality r then 1 else 0))
              todayReviews 0 in
  run (getTodayStats studyPackId clk) st = (inr (todayStatsOf studyPackId clk st), st)
  /\ todayStatsOf studyPackId clk st
     = Stats.mk count
         (Z.of_nat (length (filter (fun r => Review.repetitions r =? 1) todayReviews)))
         (if 0 <? count then (inject_Z correct / inject_Z count)%Q else 0%Q)
         (streakOf studyPackId clk st).
Proof.
  cbv zeta. unfold todayStatsOf, streakOf, getTodayStats.
  rewrite run_bind, run_getReviews. cbv beta iota.
  rewrite run_bind, run_getSessions. cbv beta iota zeta.
  rewrite run_bind, !run_calculateStreak. cbv beta iota.
  rewrite run_ret. cbn [fst]. split; reflexivity.
Qed.

Lemma streakOf_eq studyPackId clk st :
  streakOf studyPackId clk st =
  streakLoop
    (Array_sort session_compare_desc
       (filter (fun s => (Session.studyPackId s =? studyPackId)%string)
               (storedSessions st)))
    0 (setHours0 clk).
Proof. unfold streakOf. now rewrite run_calculateStreak. Qed.

Lemma filter_none {A : Type} (p : A -> bool) (l : list A) :
  (forall x, In x l -> p x = false) -> filter p l = [].
Proof.
  induction l as [|x l IH]; intros H; [reflexivity|].
  cbn [filter]. rewrite (H x (or_introl eq_refl)).
  apply IH. intros y Hy. apply H. now right.
Qed.

Lemma find_none {A : Type} (p : A -> bool) (l : list A) :
  (forall x, In x l -> p x = false) -> find p l = None.
Proof.
  induction l as [|x l IH]; intros H; [reflexivity|].
  cbn [find]. rewrite (H x (or_introl eq_refl)).
  apply IH. intros y Hy. apply H. now right.
Qed.

Lemma no_review_afterDelete studyPackId st r :
  In r (storedReviews (afterDelete studyPackId st)) ->
  (Review.studyPackId r =? studyPackId)%string = false.
Proof.
  rewrite storedReviews_afterDelete, in_map_iff.
  intros [r0 [<- Hr0]]. apply filter_In in Hr0. destruct Hr0 as [_ H].
  apply negb_true_iff in H. exact H.
Qed.

Lemma no_session_afterDelete studyPackId st s :
  In s (storedSessions (afterDelete studyPackId st)) ->
  (Session.studyPackId s =? studyPackId)%string = false.
Proof.
  rewrite storedSessions_afterDelete, in_map_iff.
  intros [s0 [<- Hs0]]. apply filter_In in Hs0. destruct Hs0 as [_ H].
  apply negb_true_iff in H. exact H.
Qed.

Lemma filter_other_key {A : Type} (key : A -> string) (p p' : string) (l : list A) :
  p' <> p ->
  filter (fun x => (key x =? p')%string)
         (filter (fun x => negb (key x =? p)%string) l)
  = filter (fun x => (key x =? p')%string) l.
Proof.
  intros Hne. induction l as [|x l IH]; [reflexivity|].
  cbn [filter].
  destruct (key x =? p)%string eqn:E1; cbn [negb filter].
  - apply String.eqb_eq in E1.
    replace (key x =? p')%string with false; [exact IH|].
    symmetry. apply String.eqb_neq. congruence.
  - now rewrite IH.
Qed.

(** X6.  [deleteData] forgets one deck and nothing else.  After any
    sequence of graded reviews, deleting the data of a deck completes
    without an exception, leaves no review and no session of that deck,
    and leaves the reviews and the sessions of every other deck as they
    were, in their order. *)
Theorem deleteData_forgets_one_deck calls studyPackId :
  Forall call_graded calls ->
  let st := afterCalls calls emptyStorage in
  let st' := afterDelete studyPackId st in
  run (deleteData studyPackId) st = (inr tt, st')
  /\ (forall r, In r (storedReviews st') -> Review.studyPackId r <> studyPackId)
  /\ (forall s, In s (storedSessions st') -> Session.studyPackId s <> studyPackId)
  /\ (forall studyPackId',
        studyPackId' <> studyPackId ->
        filter (fun r => (Review.studyPackId r =? studyPackId')%string)
               (storedReviews st')
        = filter (fun r => (Review.studyPackId r =? studyPackId')%string)
                 (storedReviews st)
        /\ filter (fun s => (Session.studyPackId s =? studyPackId')%string)
                  (storedSessions st')
           = filter (fun s => (Session.studyPackId s =? studyPackId')%string)
                    (storedSessions st)).
Proof.
  intros Hcalls st st'.
  assert (Er : storedReviews st'
               = filter (fun r => negb (Review.studyPackId r =? studyPackId)%string)
                        (storedReviews st)).
  { unfold st'. rewrite storedReviews_afterDelete.
    apply map_reload_scheduled, Forall_filter, reviews_scheduled, Hcalls. }
  assert (Es : storedSessions st'
               = filter (fun s => negb (Session.studyPackId s =? studyPackId)%string)
                        (storedSessions st)).
  { unfold st'. apply storedSessions_afterDelete_ok, sessions_valid, Hcalls. }
  split; [unfold st', afterDelete; now rewrite run_deleteData_eq|].
  split.
  { intros r Hr. apply no_review_afterDelete in Hr. now apply String.eqb_neq. }
  split.
  { intros s Hs. apply no_session_afterDelete in Hs. now apply String.eqb_neq. }
  intros p' Hne. rewrite Er, Es. split; now apply filter_other_key.
Qed.

Lemma deleteData_forgets_one_deck_witness :
  let st := afterCalls sample_calls emptyStorage in
  let st' := afterDelete "deck" st in
  run (deleteData "deck") st = (inr tt, st')
  /\ (forall r, In r (storedReviews st') -> Review.studyPackId r <> "deck"%string)
  /\ (forall s, In s (storedSessions st') -> Session.studyPackId s <> "deck"%string)
  /\ (forall studyPackId',
        studyPackId' <> "deck"%string ->
        filter (fun r => (Review.studyPackId r =? studyPackId')%string)
               (storedReviews st')
        = filter (fun r => (Review.studyPackId r =? studyPackId')%string)
                 (storedReviews st)
        /\ filter (fun s => (Session.studyPackId s =? studyPackId')%string)
                  (storedSessions st')
           = filter (fun s => (Session.studyPackId s =? studyPackId')%string)
                    (storedSessions st)).
Proof.
  apply (deleteData_forgets_one_deck sample_calls "deck").
  repeat constructor; vm_compute; discriminate.
Defined.

(** X7.  After [deleteData] the deck is as new, on every storage, readable
    or not: every card is due as a card never reviewed, in the order
    given, no card is upcoming, the streak is 0 and today's statistics are
    all 0. *)
Theorem deck_is_new_after_deleteData studyPackId st flashcards limit clk :
  let st' := afterDelete studyPackId st in
  dueCardsOf studyPackId flashcards clk st'
    = map (fun c => Due.mk c None (new_Date clk) 0 0) flashcards
  /\ upcomingCardsOf studyPackId flashcards limit clk st' = []
  /\ streakOf studyPackId clk st' = 0
  /\ todayStatsOf studyPackId clk st' = Stats.mk 0 0 0 0.
Proof.
  intros st'.
  assert (Hfind : forall c,
             find (Review.is_for c studyPackId) (storedReviews st') = None).
  { intros c. apply find_none. intros r Hr. apply no_review_afterDelete in Hr.
    unfold Review.is_for. rewrite Hr. apply andb_false_r. }
  assert (Hsess : filter (fun s => (Session.studyPackId s =? studyPackId)%string)
                         (storedSessions st') = []).
  { apply filter_none. intros s. apply no_session_afterDelete. }
  assert (Hstreak : streakOf studyPackId clk st' = 0).
  { rewrite streakOf_eq, Hsess. reflexivity. }
  split.
  { rewrite dueCardsOf_eq. rewrite <- due_all_new with (studyPackId := studyPackId).
    f_equal. unfold new_Date.
    induction flashcards as [|c l IH]; [reflexivity|].
    cbn [for_push]. unfold dueEntry at 1 3. rewrite Hfind. cbn [find].
    now rewrite IH. }
  split.
  { rewrite upcomingCardsOf_eq.
    replace (for_push _ flashcards) with (@nil Upcoming.t).
    - unfold Array_slice0. cbn [Array_sort fold_right]. apply firstn_nil.
    - symmetry. induction flashcards as [|c l IH]; [reflexivity|].
      cbn [for_push]. unfold upcomingEntry at 1. now rewrite Hfind. }
  split; [exact Hstreak|].
  destruct (todayStatsOf_eq studyPackId clk st') as [_ E]. rewrite E, Hstreak.
  replace (reviewedToday studyPackId clk (storedReviews st')) with (@nil CardReview);
    [reflexivity|].
  symmetry. apply filter_none. intros r Hr. apply no_review_afterDelete in Hr.
  now rewrite Hr.
Qed.


(** ** getTodayStats and the streak *)

Lemma correct_bounds (l : list CardReview) acc :
  acc <= fold_left (fun sum r => sum + (if 3 <=? Review.quality r then 1 else 0)) l acc
      <= acc + Z.of_nat (length l).
Proof.
  revert acc. induction l as [|r l IH]; intros acc.
  - cbn. lia.
  - cbn [fold_left length]. specialize (IH (acc + (if 3 <=? Review.quality r then 1 else 0))).
    destruct (3 <=? Review.quality r); lia.
Qed.

Lemma streakLoop_bounds l streak currentDate :
  streak <= streakLoop l streak currentDate <= streak + Z.of_nat (length l).
Proof.
  revert streak currentDate. induction l as [|s l IH]; intros streak currentDate.
  - cbn. lia.
  - cbn [streakLoop length]. cbv zeta.
    destruct (_ || _).
    + specialize (IH (streak + 1) (Session.date s)). lia.
    + lia.
Qed.

Lemma length_filter_le {A : Type} (p : A -> bool) (l : list A) :
  (length (filter p l) <= length l)%nat.
Proof.
  induction l as [|x l IH]; [constructor|].
  cbn [filter]. destruct (p x); cbn [length]; lia.
Qed.

(** X8.  [getTodayStats] completes on every storage, leaves it as it is,
    and its figures are in range: the cards learned are among the cards
    reviewed, the accuracy is a fraction between 0 and 1 and is 0 (not a
    division by zero) when nothing was reviewed today, and the streak is
    between 0 and the number of sessions stored for the deck. *)
Theorem today_stats_in_range studyPackId clk st :
  let stats := todayStatsOf studyPackId clk st in
  run (getTodayStats studyPackId clk) st = (inr stats, st)
  /\ 0 <= Stats.learned stats <= Stats.reviewed stats
  /\ (0 <= Stats.accuracy stats)%Q /\ (Stats.accuracy stats <= 1)%Q
  /\ (Stats.reviewed stats = 0 -> Stats.accuracy stats = 0%Q)
  /\ 0 <= Stats.streak stats
       <= Z.of_nat (length (filter (fun s => (Session.studyPackId s =? studyPackId)%string)
                                   (storedSessions st))).
Proof.
  cbv zeta. destruct (todayStatsOf_eq studyPackId clk st) as [Hrun E].
  split; [exact Hrun|]. rewrite E. cbn [Stats.learned Stats.reviewed Stats.accuracy Stats.streak].
  set (today := reviewedToday studyPackId clk (storedReviews st)).
  pose proof (correct_bounds today 0) as Hc.
  set (correct := fold_left _ today 0) in *.
  split.
  { pose proof (length_filter_le (fun r => Review.repetitions r =? 1) today). lia. }
  assert (Hacc : (0 <= (if 0 <? Z.of_nat (length today)
                        then inject_Z correct / inject_Z (Z.of_nat (length today))
                        else 0)
                  <= 1)%Q).
  { destruct (0 <? Z.of_nat (length today)) eqn:Hpos.
    - apply Z.ltb_lt in Hpos.
      assert (Hq : (0 < inject_Z (Z.of_nat (length today)))%Q).
      { change 0%Q with (inject_Z 0). rewrite <- Zlt_Qlt. exact Hpos. }
      split.
      + apply Qle_shift_div_l; [exact Hq|]. rewrite Qmult_0_l.
        change 0%Q with (inject_Z 0). rewrite <- Zle_Qle. lia.
      + apply Qle_shift_div_r; [exact Hq|]. rewrite Qmult_1_l.
        rewrite <- Zle_Qle. lia.
    - split; [apply Qle_refl | discriminate]. }
  split; [apply Hacc|]. split; [apply Hacc|]. split.
  { intros H0. now rewrite H0. }
  rewrite streakOf_eq.
  match goal with |- _ <= streakLoop ?l 0 ?d <= _ =>
    pose proof (streakLoop_bounds l 0 d) as Hs;
    assert (Hlen : length l = length (filter (fun s => (Session.studyPackId s =? studyPackId)%string)
                                             (storedSessions st)))
  end.
  { symmetry. apply Permutation_length, Array_sort_perm. }
  rewrite Hlen in Hs. lia.
Qed.

Lemma sessions_newest_first_trans a b c :
  sessions_newest_first a b -> sessions_newest_first b c -> sessions_newest_first a c.
Proof.
  unfold sessions_newest_first.
  destruct (getTime (Session.date a)), (getTime (Session.date b)),
           (getTime (Session.date c)); cbn [num_le]; try discriminate.
  rewrite !Z.leb_le. lia.
Qed.

Lemma sessions_sorted_newest_first (l : list StudySession) :
  Forall (fun s => valid_date (Session.date s)) l ->
  StronglySorted sessions_newest_first (Array_sort session_compare_desc l).
Proof.
  intros Hl. apply Sorted_StronglySorted.
  - intros a b c. apply sessions_newest_first_trans.
  - apply Array_sort_Sorted with (P := fun s => valid_date (Session.date s));
      [| |exact Hl].
    + intros a b Ha Hb. unfold cmp_le, session_compare_desc, sessions_newest_first.
      destruct (Session.date a), (Session.date b); try contradiction.
      cbn [getTime num_sub num_le]. rewrite !Z.leb_le. lia.
    + intros a b Ha Hb. unfold cmp_le, session_compare_desc, sessions_newest_first.
      destruct (Session.date a), (Session.date b); try contradiction.
      cbn [getTime num_sub num_le]. rewrite Z.leb_gt, Z.leb_le. lia.
Qed.

(** The first step of the loop decides whether the streak is 0. *)
Lemma streakLoop_first s rest m d :
  Session.date s = TimeValue d ->
  (1 <= streakLoop (s :: rest) 0 (TimeValue m) <-> m - 2 * MS_PER_DAY < d).
Proof.
  intros Hd. cbn [streakLoop]. cbv zeta. rewrite Hd.
  cbn [getTime num_sub option_map]. rewrite Math_floor_days.
  cbn [num_eq num_le Z.eqb andb].
  assert (Hday : 0 < MS_PER_DAY) by reflexivity.
  assert (Hdiv : (m - d) / MS_PER_DAY <= 1 <-> m - 2 * MS_PER_DAY < d).
  { split; intros H.
    - destruct (Z_lt_le_dec (m - 2 * MS_PER_DAY) d) as [Hlt|Hle]; [exact Hlt|].
      assert (2 <= (m - d) / MS_PER_DAY) by (apply Z.div_le_lower_bound; lia).
      lia.
    - assert ((m - d) / MS_PER_DAY < 2); [|lia].
      apply Z.div_lt_upper_bound; lia. }
  destruct ((m - d) / MS_PER_DAY =? 0) eqn:E0; cbn [orb].
  - apply Z.eqb_eq in E0. pose proof (streakLoop_bounds rest (0 + 1) (TimeValue d)).
    split; [intros _; apply Hdiv; lia | lia].
  - destruct ((m - d) / MS_PER_DAY <=? 1) eqn:E1.
    + apply Z.leb_le in E1. pose proof (streakLoop_bounds rest (0 + 1) (TimeValue d)).
      split; [intros _; now apply Hdiv | lia].
    + apply Z.leb_gt in E1. split; [lia|]. intros H. apply Hdiv in H. lia.
Qed.

Lemma streak_positive st studyPackId clk :
  session_dates_valid st -> clock_ok clk ->
  (1 <= streakOf studyPackId clk st
   <-> exists s, In s (storedSessions st)
                 /\ session_since studyPackId (localMidnight clk - 2 * MS_PER_DAY) s).
Proof.
  intros Hv Hclk. rewrite streakOf_eq, setHours0_ok by exact Hclk.
  set (deck := filter (fun s => (Session.studyPackId s =? studyPackId)%string)
                      (storedSessions st)).
  assert (Hdeck : Forall (fun s => valid_date (Session.date s)) deck)
    by now apply Forall_filter.
  pose proof (sessions_sorted_newest_first deck Hdeck) as Hsorted.
  assert (Hin : forall s, In s (Array_sort session_compare_desc deck)
                          <-> In s (storedSessions st)
                              /\ Session.studyPackId s = studyPackId).
  { intros s. rewrite Array_sort_In. unfold deck. rewrite filter_In.
    now rewrite String.eqb_eq. }
  destruct (Array_sort session_compare_desc deck) as [|h rest] eqn:E.
  - cbn [streakLoop]. split; [lia|].
    intros [s [Hs [Hp _]]]. exfalso. apply (Hin s). now split.
  - assert (Hh : In h (storedSessions st) /\ Session.studyPackId h = studyPackId)
      by (apply Hin; now left).
    assert (Hvh : valid_date (Session.date h)).
    { unfold session_dates_valid in Hv. rewrite Forall_forall in Hv. apply Hv, Hh. }
    destruct (Session.date h) as [th|] eqn:Edh; [|contradiction].
    rewrite (streakLoop_first h rest (localMidnight clk) th Edh). split.
    + intros Hlt. exists h. split; [apply Hh|]. split; [apply Hh|]. now exists th.
    + intros [s [Hs [Hp [d [Hd Hlt]]]]].
      assert (Hs' : In s (h :: rest)) by (apply Hin; now split).
      destruct Hs' as [<-|Hs'].
      * rewrite Edh in Hd. injection Hd as <-. exact Hlt.
      * inversion Hsorted as [|? ? _ Hall]; subst.
        rewrite Forall_forall in Hall. specialize (Hall s Hs').
        unfold sessions_newest_first in Hall. rewrite Edh, Hd in Hall.
        cbn [getTime num_le] in Hall. apply Z.leb_le in Hall. lia.
Qed.

(** X9.  When the streak is 0.  With stored session dates that are dates
    (as every sequence of calls leaves them), the streak of a deck is at
    least 1 exactly when the deck has a session dated less than 48 hours
    before today's local midnight: a session of today or of yesterday
    starts a streak, and so does one dated in the future; a newest session
    two days old or older gives 0. *)
Theorem streak_starts_with_a_recent_session calls studyPackId clk :
  Forall call_clock_ok calls -> clock_ok clk ->
  let st := afterCalls calls emptyStorage in
  (1 <= streakOf studyPackId clk st
   <-> exists s, In s (storedSessions st)
                 /\ session_since studyPackId (localMidnight clk - 2 * MS_PER_DAY) s)
  /\ (streakOf studyPackId clk st = 0
      <-> forall s d, In s (storedSessions st) ->
                      Session.studyPackId s = studyPackId ->
                      Session.date s = TimeValue d ->
                      d <= localMidnight clk - 2 * MS_PER_DAY).
Proof.
  intros Hcalls Hclk st.
  assert (Hv : session_dates_valid st) by (apply sessions_invariant, Hcalls).
  pose proof (streak_positive st studyPackId clk Hv Hclk) as Hpos.
  split; [exact Hpos|].
  assert (H0 : 0 <= streakOf studyPackId clk st).
  { rewrite streakOf_eq. apply streakLoop_bounds. }
  split.
  - intros Hz s d Hs Hp Hd.
    destruct (Z_lt_le_dec (localMidnight clk - 2 * MS_PER_DAY) d) as [Hlt|Hle];
      [|exact Hle].
    assert (1 <= streakOf studyPackId clk st); [|lia].
    apply Hpos. exists s. split; [exact Hs|]. split; [exact Hp|]. now exists d.
  - intros Hall.
    destruct (Z_lt_le_dec (streakOf studyPackId clk st) 1) as [Hlt|Hge]; [lia|].
    apply Hpos in Hge. destruct Hge as [s [Hs [Hp [d [Hd Hlt]]]]].
    specialize (Hall s d Hs Hp Hd). lia.
Qed.

Lemma streak_starts_with_a_recent_session_witness :
  let st := afterCalls sample_calls emptyStorage in
  let clk := later 7 0 sample_clock in
  (1 <= streakOf "deck" clk st
   <-> exists s, In s (storedSessions st)
                 /\ session_since "deck" (localMidnight clk - 2 * MS_PER_DAY) s)
  /\ (streakOf "deck" clk st = 0
      <-> forall s d, In s (storedSessions st) ->
                      Session.studyPackId s = "deck"%string ->
                      Session.date s = TimeValue d ->
                      d <= localMidnight clk - 2 * MS_PER_DAY).
Proof.
  apply (streak_starts_with_a_recent_session sample_calls "deck" (later 7 0 sample_clock)).
  - repeat constructor; vm_compute; discriminate.
  - split; vm_compute; discriminate.
Defined.

Lemma update_first_found {A : Type} (p : A -> bool) (f : A -> A) l old :
  find p l = Some old -> In (f old) (update_first p f l).
Proof.
  induction l as [|x l IH]; [discriminate|].
  cbn [find update_first]. destruct (p x).
  - intros [= ->]. now left.
  - intros H. right. now apply IH.
Qed.

Lemma upsertSession_has_today studyPackId quality t sessions :
  exists s, In s (upsertSession studyPackId quality (TimeValue t) sessions)
            /\ Session.studyPackId s = studyPackId
            /\ Session.date s = TimeValue t.
Proof.
  unfold upsertSession.
  destruct (find (is_today studyPackId (TimeValue t)) sessions) as [old|] eqn:E.
  - exists (bumpSession quality old). split; [now apply update_first_found|].
    apply find_some in E. destruct E as [_ Htoday].
    apply is_today_date in Htoday. exact Htoday.
  - exists (Session.mk studyPackId (TimeValue t) 1 (inject_Z quality)).
    split; [|split; reflexivity]. apply in_or_app. right. now left.
Qed.

(** X10.  A review starts the streak.  After a review of a deck, made
    after any sequence of calls, the streak of the deck is at least 1 for
    the rest of the day and the whole of the next day: at every clock
    reading whose local midnight is less than 48 hours after the local
    midnight of the review. *)
Theorem review_starts_the_streak calls studyPackId cardId quality clk clk' :
  Forall call_clock_ok calls -> clock_ok clk -> clock_ok clk' ->
  localMidnight clk' - localMidnight clk < 2 * MS_PER_DAY ->
  1 <= streakOf studyPackId clk'
         (afterReview studyPackId cardId quality clk (afterCalls calls emptyStorage)).
Proof.
  intros Hcalls Hclk Hclk' Hlt.
  assert (Hv : session_dates_valid (afterCalls calls emptyStorage))
    by (apply sessions_invariant, Hcalls).
  apply streak_positive; [|exact Hclk'|].
  - rewrite <- afterCall_review. apply session_dates_valid_step; assumption.
  - rewrite storedSessions_afterReview_ok by assumption.
    destruct (upsertSession_has_today studyPackId quality (localMidnight clk)
                (storedSessions (afterCalls calls emptyStorage))) as [s [Hs [Hp Hd]]].
    exists s. split; [exact Hs|]. split; [exact Hp|].
    exists (localMidnight clk). split; [exact Hd | lia].
Qed.

Lemma review_starts_the_streak_witness :
  1 <= streakOf "deck" (later 8 3600000 sample_clock)
         (afterReview "deck" "card2" 2 (later 7 0 sample_clock)
                      (afterCalls sample_calls emptyStorage)).
Proof.
  apply (review_starts_the_streak sample_calls "deck" "card2" 2
           (later 7 0 sample_clock) (later 8 3600000 sample_clock)).
  - repeat constructor; vm_compute; discriminate.
  - split; vm_compute; discriminate.
  - split; vm_compute; discriminate.
  - vm_compute. reflexivity.
Defined.


(** ** What a session counts *)

Lemma afterCalls_app calls calls' st :
  afterCalls (calls ++ calls') st = afterCalls calls' (afterCalls calls st).
Proof.
  revert st. induction calls as [|c calls IH]; intros st; [reflexivity|].
  cbn [app]. now rewrite !afterCalls_cons, IH.
Qed.

Lemma afterCalls_snoc calls c st :
  afterCalls (calls ++ [c]) st = afterCall c (afterCalls calls st).
Proof. now rewrite afterCalls_app, afterCalls_cons. Qed.

Lemma gradesOn_snoc studyPackId day calls c :
  gradesOn studyPackId day (calls ++ [c])
  = gradesStep studyPackId day (gradesOn studyPackId day calls) c.
Proof. unfold gradesOn. now rewrite fold_left_app. Qed.

Lemma total_snoc grades q : total (grades ++ [q]) = total grades + q.
Proof.
  unfold total. induction grades as [|x l IH]; cbn [app fold_right]; lia.
Qed.

Lemma filter_nil_find {A : Type} (p : A -> bool) l :
  filter p l = [] -> find p l = None.
Proof.
  induction l as [|x l IH]; [reflexivity|].
  cbn [find filter]. destruct (p x); [discriminate | exact IH].
Qed.

Lemma filter_cons_find {A : Type} (p : A -> bool) l x rest :
  filter p l = x :: rest -> find p l = Some x.
Proof.
  induction l as [|y l IH]; [discriminate|].
  cbn [find filter]. destruct (p y); [now intros [= ->] | exact IH].
Qed.

Lemma filter_filter_implied {A : Type} (p q : A -> bool) (l : list A) :
  (forall x, p x = true -> q x = true) ->
  filter p (filter q l) = filter p l.
Proof.
  intros H. induction l as [|x l IH]; [reflexivity|].
  cbn [filter]. destruct (q x) eqn:Eq; cbn [filter].
  - now rewrite IH.
  - destruct (p x) eqn:Ep; [|exact IH].
    rewrite (H x Ep) in Eq. discriminate.
Qed.

(** The sessions of another deck or another day are as they were. *)
Lemma upsertSession_other studyPackId quality t sessions studyPackId' day :
  (studyPackId =? studyPackId')%string && (t =? day) = false ->
  filter (is_today studyPackId' (TimeValue day))
         (upsertSession studyPackId quality (TimeValue t) sessions)
  = filter (is_today studyPackId' (TimeValue day)) sessions.
Proof.
  intros Hne.
  assert (Hdisj : forall x, is_today studyPackId' (TimeValue day) x = true ->
                            is_today studyPackId (TimeValue t) x = false).
  { intros x Hx. destruct (is_today studyPackId (TimeValue t) x) eqn:E; [|reflexivity].
    apply is_today_date in Hx, E. destruct Hx as [Hp Hd], E as [Hp' Hd'].
    rewrite Hd in Hd'. injection Hd' as ->. rewrite <- Hp, <- Hp' in Hne.
    now rewrite String.eqb_refl, Z.eqb_refl in Hne. }
  unfold upsertSession.
  destruct (find (is_today studyPackId (TimeValue t)) sessions).
  - apply filter_update_first_other; [exact Hdisj | intros; apply is_today_bump].
  - rewrite filter_app. cbn [filter].
    destruct (is_today studyPackId' (TimeValue day)
                (Session.mk studyPackId (TimeValue t) 1 (inject_Z quality))) eqn:E.
    + apply Hdisj in E. unfold is_today in E. cbn in E.
      now rewrite String.eqb_refl, Z.eqb_refl in E.
    + apply app_nil_r.
Qed.

Lemma tally_review grades sessions studyPackId quality t :
  tally grades (filter (is_today studyPackId (TimeValue t)) sessions) ->
  tally (grades ++ [quality])
        (filter (is_today studyPackId (TimeValue t))
                (upsertSession studyPackId quality (TimeValue t) sessions)).
Proof.
  intros H. unfold upsertSession. destruct grades as [|g grades].
  - cbn [tally] in H. rewrite (filter_nil_find _ _ H).
    rewrite filter_app, H. cbn [filter app].
    unfold is_today at 1. cbn [Session.studyPackId Session.date getTime num_eq].
    rewrite String.eqb_refl, Z.eqb_refl. cbn [andb app tally].
    eexists. split; [reflexivity|]. cbn. split; [reflexivity|].
    unfold Qeq. cbn. lia.
  - cbn [tally] in H. destruct H as [s [Hs [Hn Hmean]]].
    rewrite (filter_cons_find _ _ _ _ Hs).
    rewrite filter_update_first by (intros; apply is_today_bump). rewrite Hs.
    change ((g :: grades) ++ [quality]) with (g :: (grades ++ [quality])).
    cbn [tally]. exists (bumpSession quality s). split; [reflexivity|].
    change (g :: (grades ++ [quality])) with ((g :: grades) ++ [quality]).
    assert (Hlen : Z.of_nat (length ((g :: grades) ++ [quality]))
                   = Z.of_nat (length (g :: grades)) + 1).
    { rewrite length_app. cbn [length]. lia. }
    rewrite Hlen, total_snoc. unfold bumpSession.
    cbn [Session.cardsReviewed Session.averageQuality]. rewrite Hn.
    split; [reflexivity|].
    rewrite Qmult_comm, Qmult_div_r.
    + rewrite Hmean. now rewrite inject_Z_plus.
    + change 0%Q with (inject_Z 0). rewrite inject_Z_injective. lia.
Qed.

Lemma session_tallies_step calls c st :
  call_clock_ok c -> session_dates_valid st ->
  session_tallies calls st -> session_tallies (calls ++ [c]) (afterCall c st).
Proof.
  intros Hc Hv H p day. rewrite gradesOn_snoc. specialize (H p day).
  destruct c as [p0 card q clk|p0]; cbn [gradesStep].
  - rewrite afterCall_review, storedSessions_afterReview_ok by assumption.
    destruct ((p0 =? p)%string && (localMidnight clk =? day)) eqn:E.
    + apply andb_prop in E. destruct E as [Ep Ed].
      apply String.eqb_eq in Ep. apply Z.eqb_eq in Ed. subst p0 day.
      now apply tally_review.
    + now rewrite upsertSession_other.
  - rewrite afterCall_delete, storedSessions_afterDelete_ok by assumption.
    destruct (p0 =? p)%string eqn:E.
    + apply String.eqb_eq in E. subst p0. cbn [tally].
      apply filter_none. intros s Hs. apply filter_In in Hs. destruct Hs as [_ Hs].
      apply negb_true_iff in Hs. unfold is_today. now rewrite Hs.
    + rewrite filter_filter_implied; [exact H|].
      intros s Hs. unfold is_today in Hs. apply andb_prop in Hs. destruct Hs as [Hs _].
      apply String.eqb_eq in Hs. apply negb_true_iff, String.eqb_neq.
      apply String.eqb_neq in E. congruence.
Qed.

Lemma sessions_tally calls :
  Forall call_clock_ok calls ->
  session_dates_valid (afterCalls calls emptyStorage)
  /\ session_tallies calls (afterCalls calls emptyStorage).
Proof.
  induction calls as [|c calls IH] using rev_ind; intros Hcalls.
  - split; [constructor | intros p day; reflexivity].
  - apply Forall_app in Hcalls. destruct Hcalls as [Hcalls Hc].
    inversion Hc as [|? ? Hc' _]; subst.
    destruct (IH Hcalls) as [Hv Ht]. rewrite afterCalls_snoc. split.
    + now apply session_dates_valid_step.
    + now apply session_tallies_step.
Qed.

(** X11.  A stored session summarises the reviews of its deck and day.
    After any sequence of calls made at clock readings that are dates,
    every stored session is dated at a local midnight on which its deck
    was reviewed since the data of the deck was last deleted; its
    [cardsReviewed] is the number of those reviews and its
    [averageQuality] their mean (numbers being exact); and every deck and
    day with such a review has a session. *)
Theorem session_summarises_its_day calls :
  Forall call_clock_ok calls ->
  let st := afterCalls calls emptyStorage in
  (forall s, In s (storedSessions st) ->
     exists day,
       Session.date s = TimeValue day
       /\ let grades := gradesOn (Session.studyPackId s) day calls in
          grades <> []
          /\ Session.cardsReviewed s = Z.of_nat (length grades)
          /\ (Session.averageQuality s
              == inject_Z (total grades) / inject_Z (Z.of_nat (length grades)))%Q)
  /\ (forall studyPackId day,
        gradesOn studyPackId day calls <> [] ->
        exists s, In s (storedSessions st)
                  /\ Session.studyPackId s = studyPackId
                  /\ Session.date s = TimeValue day).
Proof.
  intros Hcalls st. destruct (sessions_tally calls Hcalls) as [Hv Ht]. fold st in Hv, Ht.
  split.
  - intros s Hs. unfold session_dates_valid in Hv. rewrite Forall_forall in Hv.
    specialize (Hv s Hs). destruct (Session.date s) as [day|] eqn:Ed; [|contradiction].
    exists day. split; [reflexivity|]. cbv zeta.
    specialize (Ht (Session.studyPackId s) day).
    assert (Hin : In s (filter (is_today (Session.studyPackId s) (TimeValue day))
                               (storedSessions st))).
    { apply filter_In. split; [exact Hs|]. unfold is_today. rewrite Ed.
      cbn [getTime num_eq]. now rewrite String.eqb_refl, Z.eqb_refl. }
    destruct (gradesOn (Session.studyPackId s) day calls) as [|g grades].
    + cbn [tally] in Ht. rewrite Ht in Hin. contradiction.
    + cbn [tally] in Ht. destruct Ht as [s' [Hs' [Hn Hmean]]].
      rewrite Hs' in Hin. destruct Hin as [<-|[]].
      split; [discriminate|]. split; [exact Hn|].
      rewrite <- Hmean. rewrite Qdiv_mult_l; [reflexivity|].
      change 0%Q with (inject_Z 0). rewrite inject_Z_injective.
      cbn [length]. lia.
  - intros p day Hg. specialize (Ht p day).
    destruct (gradesOn p day calls) as [|g grades]; [contradiction|].
    cbn [tally] in Ht. destruct Ht as [s [Hs _]].
    assert (Hin : In s (filter (is_today p (TimeValue day)) (storedSessions st)))
      by (rewrite Hs; now left).
    apply filter_In in Hin. destruct Hin as [Hin Htoday].
    apply is_today_date in Htoday. exists s. tauto.
Qed.

Lemma session_summarises_its_day_witness :
  let st := afterCalls sample_calls emptyStorage in
  (forall s, In s (storedSessions st) ->
     exists day,
       Session.date s = TimeValue day
       /\ let grades := gradesOn (Session.studyPackId s) day sample_calls in
          grades <> []
          /\ Session.cardsReviewed s = Z.of_nat (length grades)
          /\ (Session.averageQuality s
              == inject_Z (total grades) / inject_Z (Z.of_nat (length grades)))%Q)
  /\ (forall studyPackId day,
        gradesOn studyPackId day sample_calls <> [] ->
        exists s, In s (storedSessions st)
                  /\ Session.studyPackId s = studyPackId
                  /\ Session.date s = TimeValue day).
Proof.
  apply (session_summarises_its_day sample_calls).
  repeat constructor; vm_compute; discriminate.
Defined.

(** ** One session per deck and calendar day *)



(** In a zone that keeps one offset the day begins at 00:00 of that
    offset, at most 24 hours before the reading. *)
Lemma fixedZone_localMidnight n tz :
  let clk := mkClock n (fixedZone tz) in
  localMidnight clk = n - (n + tz) mod MS_PER_DAY
  /\ (localMidnight clk + tz) mod MS_PER_DAY = 0
  /\ localMidnight clk <= n < localMidnight clk + MS_PER_DAY.
Proof.
  cbv zeta. unfold localMidnight, midnightOfDay, localDay, Day, UTC, LocalTime.
  cbn [zone now fixedZone LocalTZA].
  assert (Hday : 0 < MS_PER_DAY) by reflexivity.
  pose proof (Z.div_mod (n + tz) MS_PER_DAY) as Hdm.
  pose proof (Z.mod_pos_bound (n + tz) MS_PER_DAY Hday) as Hb.
  split; [lia|]. split; [|lia].
  replace ((n + tz) / MS_PER_DAY * MS_PER_DAY - tz + tz)
    with ((n + tz) / MS_PER_DAY * MS_PER_DAY) by lia.
  apply Z.mod_mul. lia.
Qed.



(** On the day the clocks go forward, a review at 01:30 local time (before
    the change) and one at 16:00 (after it) share the record of the day,
    dated 05:00 UTC, the local midnight at the offset of the morning. *)
Example one_session_on_the_day_clocks_change :
  storedSessions
    (afterCalls [CallRecordReview "deck" "card1" 3 (mkClock 1710052200000 springForward);
                 CallRecordReview "deck" "card2" 4 (mkClock 1710100800000 springForward)]
                emptyStorage)
  = [Session.mk "deck" (TimeValue 1710046800000) 2 ((3 * 1 + 4) / 2)%Q].
Proof. reflexivity. Qed.

(** ** The record of a card is the one of its last review *)

Lemma find_afterDelete_other studyPackId st cardId' studyPackId' :
  studyPackId' <> studyPackId ->
  find (Review.is_for cardId' studyPackId')
       (storedReviews (afterDelete studyPackId st))
  = option_map (Review.mapDates reload)
      (find (Review.is_for cardId' studyPackId') (storedReviews st)).
Proof.
  intros Hne. rewrite storedReviews_afterDelete.
  rewrite (find_map_invariant _ (Review.is_for cardId' studyPackId'))
    by (intros; apply is_for_mapDates).
  f_equal. apply find_filter_implied.
  intros r Hr. unfold Review.is_for in Hr. apply andb_prop in Hr.
  destruct Hr as [_ Hr]. apply String.eqb_eq in Hr.
  apply negb_true_iff, String.eqb_neq. congruence.
Qed.

Lemma find_afterCall_untouched c st studyPackId cardId :
  touches studyPackId cardId c = false ->
  Forall review_scheduled (storedReviews st) ->
  find (Review.is_for cardId studyPackId) (storedReviews (afterCall c st))
  = find (Review.is_for cardId studyPackId) (storedReviews st).
Proof.
  intros Ht Hst.
  assert (Hfix : option_map (Review.mapDates reload)
                   (find (Review.is_for cardId studyPackId) (storedReviews st))
                 = find (Review.is_for cardId studyPackId) (storedReviews st)).
  { destruct (find _ _) as [r|] eqn:E; [|reflexivity].
    cbn [option_map]. f_equal. apply review_scheduled_fixed.
    apply find_some in E. rewrite Forall_forall in Hst. apply Hst, E. }
  destruct c as [p card q clk|p]; cbn [touches] in Ht.
  - rewrite afterCall_review, find_other_afterReview; [exact Hfix|].
    apply andb_false_iff in Ht. destruct Ht as [Ht|Ht]; apply String.eqb_neq in Ht.
    + right. congruence.
    + left. congruence.
  - rewrite afterCall_delete, find_afterDelete_other; [exact Hfix|].
    apply String.eqb_neq in Ht. congruence.
Qed.

Lemma find_afterCalls_untouched calls st studyPackId cardId :
  Forall call_graded calls ->
  untouched studyPackId cardId calls = true ->
  Forall review_scheduled (storedReviews st) ->
  find (Review.is_for cardId studyPackId) (storedReviews (afterCalls calls st))
  = find (Review.is_for cardId studyPackId) (storedReviews st).
Proof.
  revert st. induction calls as [|c calls IH]; intros st Hcalls Hu Hst; [reflexivity|].
  inversion Hcalls as [|? ? Hc Hrest]; subst.
  cbn [untouched forallb] in Hu. apply andb_prop in Hu. destruct Hu as [Hc' Hu].
  apply negb_true_iff in Hc'.
  rewrite afterCalls_cons, IH; [|assumption|exact Hu|now apply reviews_scheduled_step].
  now apply find_afterCall_untouched.
Qed.

(** X12.  The stored record of a card is the one its last review wrote.
    In a sequence of graded calls that starts on an empty storage, after a
    review of a card no later review of another card and no later
    deletion of another deck changes the record of the card: what is
    stored for it at the end is what that review stored. *)
Theorem last_review_decides_the_record calls studyPackId cardId quality clk more :
  Forall call_graded calls -> 1 <= quality <= 4 -> clock_ok clk ->
  Forall call_graded more ->
  untouched studyPackId cardId more = true ->
  find (Review.is_for cardId studyPackId)
       (storedReviews
          (afterCalls (calls ++ CallRecordReview studyPackId cardId quality clk :: more)
                      emptyStorage))
  = reviewAfter studyPackId cardId quality clk (afterCalls calls emptyStorage).
Proof.
  intros Hcalls Hq Hclk Hmore Hu.
  rewrite afterCalls_app, afterCalls_cons, afterCall_review.
  rewrite find_afterCalls_untouched; [reflexivity|exact Hmore|exact Hu|].
  rewrite <- afterCall_review. apply reviews_scheduled_step; [now split|].
  now apply reviews_scheduled.
Qed.

Lemma last_review_decides_the_record_witness :
  find (Review.is_for "card" "deck")
       (storedReviews
          (afterCalls (sample_calls
                       ++ CallRecordReview "deck" "card" 2 (later 7 0 sample_clock)
                          :: [CallRecordReview "deck" "card2" 4 (later 7 5000 sample_clock);
                              CallDeleteData "other"])
                      emptyStorage))
  = reviewAfter "deck" "card" 2 (later 7 0 sample_clock)
                (afterCalls sample_calls emptyStorage).
Proof.
  apply (last_review_decides_the_record sample_calls "deck" "card" 2
           (later 7 0 sample_clock)
           [CallRecordReview "deck" "card2" 4 (later 7 5000 sample_clock);
            CallDeleteData "other"]).
  - repeat constructor; vm_compute; discriminate.
  - lia.
  - split; vm_compute; discriminate.
  - repeat constructor; vm_compute; discriminate.
  - reflexivity.
Defined.


(** ** The study session of SpacedRepetitionViewer *)

Lemma run_loadDueCards studyPackId flashcards clk v st :
  run (loadDueCards studyPackId flashcards clk v) st
  = (inr (Viewer.mk (dueCardsOf studyPackId flashcards clk st)
                    (first_or_null (dueCardsOf studyPackId flashcards clk st))
                    false (Viewer.todayStats v)
                    (Z.of_nat (length (dueCardsOf studyPackId flashcards clk st)) =? 0)),
     st).
Proof.
  unfold loadDueCards. rewrite run_bind, dueCardsOf_eq, run_getDueCards.
  cbv beta iota. now rewrite run_ret.
Qed.

Lemma run_loadTodayStats studyPackId clk v st :
  run (loadTodayStats studyPackId clk v) st
  = (inr (Viewer.mk (Viewer.dueCards v) (Viewer.currentCard v) (Viewer.showAnswer v)
                    (Some (todayStatsOf studyPackId clk st))
                    (Viewer.sessionComplete v)),
     st).
Proof.
  unfold loadTodayStats. rewrite run_bind.
  destruct (todayStatsOf_eq studyPackId clk st) as [Hrun _].
  rewrite Hrun. cbv beta iota. now rewrite run_ret.
Qed.

Lemma run_mount studyPackId flashcards clk clk' st :
  exists v,
    run (mount studyPackId flashcards clk clk') st = (inr v, st)
    /\ Viewer.dueCards v = dueCardsOf studyPackId flashcards clk st
    /\ viewer_ok v.
Proof.
  unfold mount. rewrite run_bind, run_loadDueCards. cbv beta iota.
  rewrite run_loadTodayStats. eexists. split; [reflexivity|].
  split; [reflexivity|]. split; reflexivity.
Qed.

Lemma run_handleAnswer_none studyPackId quality clk clk' v st :
  Viewer.currentCard v = None ->
  run (handleAnswer studyPackId quality clk clk' v) st = (inr v, st).
Proof. intros H. unfold handleAnswer. now rewrite H, run_ret. Qed.

Lemma run_handleAnswer_some studyPackId quality clk clk' v st d ds :
  viewer_ok v -> Viewer.dueCards v = d :: ds ->
  exists v',
    run (handleAnswer studyPackId quality clk clk' v) st
    = (inr v', afterReview studyPackId (Card.id (Due.card d)) quality clk st)
    /\ Viewer.dueCards v' = ds
    /\ viewer_ok v'.
Proof.
  intros [Hcur Hdone] Hdue. rewrite Hdue in Hcur, Hdone.
  cbn [first_or_null hd_error] in Hcur.
  unfold handleAnswer. rewrite Hcur, Hdue.
  rewrite run_bind, run_recordReview. cbv beta iota zeta.
  unfold loadTodayStats. rewrite run_bind.
  destruct (todayStatsOf_eq studyPackId clk'
              (afterReview studyPackId (Card.id (Due.card d)) quality clk st))
    as [Hrun _].
  rewrite Hrun. cbv beta iota. rewrite run_ret.
  eexists. split; [reflexivity|].
  cbn [Viewer.dueCards Viewer.currentCard Viewer.sessionComplete skipn].
  split; [reflexivity|]. split; [reflexivity|].
  cbn [Viewer.dueCards Viewer.currentCard Viewer.sessionComplete skipn].
  rewrite Hdone.
  destruct (Z.of_nat (length ds) =? 0); [reflexivity|].
  cbn [length]. apply Z.eqb_neq. lia.
Qed.

Lemma run_answerAll studyPackId answers v st :
  viewer_ok v ->
  exists v',
    run (answerAll studyPackId answers v) st
    = (inr v', afterCalls (sessionCalls studyPackId (Viewer.dueCards v) answers) st)
    /\ Viewer.dueCards v' = skipn (length answers) (Viewer.dueCards v)
    /\ viewer_ok v'.
Proof.
  revert v st. induction answers as [|a answers IH]; intros v st Hv.
  - exists v. unfold sessionCalls. rewrite combine_nil. now split.
  - cbn [answerAll]. rewrite run_bind. destruct Hv as [Hcur Hdone].
    destruct (Viewer.dueCards v) as [|d ds] eqn:Edue.
    + rewrite run_handleAnswer_none by exact Hcur.
      assert (Hv : viewer_ok v) by (split; rewrite Edue; assumption).
      destruct (IH v st Hv) as [v' [Hrun [Hdue Hok]]].
      rewrite Edue in Hrun, Hdue. exists v'. split; [|split; [|exact Hok]].
      * rewrite Hrun. reflexivity.
      * rewrite Hdue. now rewrite !skipn_nil.
    + assert (Hv : viewer_ok v) by (split; rewrite Edue; assumption).
      destruct (run_handleAnswer_some studyPackId (grade a) (answeredAt a)
                  (statsAt a) v st d ds Hv Edue) as [v1 [Hrun1 [Hdue1 Hok1]]].
      rewrite Hrun1.
      destruct (IH v1 (afterReview studyPackId (Card.id (Due.card d)) (grade a)
                                   (answeredAt a) st) Hok1)
        as [v' [Hrun [Hdue Hok]]].
      rewrite Hdue1 in Hrun, Hdue. exists v'. split; [|split; [|exact Hok]].
      * rewrite Hrun. unfold sessionCalls. cbn [combine map fst snd].
        now rewrite afterCalls_cons, afterCall_review.
      * exact Hdue.
Qed.

(** X13.  A study session of the component answers the due cards once
    each, in their order.  On every storage: mounting the component and
    pressing grade buttons never ends in an exception; the reviews
    recorded are those of the cards [getDueCards] listed at the mount, in
    that order, the n-th with the n-th grade, and presses beyond the last
    due card record nothing; the component is left with the due cards not
    yet answered, shows the first of them, and reports the session as
    complete exactly when as many answers as due cards were given. *)
Theorem study_session_answers_due_cards studyPackId flashcards clk clk' answers st :
  let due := dueCardsOf studyPackId flashcards clk st in
  exists v,
    run (studySession studyPackId flashcards clk clk' answers) st
    = (inr v, afterCalls (sessionCalls studyPackId due answers) st)
    /\ Viewer.dueCards v = skipn (length answers) due
    /\ Viewer.currentCard v = first_or_null (skipn (length answers) due)
    /\ (Viewer.sessionComplete v = true <-> (length due <= length answers)%nat).
Proof.
  cbv zeta. unfold studySession. rewrite run_bind.
  destruct (run_mount studyPackId flashcards clk clk' st) as [v0 [Hmount [Hdue0 Hv0]]].
  rewrite Hmount.
  destruct (run_answerAll studyPackId answers v0 st Hv0) as [v [Hrun [Hdue [Hcur Hdone]]]].
  rewrite Hdue0 in Hrun, Hdue.
  exists v. split; [exact Hrun|].
  split; [exact Hdue|]. split; [now rewrite Hcur, Hdue|].
  rewrite Hdone, Hdue, length_skipn, Z.eqb_eq. lia.
Qed.

Lemma In_sessionCalls studyPackId due answers c :
  In c (sessionCalls studyPackId due answers) ->
  exists d a, In d due /\ In a answers
              /\ c = CallRecordReview studyPackId (Card.id (Due.card d))
                                      (grade a) (answeredAt a).
Proof.
  unfold sessionCalls. rewrite in_map_iff. intros [[d a] [<- Hin]].
  exists d, a. split; [now apply in_combine_l in Hin|].
  split; [now apply in_combine_r in Hin | reflexivity].
Qed.

Lemma sessionCalls_graded studyPackId due answers :
  Forall answer_graded answers ->
  Forall call_graded (sessionCalls studyPackId due answers).
Proof.
  intros Ha. apply Forall_forall. intros c Hc.
  apply In_sessionCalls in Hc. destruct Hc as [d [a [_ [Hin ->]]]].
  rewrite Forall_forall in Ha. apply (Ha a Hin).
Qed.

Lemma sessionCalls_touch studyPackId due answers d :
  (length due <= length answers)%nat -> In d due ->
  existsb (touches studyPackId (Card.id (Due.card d)))
          (sessionCalls studyPackId due answers) = true.
Proof.
  revert answers. induction due as [|d0 due IH]; intros answers Hlen Hd; [contradiction|].
  destruct answers as [|a answers]; [cbn [length] in Hlen; lia|].
  unfold sessionCalls. cbn [combine map existsb fst snd touches].
  destruct Hd as [->|Hd].
  - now rewrite !String.eqb_refl.
  - apply orb_true_iff. right. apply IH; [cbn [length] in Hlen; lia | exact Hd].
Qed.

(** The last element of a list that satisfies [f]. *)
Lemma last_such {A : Type} (f : A -> bool) (l : list A) :
  existsb f l = true ->
  exists pre x post,
    l = pre ++ x :: post /\ f x = true /\ forallb (fun y => negb (f y)) post = true.
Proof.
  induction l as [|y l IH]; [discriminate|].
  cbn [existsb]. intros H. destruct (existsb f l) eqn:E.
  - destruct (IH eq_refl) as [pre [x [post [-> [Hx Hpost]]]]].
    exists (y :: pre), x, post. now split.
  - rewrite orb_false_r in H. exists [], y, l. split; [reflexivity|].
    split; [exact H|]. clear -E. induction l as [|z l IH]; [reflexivity|].
    cbn [existsb] in E. apply orb_false_iff in E. destruct E as [Ez El].
    cbn [forallb]. now rewrite Ez, IH.
Qed.

Lemma schedule_in_rangeb_ok (l : list CardReview) :
  forallb schedule_in_rangeb l = true -> Forall schedule_in_range l.
Proof.
  intros H. apply Forall_forall. intros r Hr.
  rewrite forallb_forall in H. specialize (H r Hr).
  unfold schedule_in_rangeb in H. unfold schedule_in_range.
  destruct (Review.reviewDate r); [now apply Z.leb_le | discriminate].
Qed.

Lemma session_calls_leave_nothing_due calls studyPackId flashcards clk
    answers clk' :
  Forall call_graded calls ->
  let st := afterCalls calls emptyStorage in
  let due := dueCardsOf studyPackId flashcards clk st in
  let st' := afterCalls (sessionCalls studyPackId due answers) st in
  Forall answer_graded answers ->
  (length due <= length answers)%nat ->
  Forall schedule_in_range (storedReviews st') ->
  Forall (fun a => now clk' < now (answeredAt a) + MS_PER_DAY) answers ->
  forall d, In d due ->
    ~ In (Due.card d) (map Due.card (dueCardsOf studyPackId flashcards clk' st')).
Proof.
  intros Hcalls st due st' Hans Hlen Hrange Hclk' d Hd Hin.
  pose proof (sessionCalls_graded studyPackId due answers Hans) as Hgraded.
  destruct (last_such _ _ (sessionCalls_touch studyPackId due answers d Hlen Hd))
    as [pre [x [post [Esplit [Hx Hpost]]]]].
  assert (Hxin : In x (sessionCalls studyPackId due answers)).
  { rewrite Esplit. apply in_or_app. right. now left. }
  apply In_sessionCalls in Hxin. destruct Hxin as [d' [a [_ [Ha ->]]]].
  cbn [touches] in Hx. rewrite String.eqb_refl in Hx. cbn [andb] in Hx.
  apply String.eqb_eq in Hx.
  rewrite Esplit in Hgraded. apply Forall_app in Hgraded.
  destruct Hgraded as [Hpre Hx_post].
  inversion Hx_post as [|? ? Hcg Hpostg]; subst. destruct Hcg as [Hq Hclk].
  assert (Hst' : st' = afterCalls post
                         (afterReview studyPackId (Card.id (Due.card d')) (grade a)
                            (answeredAt a) (afterCalls (calls ++ pre) emptyStorage))).
  { unfold st'. rewrite Esplit. unfold st.
    now rewrite <- afterCalls_app, app_assoc, afterCalls_app, afterCalls_cons. }
  assert (Hall : Forall call_graded (calls ++ pre)) by (apply Forall_app; now split).
  destruct (reviewAfter_scheduled (calls ++ pre) studyPackId (Card.id (Due.card d'))
              (grade a) (answeredAt a) Hall Hq Hclk) as [r [Hr [Hi [Hdate Hnext]]]].
  assert (Hfind : find (Review.is_for (Card.id (Due.card d)) studyPackId)
                       (storedReviews st') = Some r).
  { rewrite Hst', <- Hx. rewrite find_afterCalls_untouched.
    - exact Hr.
    - exact Hpostg.
    - rewrite Hx. exact Hpost.
    - rewrite <- afterCall_review. apply reviews_scheduled_step; [now split|].
      now apply reviews_scheduled. }
  assert (Hr_range : schedule_in_range r).
  { rewrite Forall_forall in Hrange. apply Hrange.
    apply find_some in Hfind. apply Hfind. }
  unfold schedule_in_range in Hr_range. rewrite Hdate in Hr_range.
  rewrite Forall_forall in Hclk'. specialize (Hclk' a Ha).
  assert (Hday : 0 < MS_PER_DAY) by reflexivity.
  assert (Hk : MS_PER_DAY <= Review.interval r * MS_PER_DAY) by nia.
  destruct Hclk as [Hnow _].
  rewrite TimeClip_in_range, reload_in_range in Hnext by lia.
  apply In_due_cards in Hin. destruct Hin as [_ [Hnone | [r0 [t [Hr0 [Ht Hle]]]]]].
  - rewrite Hfind in Hnone. discriminate.
  - rewrite Hfind in Hr0. injection Hr0 as <-.
    rewrite Hnext in Ht. injection Ht as <-. lia.
Qed.

Lemma storage_after_session studyPackId flashcards clk clk0 answers st :
  snd (run (studySession studyPackId flashcards clk clk0 answers) st)
  = afterCalls (sessionCalls studyPackId
                  (dueCardsOf studyPackId flashcards clk st) answers) st.
Proof.
  unfold studySession. rewrite run_bind.
  destruct (run_mount studyPackId flashcards clk clk0 st) as [v0 [Hmount [Hdue0 Hv0]]].
  rewrite Hmount.
  destruct (run_answerAll studyPackId answers v0 st Hv0) as [v [Hrun _]].
  now rewrite Hrun, Hdue0.
Qed.

(** X14.  A completed session leaves none of its cards due for a day.
    After any sequence of graded calls, the component is mounted and every
    due card is answered with a grade in 1..4.  As long as no stored
    review is scheduled beyond the range of dates, none of the cards that
    were due is due at a clock reading less than 24 hours after each
    answer. *)
Theorem completed_session_leaves_nothing_due calls studyPackId flashcards clk clk0
    answers clk' :
  Forall call_graded calls ->
  let st := afterCalls calls emptyStorage in
  let due := dueCardsOf studyPackId flashcards clk st in
  let st' := snd (run (studySession studyPackId flashcards clk clk0 answers) st) in
  Forall answer_graded answers ->
  (length due <= length answers)%nat ->
  Forall schedule_in_range (storedReviews st') ->
  Forall (fun a => now clk' < now (answeredAt a) + MS_PER_DAY) answers ->
  forall d, In d due ->
    ~ In (Due.card d) (map Due.card (dueCardsOf studyPackId flashcards clk' st')).
Proof.
  cbv zeta. rewrite storage_after_session.
  apply session_calls_leave_nothing_due.
Qed.

Lemma completed_session_leaves_nothing_due_witness :
  let flashcards := [sample_card; sample_card2] in
  let clk := later 30 0 sample_clock in
  let clk' := later 30 3600000 sample_clock in
  let st := afterCalls sample_calls emptyStorage in
  let due := dueCardsOf "deck" flashcards clk st in
  let st' := snd (run (studySession "deck" flashcards clk clk sample_answers) st) in
  exists d,
    In d due
    /\ ~ In (Due.card d) (map Due.card (dueCardsOf "deck" flashcards clk' st')).
Proof.
  cbv zeta.
  destruct (dueCardsOf "deck" [sample_card; sample_card2] (later 30 0 sample_clock)
              (afterCalls sample_calls emptyStorage)) as [|d l] eqn:E.
  - vm_compute in E. discriminate E.
  - exists d. split; [now left|].
    apply (completed_session_leaves_nothing_due sample_calls "deck"
             [sample_card; sample_card2] (later 30 0 sample_clock)
             (later 30 0 sample_clock) sample_answers
             (later 30 3600000 sample_clock)).
    + repeat constructor; vm_compute; discriminate.
    + repeat constructor; vm_compute; discriminate.
    + vm_compute. lia.
    + apply schedule_in_rangeb_ok. vm_compute. reflexivity.
    + repeat constructor; vm_compute; reflexivity.
    + rewrite E. now left.
Defined.


Lemma Math_floor_div_pos d b :
  0 < b -> Math_floor (inject_Z d / inject_Z b)%Q = d / b.
Proof.
  intros Hb. destruct b as [|p|p]; try lia.
  unfold Math_floor, Qdiv, Qmult, Qinv, inject_Z. cbn [Qnum Qden Qfloor].
  now rewrite Z.mul_1_r, Pos.mul_1_l.
Qed.

(** X15.  [formatTimeUntilNext] rounds the time left down to the hour.
    For a next review that is a date: the label is 'Soon' exactly when
    less than an hour is left (or the time has passed); an hours label
    shows 1 to 23 whole hours and a days label at least one day and 0 to
    23 hours, and the time left is at least what the label shows and less
    than an hour more. *)
Theorem formatTimeUntilNext_rounds_down t clk :
  let diff := t - now clk in
  (formatTimeUntilNext (TimeValue t) clk = Soon <-> diff < MS_PER_HOUR)
  /\ match formatTimeUntilNext (TimeValue t) clk with
     | Soon => True
     | HoursOnly h =>
         1 <= h <= 23
         /\ h * MS_PER_HOUR <= diff < (h + 1) * MS_PER_HOUR
     | DaysHours d h =>
         1 <= d /\ 0 <= h <= 23
         /\ d * MS_PER_DAY + h * MS_PER_HOUR <= diff
            < d * MS_PER_DAY + (h + 1) * MS_PER_HOUR
     end.
Proof.
  cbv zeta. unfold formatTimeUntilNext, new_Date, num_floor_div, num_rem.
  cbn [getTime num_sub option_map].
  rewrite !Math_floor_div_pos by reflexivity.
  change (1000 * 60 * 60 * 24) with MS_PER_DAY.
  change (1000 * 60 * 60) with MS_PER_HOUR.
  set (diff := t - now clk).
  assert (Hday : MS_PER_DAY = 24 * MS_PER_HOUR) by reflexivity.
  assert (Hhour : MS_PER_HOUR = 3600000) by reflexivity.
  destruct (0 <? diff / MS_PER_DAY) eqn:Ed.
  - apply Z.ltb_lt in Ed. split.
    + split; [discriminate|]. intros H. exfalso. revert Ed H. rewrite Hday, Hhour.
      intros Ed H. Z.to_euclidean_division_equations. lia.
    + revert Ed. rewrite Hday, Hhour. intros Ed.
      Z.to_euclidean_division_equations. lia.
  - apply Z.ltb_ge in Ed.
    destruct (0 <? Z.rem diff MS_PER_DAY / MS_PER_HOUR) eqn:Eh.
    + apply Z.ltb_lt in Eh. split.
      * split; [discriminate|]. intros H. exfalso. revert Ed Eh H. rewrite Hday, Hhour.
        intros Ed Eh H. Z.to_euclidean_division_equations. lia.
      * revert Ed Eh. rewrite Hday, Hhour. intros Ed Eh.
        Z.to_euclidean_division_equations. lia.
    + apply Z.ltb_ge in Eh. split; [|exact I].
      split; [|reflexivity]. intros _. revert Ed Eh. rewrite Hday, Hhour.
      intros Ed Eh. Z.to_euclidean_division_equations. lia.
Qed.

Lemma length_dueCardsOf studyPackId flashcards clk st :
  (length (dueCardsOf studyPackId flashcards clk st) <= length flashcards)%nat.
Proof.
  rewrite dueCardsOf_eq.
  rewrite <- (Permutation_length (Array_sort_perm due_compare _)).
  apply for_push_length.
Qed.

(** X16.  The progress bar of the component stays within 0 and 100.
    On every storage and after any number of answers, the value computed
    for the bar is a percentage between 0 and 100, below 100 while a due
    card is left, and the division it makes is never by zero. *)
Theorem progress_bar_in_range studyPackId flashcards clk clk' answers st :
  let v := viewerAfter studyPackId flashcards clk clk' answers st in
  (0 <= progressPercent flashcards v)%Q
  /\ (progressPercent flashcards v <= 100)%Q
  /\ (Viewer.dueCards v <> [] ->
      (progressPercent flashcards v < 100)%Q /\ flashcards <> []).
Proof.
  cbv zeta. unfold viewerAfter, studySession. rewrite run_bind.
  destruct (run_mount studyPackId flashcards clk clk' st) as [v0 [Hmount [Hdue0 Hv0]]].
  rewrite Hmount.
  destruct (run_answerAll studyPackId answers v0 st Hv0) as [v [Hrun [Hdue _]]].
  rewrite Hrun. cbn [fst]. rewrite Hdue0 in Hdue.
  assert (Hlen : (length (Viewer.dueCards v) <= length flashcards)%nat).
  { rewrite Hdue, length_skipn.
    pose proof (length_dueCardsOf studyPackId flashcards clk st). lia. }
  unfold progressPercent.
  set (n := Z.of_nat (length (Viewer.dueCards v))) in *.
  set (m := Z.of_nat (length flashcards)) in *.
  assert (Hnm : n <= m) by (unfold n, m; lia).
  assert (Hn0 : 0 <= n) by (unfold n; lia).
  destruct (0 <? n) eqn:Hpos.
  - apply Z.ltb_lt in Hpos.
    assert (Hm : (0 < inject_Z m)%Q).
    { change 0%Q with (inject_Z 0). rewrite <- Zlt_Qlt. lia. }
    assert (Hfrac0 : (0 <= inject_Z (m - n) / inject_Z m)%Q).
    { apply Qle_shift_div_l; [exact Hm|]. rewrite Qmult_0_l.
      change 0%Q with (inject_Z 0). rewrite <- Zle_Qle. lia. }
    assert (Hfrac1 : (inject_Z (m - n) / inject_Z m < 1)%Q).
    { apply Qlt_shift_div_r; [exact Hm|]. rewrite Qmult_1_l.
      rewrite <- Zlt_Qlt. lia. }
    split; [|split].
    + apply Qmult_le_0_compat; [exact Hfrac0 | discriminate].
    + apply Qlt_le_weak. change 100%Q with (1 * 100)%Q at 2.
      apply Qmult_lt_compat_r; [reflexivity | exact Hfrac1].
    + intros _. split.
      * change 100%Q with (1 * 100)%Q at 2.
        apply Qmult_lt_compat_r; [reflexivity | exact Hfrac1].
      * intros E. unfold m in Hnm. rewrite E in Hnm. cbn [length] in Hnm. lia.
  - apply Z.ltb_ge in Hpos. split; [apply Qle_refl|]. split; [discriminate|].
    intros Hne. exfalso. apply Hne. apply length_zero_iff_nil. unfold n in *. lia.
Qed.


(* ================================================================== *)
(** * AnalyticsService *)

(** ** updateAchievements *)

Lemma Set_has_In s x : Set_has s x = true <-> In x s.
Proof.
  unfold Set_has. rewrite existsb_exists. split.
  - intros [y [Hy E]]. apply String.eqb_eq in E. now subst.
  - intros H. exists x. split; [exact H | apply String.eqb_refl].
Qed.

Lemma Set_add_In s x y : In y (Set_add s x) <-> In y s \/ y = x.
Proof.
  unfold Set_add. destruct (Set_has s x) eqn:E.
  - apply Set_has_In in E. split; [now left | intros [H | ->]; assumption].
  - rewrite in_app_iff. cbn [In]. split; intros [H | H]; auto.
    + destruct H as [H | []]. now right.
Qed.

Lemma Set_add_NoDup s x : NoDup s -> NoDup (Set_add s x).
Proof.
  intros H. unfold Set_add. destruct (Set_has s x) eqn:E; [exact H|].
  apply NoDup_app; [exact H | repeat constructor; intros [] |].
  intros y Hy [<- | []]. apply Set_has_In in Hy. congruence.
Qed.

Lemma fold_Set_add l s :
  NoDup s ->
  NoDup (fold_left Set_add l s)
  /\ forall x, In x (fold_left Set_add l s) <-> In x s \/ In x l.
Proof.
  revert s. induction l as [|y l IH]; intros s Hs; cbn [fold_left].
  - split; [exact Hs | intros x; cbn [In]; tauto].
  - destruct (IH (Set_add s y) (Set_add_NoDup s y Hs)) as [Hn Hin].
    split; [exact Hn|]. intros x. rewrite Hin, Set_add_In. cbn [In].
    split; intros H; repeat destruct H as [H | H]; auto.
Qed.

Lemma fold_Set_add_NoDup l s :
  NoDup (s ++ l) -> fold_left Set_add l s = s ++ l.
Proof.
  revert s. induction l as [|y l IH]; intros s H; cbn [fold_left].
  - now rewrite app_nil_r.
  - assert (E : Set_add s y = s ++ [y]).
    { unfold Set_add. destruct (Set_has s y) eqn:Ey; [|reflexivity].
      apply Set_has_In in Ey. apply NoDup_remove_2 in H.
      exfalso. apply H. apply in_or_app. now left. }
    rewrite E, IH; rewrite <- app_assoc; [reflexivity | exact H].
Qed.

Lemma award_In c b s x :
  In x (AnalyticsService.award c b s) <-> In x s \/ (c = true /\ x = b).
Proof.
  unfold AnalyticsService.award. destruct c; cbn [andb].
  - destruct (Set_has s b) eqn:E; cbn [negb].
    + apply Set_has_In in E. split; [now left | intros [H | [_ ->]]; assumption].
    + rewrite Set_add_In. split; [intros [H | ->]; auto | intros [H | [_ ->]]; auto].
  - split; [now left | intros [H | [H _]]; [exact H | discriminate]].
Qed.

Lemma award_NoDup c b s : NoDup s -> NoDup (AnalyticsService.award c b s).
Proof.
  intros H. unfold AnalyticsService.award.
  destruct (c && negb (Set_has s b)); [now apply Set_add_NoDup | exact H].
Qed.

Lemma award_absorb c b s :
  (c = true -> In b s) -> AnalyticsService.award c b s = s.
Proof.
  intros H. unfold AnalyticsService.award. destruct c; [|reflexivity].
  apply Set_has_In in H; [|reflexivity]. now rewrite H.
Qed.

(** X17.  [updateAchievements] only adds badges, each at most once.  The
    achievements it leaves have no duplicate; they are the ones the
    progress had together with the badges whose condition holds (5
    sessions, a streak of 7 days, an average accuracy of 0.9, 3600 seconds
    of study); no other field changes; and applying it again changes
    nothing. *)
Theorem updateAchievements_adds_earned_badges progress :
  let progress' := AnalyticsService.updateAchievements progress in
  NoDup (Progress.achievements progress')
  /\ (forall badge,
        In badge (Progress.achievements progress')
        <-> In badge (Progress.achievements progress) \/ earned progress badge)
  /\ (Progress.studyPackId progress', Progress.totalStudyTime progress',
      Progress.sessionsCount progress', Progress.lastStudied progress',
      Progress.averageAccuracy progress', Progress.strongAreas progress',
      Progress.weakAreas progress', Progress.streakDays progress')
     = (Progress.studyPackId progress, Progress.totalStudyTime progress,
        Progress.sessionsCount progress, Progress.lastStudied progress,
        Progress.averageAccuracy progress, Progress.strongAreas progress,
        Progress.weakAreas progress, Progress.streakDays progress)
  /\ AnalyticsService.updateAchievements progress' = progress'.
Proof.
  cbv zeta. unfold AnalyticsService.updateAchievements.
  cbn [Progress.achievements Progress.studyPackId Progress.totalStudyTime
       Progress.sessionsCount Progress.lastStudied Progress.averageAccuracy
       Progress.strongAreas Progress.weakAreas Progress.streakDays].
  destruct (fold_Set_add (Progress.achievements progress) [] (NoDup_nil _))
    as [Hn0 Hin0].
  fold (new_Set (Progress.achievements progress)) in Hn0, Hin0.
  set (a0 := new_Set (Progress.achievements progress)) in *.
  set (c1 := 5 <=? Progress.sessionsCount progress).
  set (c2 := 7 <=? Progress.streakDays progress).
  set (c3 := Qle_bool 0.9 (Progress.averageAccuracy progress)).
  set (c4 := 3600 <=? Progress.totalStudyTime progress).
  set (a1 := AnalyticsService.award c1 "consistent_learner" a0).
  set (a2 := AnalyticsService.award c2 "week_warrior" a1).
  set (a3 := AnalyticsService.award c3 "accuracy_master" a2).
  set (a4 := AnalyticsService.award c4 "time_champion" a3).
  assert (Hn4 : NoDup a4) by (repeat apply award_NoDup; exact Hn0).
  assert (Hin4 : forall x,
             In x a4 <-> In x a0
                         \/ (c1 = true /\ x = "consistent_learner"%string)
                         \/ (c2 = true /\ x = "week_warrior"%string)
                         \/ (c3 = true /\ x = "accuracy_master"%string)
                         \/ (c4 = true /\ x = "time_champion"%string)).
  { intros x. unfold a4, a3, a2, a1. rewrite !award_In. tauto. }
  split; [exact Hn4|]. split; [|split; [reflexivity|]].
  - intros x. rewrite Hin4, Hin0. unfold earned, c1, c2, c3, c4.
    rewrite !Z.leb_le, Qle_bool_iff. cbn [In]. tauto.
  - f_equal.
    assert (E0 : new_Set a4 = a4).
    { unfold new_Set. now rewrite fold_Set_add_NoDup. }
    rewrite E0.
    rewrite (award_absorb c1 _ a4) by (intros E; apply Hin4; tauto).
    rewrite (award_absorb c2 _ a4) by (intros E; apply Hin4; tauto).
    rewrite (award_absorb c3 _ a4) by (intros E; apply Hin4; tauto).
    now rewrite (award_absorb c4 _ a4) by (intros E; apply Hin4; tauto).
Qed.

(** ** calculateStreak *)

Lemma midnight_dayOf tz t :
  t - (t + tz) mod MS_PER_DAY = MS_PER_DAY * dayOf tz t - tz.
Proof.
  unfold dayOf. pose proof (Z.div_mod (t + tz) MS_PER_DAY) as H.
  assert (MS_PER_DAY <> 0) by discriminate. lia.
Qed.

Lemma dayOf_mono tz t t' : t <= t' -> dayOf tz t <= dayOf tz t'.
Proof. intros H. unfold dayOf. apply Z.div_le_mono; [reflexivity | lia]. Qed.

(** A zone that keeps one offset is at that offset on every day. *)
Lemma fixedZone_at_offset tz t :
  Z.abs (MS_PER_DAY * dayOf tz t - tz) <= MAX_TIME ->
  at_offset (fixedZone tz) tz t.
Proof.
  intros H. unfold at_offset, Date_setHours0, midnightOfDay, UTC, Day, LocalTime.
  cbn [fixedZone LocalTZA]. fold (dayOf tz t).
  rewrite (Z.mul_comm (dayOf tz t)). now apply TimeClip_in_range.
Qed.

Lemma start_ok_date z tz s :
  start_ok z tz s ->
  exists t, AnalyticsSession.startTime s = TimeValue t
            /\ Date_setHours0 z (AnalyticsSession.startTime s)
               = TimeValue (MS_PER_DAY * startDay tz s - tz).
Proof.
  unfold start_ok, startDay, at_offset.
  destruct (AnalyticsSession.startTime s) as [t|]; [|tauto].
  intros Hmid. exists t. split; [reflexivity | exact Hmid].
Qed.

Lemma analytics_streakLoop z tz today b l :
  Forall (start_ok z tz) l ->
  StronglySorted (fun x y => startDay tz y <= startDay tz x) l ->
  (forall s, In s l -> startDay tz s <> today - (b + 1)) ->
  forall k,
    Forall (fun s => startDay tz s <= today - k) l ->
    (forall j, k < j <= b -> exists s, In s l /\ startDay tz s = today - j) ->
    k <= b ->
    AnalyticsService.streakLoop z l k (TimeValue (MS_PER_DAY * (today - k) - tz)) = b.
Proof.
  intros Hok Hsorted Hgap.
  induction l as [|s l IH]; intros k Hle Hrun Hkb.
  - cbn [AnalyticsService.streakLoop].
    destruct (Z_lt_le_dec k b) as [Hlt|Hge]; [|lia].
    destruct (Hrun (k + 1)) as [s [[] _]]. lia.
  - inversion Hok as [|? ? Hs Hok']; subst.
    inversion Hsorted as [|? ? Hsorted' Hall]; subst.
    inversion Hle as [|? ? Hsk Hle']; subst.
    destruct (start_ok_date z tz s Hs) as [t [_ Hmid]].
    cbn [AnalyticsService.streakLoop]. cbv zeta. rewrite Hmid.
    cbn [getTime num_sub option_map]. rewrite Math_floor_days.
    replace (MS_PER_DAY * (today - k) - tz - (MS_PER_DAY * startDay tz s - tz))
      with ((today - k - startDay tz s) * MS_PER_DAY) by lia.
    rewrite Z.div_mul by discriminate.
    set (i := today - k - startDay tz s). assert (Hi : 0 <= i) by (unfold i; lia).
    cbn [num_eq]. rewrite Forall_forall in Hall.
    destruct (i =? 0) eqn:E0; cbn [orb].
    + apply Z.eqb_eq in E0. replace (i =? 1) with false by (symmetry; apply Z.eqb_neq; lia).
      replace (startDay tz s) with (today - k) by (unfold i in E0; lia).
      apply IH; try assumption.
      * intros s' Hs'. apply Hgap. now right.
      * intros j Hj. destruct (Hrun j Hj) as [s' [[<-|Hs'] Ed]].
        -- unfold i in E0. lia.
        -- now exists s'.
    + apply Z.eqb_neq in E0. destruct (i =? 1) eqn:E1.
      * apply Z.eqb_eq in E1.
        assert (Hday : startDay tz s = today - (k + 1)) by (unfold i in E1; lia).
        assert (Hk1 : k + 1 <= b).
        { destruct (Z_lt_le_dec k b) as [Hlt|Hge]; [lia|].
          exfalso. apply (Hgap s); [now left|]. rewrite Hday. f_equal. lia. }
        rewrite Hday. apply IH; try assumption.
        -- intros s' Hs'. apply Hgap. now right.
        -- apply Forall_forall. intros s' Hs'. specialize (Hall s' Hs'). lia.
        -- intros j Hj. destruct (Hrun j) as [s' [[<-|Hs'] Ed]]; [lia | lia |].
           now exists s'.
      * apply Z.eqb_neq in E1.
        destruct (Z_lt_le_dec k b) as [Hlt|Hge]; [|lia].
        exfalso. destruct (Hrun (k + 1)) as [s' [[<-|Hs'] Ed]]; [lia | unfold i in *; lia |].
        specialize (Hall s' Hs'). unfold i in *. lia.
Qed.

Lemma analytics_sessions_sorted z tz (l : list AnalyticsStudySession) :
  Forall (start_ok z tz) l ->
  StronglySorted (fun x y => startDay tz y <= startDay tz x)
                 (Array_sort AnalyticsService.session_compare_desc l).
Proof.
  intros Hl. apply Sorted_StronglySorted.
  - intros a b c Hab Hbc. lia.
  - apply Array_sort_Sorted with (P := start_ok z tz); [| |exact Hl].
    + intros a b Ha Hb.
      unfold cmp_le, AnalyticsService.session_compare_desc, start_ok, startDay in *.
      destruct (AnalyticsSession.startTime a), (AnalyticsSession.startTime b);
        try contradiction.
      cbn [getTime num_sub]. rewrite Z.leb_le. intros H. apply dayOf_mono. lia.
    + intros a b Ha Hb.
      unfold cmp_le, AnalyticsService.session_compare_desc, start_ok, startDay in *.
      destruct (AnalyticsSession.startTime a), (AnalyticsSession.startTime b);
        try contradiction.
      cbn [getTime num_sub]. rewrite Z.leb_gt. intros H. apply dayOf_mono. lia.
Qed.

(** X18.  The streak of the analytics is the number of days back to the
    start of the unbroken run of study days, as long as the zone keeps one
    offset.  For a clock reading and a deck whose sessions have start
    times that are dates, none of them after today, all on days on which
    the zone is at one offset [tz] (their local midnights are those of
    [tz], so that a local day lasts 24 hours): when the deck has a session
    on each of the [b] days before today and none on the day before those,
    the streak is [b], whether or not there is a session today.  Sessions
    of today alone give 0. *)
Theorem analytics_streak_counts_days_back studyPackId clk all tz b :
  let today := dayOf tz (now clk) in
  let deck := AnalyticsService.getSessionsForStudyPack studyPackId all in
  at_offset (zone clk) tz (now clk) ->
  Forall (start_ok (zone clk) tz) deck ->
  Forall (fun s => startDay tz s <= today) deck ->
  0 <= b ->
  (forall j, 1 <= j <= b -> exists s, In s deck /\ startDay tz s = today - j) ->
  (forall s, In s deck -> startDay tz s <> today - (b + 1)) ->
  AnalyticsService.calculateStreak studyPackId clk all = b.
Proof.
  intros today deck Hclk Hok Hpast Hb Hrun Hgap.
  unfold AnalyticsService.calculateStreak. cbv zeta. fold deck.
  assert (Hin : forall s, In s (Array_sort AnalyticsService.session_compare_desc deck)
                          <-> In s deck) by (intros; apply Array_sort_In).
  assert (Hloop : AnalyticsService.streakLoop (zone clk)
                    (Array_sort AnalyticsService.session_compare_desc deck) 0
                    (setHours0 clk) = b).
  { change (setHours0 clk) with (Date_setHours0 (zone clk) (TimeValue (now clk))).
    rewrite Hclk. fold today.
    replace today with (today - 0) at 1 by lia.
    apply analytics_streakLoop.
    - apply Forall_forall. intros s Hs. rewrite Forall_forall in Hok.
      apply Hok. now apply Hin.
    - now apply analytics_sessions_sorted with (z := zone clk).
    - intros s Hs. apply Hgap. now apply Hin.
    - apply Forall_forall. intros s Hs. rewrite Forall_forall in Hpast.
      rewrite Z.sub_0_r. apply Hpast. now apply Hin.
    - intros j Hj. destruct (Hrun j) as [s [Hs Ed]]; [lia|].
      exists s. split; [now apply Hin | exact Ed].
    - exact Hb. }
  destruct (Array_sort AnalyticsService.session_compare_desc deck) as [|s l] eqn:E.
  - cbn [length Z.of_nat Z.eqb]. cbn [AnalyticsService.streakLoop] in Hloop. exact Hloop.
  - cbn [length]. replace (Z.of_nat (S (length l)) =? 0) with false; [exact Hloop|].
    symmetry. apply Z.eqb_neq. lia.
Qed.

Lemma analytics_streak_counts_days_back_witness :
  AnalyticsService.calculateStreak "deck" sample_clock
    [sample_session "a" 1699999000000; sample_session "b" 1699920000000;
     sample_session "c" 1699900000000; sample_session "d" 1699700000000] = 1.
Proof.
  apply (analytics_streak_counts_days_back "deck" sample_clock
           [sample_session "a" 1699999000000; sample_session "b" 1699920000000;
            sample_session "c" 1699900000000; sample_session "d" 1699700000000] 0 1).
  - apply fixedZone_at_offset. vm_compute. discriminate.
  - repeat constructor; apply fixedZone_at_offset; vm_compute; discriminate.
  - repeat constructor; vm_compute; discriminate.
  - lia.
  - intros j Hj. assert (j = 1) as -> by lia.
    exists (sample_session "c" 1699900000000). split; [|reflexivity].
    right. right. now left.
  - intros s [<-|[<-|[<-|[<-|[]]]]]; vm_compute; discriminate.
Defined.

(** Where the offset changes the run is not counted in days.  In a zone
    in which clocks went forward the day before, on Monday 11 March 2024
    with one session on Sunday 10 March: today's local midnight is 04:00
    UTC and the session's 05:00 UTC the day before, 23 hours apart, so the
    session counts as one of today and the streak is 0, not 1. *)
Example analytics_streak_across_a_clock_change :
  let clk := mkClock 1710169200000 springForward in
  let session := sample_session "a" 1710093600000 in
  setHours0 clk = TimeValue 1710129600000
  /\ Date_setHours0 springForward (AnalyticsSession.startTime session)
     = TimeValue 1710046800000
  /\ localDay clk - Day (LocalTime springForward 1710093600000) = 1
  /\ AnalyticsService.calculateStreak "deck" clk [session] = 0.
Proof. repeat split. Qed.


(** ** Maps and the progress of a deck *)

Section MapLemmas.
Context {V : Type}.
Implicit Types (m : list (string * V)) (k : string) (v : V).

Lemma Map_get_set_same m k v : Map_get (Map_set m k v) k = Some v.
Proof.
  unfold Map_get. induction m as [|e m IH]; cbn [Map_set find fst].
  - now rewrite String.eqb_refl.
  - destruct (fst e =? k)%string eqn:E; cbn [find fst].
    + now rewrite String.eqb_refl.
    + now rewrite E.
Qed.

Lemma Map_get_set_other m k v k' :
  k' <> k -> Map_get (Map_set m k v) k' = Map_get m k'.
Proof.
  intros Hne. unfold Map_get. induction m as [|e m IH]; cbn [Map_set find fst].
  - apply String.eqb_neq in Hne. rewrite String.eqb_sym in Hne. now rewrite Hne.
  - destruct (fst e =? k)%string eqn:E; cbn [find fst].
    + apply String.eqb_eq in E. subst k.
      apply String.eqb_neq in Hne. rewrite String.eqb_sym in Hne. now rewrite Hne.
    + destruct (fst e =? k')%string; [reflexivity | exact IH].
Qed.

Lemma Map_set_keys m k v x :
  In x (map fst (Map_set m k v)) <-> In x (map fst m) \/ x = k.
Proof.
  induction m as [|e m IH]; cbn [Map_set map In fst].
  - split; [intros [<- | []]; now right | intros [[] | ->]; now left].
  - destruct (fst e =? k)%string eqn:E; cbn [map In fst].
    + apply String.eqb_eq in E. rewrite E. split; [tauto | intros [[H|H]|H]; auto].
    + rewrite IH. tauto.
Qed.

Lemma Map_set_absent m k v :
  ~ In k (map fst m) -> Map_set m k v = m ++ [(k, v)].
Proof.
  induction m as [|e m IH]; intros H; [reflexivity|].
  cbn [Map_set app]. cbn [map In] in H.
  destruct (fst e =? k)%string eqn:E.
  - apply String.eqb_eq in E. tauto.
  - rewrite IH by tauto. reflexivity.
Qed.

Lemma Map_set_NoDup m k v :
  NoDup (map fst m) -> NoDup (map fst (Map_set m k v)).
Proof.
  induction m as [|e m IH]; intros H; cbn [Map_set map fst].
  - repeat constructor. intros [].
  - inversion H as [|? ? Hnotin Hm]; subst.
    destruct (fst e =? k)%string eqn:E; cbn [map fst].
    + apply String.eqb_eq in E. subst k. now constructor.
    + constructor; [|now apply IH].
      rewrite Map_set_keys. intros [Hin | Heq]; [tauto|].
      now rewrite Heq, String.eqb_refl in E.
Qed.

Lemma fold_Map_set_NoDup (entries : list (string * V)) m :
  NoDup (map fst m) ->
  NoDup (map fst (fold_left (fun m e => Map_set m (fst e) (snd e)) entries m)).
Proof.
  revert m. induction entries as [|e entries IH]; intros m H; [exact H|].
  cbn [fold_left]. apply IH. now apply Map_set_NoDup.
Qed.

Lemma new_Map_NoDup (entries : list (string * V)) : NoDup (map fst (new_Map entries)).
Proof. apply fold_Map_set_NoDup. constructor. Qed.

Lemma fold_Map_set_distinct (entries : list (string * V)) m :
  NoDup (map fst (m ++ entries)) ->
  fold_left (fun m e => Map_set m (fst e) (snd e)) entries m = m ++ entries.
Proof.
  revert m. induction entries as [|e entries IH]; intros m H; cbn [fold_left].
  - now rewrite app_nil_r.
  - rewrite Map_set_absent.
    + destruct e as [k v]. cbn [fst snd]. rewrite IH; rewrite <- app_assoc; [reflexivity|exact H].
    + rewrite map_app in H. cbn [map] in H. apply NoDup_remove_2 in H.
      intros Hin. apply H. apply in_or_app. now left.
Qed.

Lemma new_Map_distinct m : NoDup (map fst m) -> new_Map m = m.
Proof. intros H. unfold new_Map. now rewrite fold_Map_set_distinct. Qed.

Lemma Map_get_In m k v : Map_get m k = Some v -> In (k, v) m.
Proof.
  unfold Map_get. destruct (find _ m) as [[k' v']|] eqn:E; [|discriminate].
  cbn. intros [= ->]. apply find_some in E. destruct E as [Hin E].
  cbn [fst] in E. apply String.eqb_eq in E. now subst.
Qed.

Lemma Map_get_delete_same m k : Map_get (Map_delete m k) k = None.
Proof.
  unfold Map_get, Map_delete. rewrite find_none; [reflexivity|].
  intros e He. apply filter_In in He. destruct He as [_ He].
  now apply negb_true_iff in He.
Qed.

Lemma Map_get_delete_other m k k' :
  k' <> k -> Map_get (Map_delete m k) k' = Map_get m k'.
Proof.
  intros Hne. unfold Map_get, Map_delete. f_equal.
  apply find_filter_implied. intros e He. apply String.eqb_eq in He.
  apply negb_true_iff, String.eqb_neq. congruence.
Qed.

Lemma Map_delete_NoDup m k : NoDup (map fst m) -> NoDup (map fst (Map_delete m k)).
Proof.
  unfold Map_delete. induction m as [|e m IH]; intros H; [constructor|].
  inversion H as [|? ? Hnotin Hm]; subst. cbn [filter].
  destruct (negb (fst e =? k)%string); [|now apply IH].
  cbn [map]. constructor; [|now apply IH].
  intros Hin. apply Hnotin. apply in_map_iff in Hin.
  destruct Hin as [e' [He' Hin]]. apply filter_In in Hin.
  apply in_map_iff. exists e'. tauto.
Qed.

End MapLemmas.

Lemma Map_get_map {V W : Type} (f : V -> W) (m : list (string * V)) k :
  Map_get (map (fun e => (fst e, f (snd e))) m) k = option_map f (Map_get m k).
Proof.
  unfold Map_get. induction m as [|e m IH]; [reflexivity|].
  cbn [map find fst]. destruct (fst e =? k)%string; [reflexivity | exact IH].
Qed.

Lemma keyed_Map_set m k v :
  keyed m -> Progress.studyPackId v = k -> keyed (Map_set m k v).
Proof.
  intros Hm Hv. induction Hm as [|e m He Hm IH]; cbn [Map_set].
  - constructor; [now cbn | constructor].
  - destruct (fst e =? k)%string; constructor; try assumption. now cbn.
Qed.

Lemma keyed_fold entries m :
  keyed m -> keyed entries ->
  keyed (fold_left (fun m e => Map_set m (fst e) (snd e)) entries m).
Proof.
  revert m. induction entries as [|e entries IH]; intros m Hm He; [exact Hm|].
  inversion He; subst. cbn [fold_left]. apply IH; [|assumption].
  apply keyed_Map_set; [exact Hm | congruence].
Qed.

Lemma getProgressMap_ok st :
  NoDup (map fst (AnalyticsService.getProgressMap st))
  /\ keyed (AnalyticsService.getProgressMap st).
Proof.
  unfold AnalyticsService.getProgressMap. split; [apply new_Map_NoDup|].
  apply keyed_fold; [constructor|].
  unfold parse_or_empty. destruct (studyForge_progress st) as [[| |elems]|];
    try constructor.
  destruct (no_null elems); [|constructor].
  induction elems as [|[x|] elems IH]; cbn [for_push option_map];
    [constructor | | exact IH].
  constructor; [reflexivity | exact IH].
Qed.

Lemma parse_stringify_read {R A B : Type} (enc : A -> R) (dec : R -> B) (l : list A) :
  parse_or_empty dec (Some (JSON_stringify enc l)) = map (fun x => dec (enc x)) l.
Proof.
  unfold parse_or_empty, JSON_stringify. rewrite no_null_stringify.
  induction l as [|x l IH]; [reflexivity|].
  cbn [map for_push option_map]. now rewrite IH.
Qed.

Lemma getProgressMap_save m st :
  NoDup (map fst m) -> keyed m ->
  AnalyticsService.getProgressMap (AnalyticsService.saveProgressMap m st)
  = map (fun e => (fst e, Progress.mapDates reload (snd e))) m.
Proof.
  intros Hn Hk. unfold AnalyticsService.getProgressMap, AnalyticsService.saveProgressMap.
  cbn [studyForge_progress]. rewrite parse_stringify_read. unfold Map_values.
  rewrite map_map.
  assert (E : map (fun x => (Progress.studyPackId
                               (Progress.mapDates Date_toJSON (snd x)),
                             Progress.mapDates Date_of_JSON
                               (Progress.mapDates Date_toJSON (snd x)))) m
              = map (fun e => (fst e, Progress.mapDates reload (snd e))) m).
  { apply map_ext_in. intros e He. unfold keyed in Hk. rewrite Forall_forall in Hk.
    rewrite (Hk e He). reflexivity. }
  rewrite E. apply new_Map_distinct. rewrite map_map. cbn [fst].
  exact Hn.
Qed.

Lemma get_or_empty_keyed m studyPackId clk :
  keyed m ->
  Progress.studyPackId (AnalyticsService.get_or_empty m studyPackId clk) = studyPackId.
Proof.
  intros Hk. unfold AnalyticsService.get_or_empty.
  destruct (Map_get m studyPackId) as [v|] eqn:E; [|reflexivity].
  apply Map_get_In in E. unfold keyed in Hk. rewrite Forall_forall in Hk.
  symmetry. apply (Hk _ E).
Qed.

(** ** Quiz results *)

Lemma getQuizResults_set results st :
  AnalyticsService.getQuizResults (AnalyticsService.setItem_quiz_results results st)
  = map (StoredQuizResult.mapDates reload) results.
Proof.
  unfold AnalyticsService.getQuizResults, AnalyticsService.setItem_quiz_results.
  cbn [studyForge_quiz_results]. now rewrite parse_stringify.
Qed.

Lemma getSessions_set sessions st :
  AnalyticsService.getSessions (AnalyticsService.setItem_sessions sessions st)
  = map (AnalyticsSession.mapDates reload reload_endTime) sessions.
Proof.
  unfold AnalyticsService.getSessions, AnalyticsService.setItem_sessions.
  cbn [studyForge_sessions]. now rewrite parse_stringify.
Qed.

(** X19.  A quiz result is read back under its deck, after the results
    the deck had.  On every storage, [recordQuizResult] followed by
    [getQuizResultsForStudyPack] of the same deck returns the results
    that were there followed by the new one, each with its timestamp as
    JSON carries it; the results of every other deck, the sessions and the
    progress are as they were. *)
Theorem quiz_result_is_read_back studyPackId result st :
  let st' := AnalyticsService.recordQuizResult studyPackId result st in
  AnalyticsService.getQuizResultsForStudyPack studyPackId st'
  = map (QuizResult.mapDates reload)
        (AnalyticsService.getQuizResultsForStudyPack studyPackId st)
    ++ [QuizResult.mapDates reload result]
  /\ (forall studyPackId',
        studyPackId' <> studyPackId ->
        AnalyticsService.getQuizResultsForStudyPack studyPackId' st'
        = map (QuizResult.mapDates reload)
              (AnalyticsService.getQuizResultsForStudyPack studyPackId' st))
  /\ AnalyticsService.getSessions st' = AnalyticsService.getSessions st
  /\ AnalyticsService.getProgressMap st' = AnalyticsService.getProgressMap st.
Proof.
  cbv zeta. unfold AnalyticsService.recordQuizResult.
  assert (Hread : forall p,
             AnalyticsService.getQuizResultsForStudyPack p
               (AnalyticsService.setItem_quiz_results
                  (AnalyticsService.getQuizResults st
                   ++ [StoredQuizResult.mk result studyPackId]) st)
             = map (QuizResult.mapDates reload)
                   (AnalyticsService.getQuizResultsForStudyPack p st)
               ++ (if (studyPackId =? p)%string
                   then [QuizResult.mapDates reload result] else [])).
  { intros p. unfold AnalyticsService.getQuizResultsForStudyPack.
    rewrite getQuizResults_set.
    rewrite (filter_map_invariant _
               (fun r => (StoredQuizResult.studyPackId r =? p)%string))
      by reflexivity.
    rewrite filter_app, !map_app, !map_map. cbn [filter StoredQuizResult.studyPackId].
    f_equal. destruct (studyPackId =? p)%string; reflexivity. }
  split; [|split; [|split; reflexivity]].
  - rewrite Hread. now rewrite String.eqb_refl.
  - intros p' Hne. rewrite Hread.
    apply String.eqb_neq in Hne. rewrite String.eqb_sym in Hne. rewrite Hne.
    apply app_nil_r.
Qed.

(** ** endSession *)

Lemma duration_closeSession clk performance flashcardStats s :
  AnalyticsService.duration_or_0
    (AnalyticsService.closeSession clk performance flashcardStats s)
  = elapsedSeconds (AnalyticsSession.startTime s) clk.
Proof.
  unfold AnalyticsService.duration_or_0, AnalyticsService.closeSession, elapsedSeconds.
  cbn [AnalyticsSession.duration]. unfold new_Date.
  destruct (AnalyticsSession.startTime s) as [t|]; [|reflexivity].
  cbn [getTime num_sub option_map]. now rewrite Math_floor_div_pos by reflexivity.
Qed.

Lemma endSession_found sessionId performance flashcardStats clk st session :
  find (AnalyticsService.has_id sessionId) (AnalyticsService.getSessions st)
  = Some session ->
  let st' := AnalyticsService.endSession sessionId performance flashcardStats clk st in
  let studyPackId := AnalyticsSession.studyPackId session in
  let before := AnalyticsService.getProgress studyPackId clk st in
  let after := AnalyticsService.getProgress studyPackId clk st' in
  Progress.sessionsCount after = Progress.sessionsCount before + 1
  /\ Progress.totalStudyTime after
     = Progress.totalStudyTime before
       + elapsedSeconds (AnalyticsSession.startTime session) clk
  /\ Progress.lastStudied after = reload (new_Date clk)
  /\ NoDup (map Progress.studyPackId (AnalyticsService.getAllProgress st'))
  /\ (forall studyPackId',
        studyPackId' <> studyPackId ->
        Map_get (AnalyticsService.getProgressMap st') studyPackId'
        = option_map (Progress.mapDates reload)
            (Map_get (AnalyticsService.getProgressMap st) studyPackId'))
  /\ AnalyticsService.getQuizResults st' = AnalyticsService.getQuizResults st
  /\ AnalyticsService.getSessions st'
     = map (AnalyticsSession.mapDates reload reload_endTime)
           (update_first (AnalyticsService.has_id sessionId)
              (AnalyticsService.closeSession clk performance flashcardStats)
              (AnalyticsService.getSessions st)).
Proof.
  intros Efind. cbv zeta. unfold AnalyticsService.endSession. rewrite Efind.
  set (sessions' := update_first _ _ (AnalyticsService.getSessions st)).
  set (st1 := AnalyticsService.setItem_sessions sessions' st).
  set (closed := AnalyticsService.closeSession clk performance flashcardStats session).
  set (p := AnalyticsSession.studyPackId session).
  assert (Hmap1 : AnalyticsService.getProgressMap st1 = AnalyticsService.getProgressMap st)
    by reflexivity.
  destruct (getProgressMap_ok st) as [Hn Hk].
  unfold AnalyticsService.updateProgress. cbv zeta. rewrite Hmap1.
  change (AnalyticsSession.studyPackId closed) with p.
  set (m := AnalyticsService.getProgressMap st) in *.
  set (old := AnalyticsService.get_or_empty m p clk).
  match goal with
  | |- context [Map_set m p (AnalyticsService.updateAchievements ?x)] =>
      set (progress' := AnalyticsService.updateAchievements x)
  end.
  assert (Hkey : Progress.studyPackId progress' = p).
  { unfold progress', AnalyticsService.updateAchievements.
    cbn [Progress.studyPackId]. unfold old. now apply get_or_empty_keyed. }
  assert (Hmap' : AnalyticsService.getProgressMap
                    (AnalyticsService.saveProgressMap (Map_set m p progress') st1)
                  = map (fun e => (fst e, Progress.mapDates reload (snd e)))
                        (Map_set m p progress')).
  { apply getProgressMap_save; [now apply Map_set_NoDup | now apply keyed_Map_set]. }
  unfold AnalyticsService.getProgress, AnalyticsService.getAllProgress.
  rewrite Hmap'. fold old.
  assert (Hafter : AnalyticsService.get_or_empty
                     (map (fun e => (fst e, Progress.mapDates reload (snd e)))
                          (Map_set m p progress')) p clk
                   = Progress.mapDates reload progress').
  { unfold AnalyticsService.get_or_empty.
    now rewrite Map_get_map, Map_get_set_same. }
  rewrite Hafter.
  split; [reflexivity|]. split.
  { unfold progress', AnalyticsService.updateAchievements, Progress.mapDates.
    cbn [Progress.totalStudyTime]. f_equal. apply duration_closeSession. }
  split; [reflexivity|]. split.
  { unfold Map_values. rewrite !map_map. cbn [snd].
    assert (E : map (fun x => Progress.studyPackId (Progress.mapDates reload (snd x)))
                    (Map_set m p progress')
                = map fst (Map_set m p progress')).
    { apply map_ext_in. intros e He.
      pose proof (keyed_Map_set m p progress' Hk Hkey) as Hk'.
      unfold keyed in Hk'. rewrite Forall_forall in Hk'. now rewrite (Hk' e He). }
    rewrite E. now apply Map_set_NoDup. }
  split.
  { intros p' Hne. now rewrite Map_get_map, Map_get_set_other. }
  split; [reflexivity|].
  unfold AnalyticsService.saveProgressMap, AnalyticsService.getSessions.
  cbn [studyForge_sessions]. fold (AnalyticsService.getSessions st1).
  unfold st1. apply getSessions_set.
Qed.


(** X20.  [endSession] counts the session in the progress of its deck.
    On every storage: for an id that no stored session has, nothing is
    written; otherwise, for the first session with the id, the progress of
    its deck has one session more and the whole seconds from the start of
    the session to now more study time (none when the start is no date),
    the progress map keeps one entry per deck, the progress of every other
    deck and the quiz results are as they were, and the stored sessions
    are the same ones with that session closed. *)
Theorem endSession_counts_the_session sessionId performance flashcardStats clk st :
  let st' := AnalyticsService.endSession sessionId performance flashcardStats clk st in
  match find (AnalyticsService.has_id sessionId) (AnalyticsService.getSessions st) with
  | None => st' = st
  | Some session =>
      let studyPackId := AnalyticsSession.studyPackId session in
      let before := AnalyticsService.getProgress studyPackId clk st in
      let after := AnalyticsService.getProgress studyPackId clk st' in
      Progress.sessionsCount after = Progress.sessionsCount before + 1
      /\ Progress.totalStudyTime after
         = Progress.totalStudyTime before
           + elapsedSeconds (AnalyticsSession.startTime session) clk
      /\ Progress.lastStudied after = reload (new_Date clk)
      /\ NoDup (map Progress.studyPackId (AnalyticsService.getAllProgress st'))
      /\ (forall studyPackId',
            studyPackId' <> studyPackId ->
            Map_get (AnalyticsService.getProgressMap st') studyPackId'
            = option_map (Progress.mapDates reload)
                (Map_get (AnalyticsService.getProgressMap st) studyPackId'))
      /\ AnalyticsService.getQuizResults st' = AnalyticsService.getQuizResults st
      /\ AnalyticsService.getSessions st'
         = map (AnalyticsSession.mapDates reload reload_endTime)
               (update_first (AnalyticsService.has_id sessionId)
                  (AnalyticsService.closeSession clk performance flashcardStats)
                  (AnalyticsService.getSessions st))
  end.
Proof.
  cbv zeta.
  destruct (find (AnalyticsService.has_id sessionId) (AnalyticsService.getSessions st))
    as [session|] eqn:Efind.
  - now apply endSession_found.
  - unfold AnalyticsService.endSession. now rewrite Efind.
Qed.

Lemma has_id_mapDates sessionId f g (s : AnalyticsStudySession) :
  AnalyticsService.has_id sessionId (AnalyticsSession.mapDates f g s)
  = AnalyticsService.has_id sessionId s.
Proof. reflexivity. Qed.

(** X22.  A session that is started and ended is counted with the time
    it took.  On every storage in which no session has the id that
    [startSession] makes, at a clock reading that is a date: ending the
    session under the id [startSession] returned adds one session and the
    whole seconds between the two clock readings to the progress of the
    deck, and the stored sessions are the ones there were followed by the
    new one, closed at the second reading with that duration. *)
Theorem started_session_is_counted studyPackId type clk random performance
    flashcardStats clk' st :
  let started := AnalyticsService.startSession studyPackId type clk random st in
  let sessionId := fst started in
  let st' :=
    AnalyticsService.endSession sessionId performance flashcardStats clk'
                                (snd started) in
  Z.abs (now clk) <= MAX_TIME ->
  find (AnalyticsService.has_id sessionId) (AnalyticsService.getSessions st) = None ->
  Progress.sessionsCount (AnalyticsService.getProgress studyPackId clk' st')
  = Progress.sessionsCount (AnalyticsService.getProgress studyPackId clk' st) + 1
  /\ Progress.totalStudyTime (AnalyticsService.getProgress studyPackId clk' st')
     = Progress.totalStudyTime (AnalyticsService.getProgress studyPackId clk' st)
       + (now clk' - now clk) / 1000
  /\ AnalyticsService.getSessions st'
     = map (AnalyticsSession.mapDates reload reload_endTime)
           (map (AnalyticsSession.mapDates reload reload_endTime)
                (AnalyticsService.getSessions st)
            ++ [AnalyticsSession.mk sessionId studyPackId type (TimeValue (now clk))
                  (Some (new_Date clk')) (Some ((now clk' - now clk) / 1000))
                  performance flashcardStats]).
Proof.
  cbv zeta. unfold AnalyticsService.startSession. cbn [fst snd].
  set (sessionId := String.append _ _).
  set (new := AnalyticsSession.mk sessionId studyPackId type (new_Date clk)
                                  None None None None).
  set (st1 := AnalyticsService.setItem_sessions _ st).
  intros Hnow Hfresh.
  assert (Hs1 : AnalyticsService.getSessions st1
                = map (AnalyticsSession.mapDates reload reload_endTime)
                      (AnalyticsService.getSessions st) ++ [new]).
  { unfold st1. rewrite getSessions_set, map_app. f_equal.
    unfold new, AnalyticsSession.mapDates, new_Date. cbn.
    now rewrite TimeClip_in_range. }
  assert (Hfind : find (AnalyticsService.has_id sessionId)
                       (AnalyticsService.getSessions st1) = Some new).
  { rewrite Hs1.
    assert (Hold : find (AnalyticsService.has_id sessionId)
                        (map (AnalyticsSession.mapDates reload reload_endTime)
                             (AnalyticsService.getSessions st)) = None).
    { rewrite (find_map_invariant _ (AnalyticsService.has_id sessionId))
        by (intros; apply has_id_mapDates).
      now rewrite Hfresh. }
    revert Hold. generalize (map (AnalyticsSession.mapDates reload reload_endTime)
                                 (AnalyticsService.getSessions st)).
    intros l. induction l as [|x l IH]; cbn [app find].
    - intros _. unfold AnalyticsService.has_id, new. cbn [AnalyticsSession.id].
      now rewrite String.eqb_refl.
    - destruct (AnalyticsService.has_id sessionId x); [discriminate | exact IH]. }
  destruct (endSession_found sessionId performance flashcardStats clk' st1 new Hfind)
    as [Hcount [Htime [_ [_ [_ [_ Hsessions]]]]]].
  change (AnalyticsSession.studyPackId new) with studyPackId in Hcount, Htime.
  change (AnalyticsService.getProgress studyPackId clk' st1)
    with (AnalyticsService.getProgress studyPackId clk' st) in Hcount, Htime.
  split; [exact Hcount|]. split; [exact Htime|].
  rewrite Hsessions, Hs1. f_equal.
  assert (Hnone : find (AnalyticsService.has_id sessionId)
                       (map (AnalyticsSession.mapDates reload reload_endTime)
                            (AnalyticsService.getSessions st)) = None).
  { rewrite (find_map_invariant _ (AnalyticsService.has_id sessionId))
      by (intros; apply has_id_mapDates).
    now rewrite Hfresh. }
  revert Hnone. generalize (map (AnalyticsSession.mapDates reload reload_endTime)
                                (AnalyticsService.getSessions st)).
  intros l. induction l as [|x l IH]; cbn [app find update_first].
  - intros _. unfold AnalyticsService.has_id at 1. unfold new at 1.
    cbn [AnalyticsSession.id]. rewrite String.eqb_refl.
    f_equal. unfold AnalyticsService.closeSession, new, new_Date.
    cbn [AnalyticsSession.id AnalyticsSession.studyPackId AnalyticsSession.type
         AnalyticsSession.startTime getTime num_sub option_map].
    now rewrite Math_floor_div_pos by reflexivity.
  - destruct (AnalyticsService.has_id sessionId x); [discriminate|].
    intros H. now rewrite IH.
Qed.

Lemma started_session_is_counted_witness :
  let started :=
    AnalyticsService.startSession "deck" type_quiz (later 1 0 sample_clock) "p0q7"
                                  sample_analytics_storage in
  let st' :=
    AnalyticsService.endSession (fst started) None None (later 1 125000 sample_clock)
                                (snd started) in
  Progress.sessionsCount
    (AnalyticsService.getProgress "deck" (later 1 125000 sample_clock) st')
  = Progress.sessionsCount
      (AnalyticsService.getProgress "deck" (later 1 125000 sample_clock)
                                    sample_analytics_storage) + 1
  /\ Progress.totalStudyTime
       (AnalyticsService.getProgress "deck" (later 1 125000 sample_clock) st')
     = Progress.totalStudyTime
         (AnalyticsService.getProgress "deck" (later 1 125000 sample_clock)
                                       sample_analytics_storage)
       + (now (later 1 125000 sample_clock) - now (later 1 0 sample_clock)) / 1000
  /\ AnalyticsService.getSessions st'
     = map (AnalyticsSession.mapDates reload reload_endTime)
           (map (AnalyticsSession.mapDates reload reload_endTime)
                (AnalyticsService.getSessions sample_analytics_storage)
            ++ [AnalyticsSession.mk (fst started) "deck" type_quiz
                  (TimeValue (now (later 1 0 sample_clock)))
                  (Some (new_Date (later 1 125000 sample_clock)))
                  (Some ((now (later 1 125000 sample_clock)
                          - now (later 1 0 sample_clock)) / 1000))
                  None None]).
Proof.
  apply (started_session_is_counted "deck" type_quiz (later 1 0 sample_clock) "p0q7"
           None None (later 1 125000 sample_clock) sample_analytics_storage).
  - vm_compute. discriminate.
  - vm_compute. reflexivity.
Defined.

(** ** deleteProgress *)

(** X21.  [deleteProgress] forgets the deck in the three stores.  On
    every storage, after the call the deck has no progress entry, no
    session and no quiz result; for every other deck the progress entry,
    the sessions and the quiz results are the ones it had, with their
    dates as JSON carries them. *)
Theorem deleteProgress_forgets_the_deck studyPackId st :
  let st' := AnalyticsService.deleteProgress studyPackId st in
  Map_get (AnalyticsService.getProgressMap st') studyPackId = None
  /\ AnalyticsService.getSessionsForStudyPack studyPackId
       (AnalyticsService.getSessions st') = []
  /\ AnalyticsService.getQuizResultsForStudyPack studyPackId st' = []
  /\ forall studyPackId',
       studyPackId' <> studyPackId ->
       Map_get (AnalyticsService.getProgressMap st') studyPackId'
       = option_map (Progress.mapDates reload)
           (Map_get (AnalyticsService.getProgressMap st) studyPackId')
       /\ AnalyticsService.getSessionsForStudyPack studyPackId'
            (AnalyticsService.getSessions st')
          = map (AnalyticsSession.mapDates reload reload_endTime)
                (AnalyticsService.getSessionsForStudyPack studyPackId'
                   (AnalyticsService.getSessions st))
       /\ AnalyticsService.getQuizResultsForStudyPack studyPackId' st'
          = map (QuizResult.mapDates reload)
                (AnalyticsService.getQuizResultsForStudyPack studyPackId' st).
Proof.
  cbv zeta. unfold AnalyticsService.deleteProgress. cbv zeta.
  destruct (getProgressMap_ok st) as [Hn Hk].
  set (m := AnalyticsService.getProgressMap st) in *.
  set (st1 := AnalyticsService.saveProgressMap (Map_delete m studyPackId) st).
  assert (Hs1 : AnalyticsService.getSessions st1 = AnalyticsService.getSessions st)
    by reflexivity.
  rewrite Hs1.
  set (st2 := AnalyticsService.setItem_sessions _ st1).
  assert (Hq2 : AnalyticsService.getQuizResults st2 = AnalyticsService.getQuizResults st)
    by reflexivity.
  rewrite Hq2.
  set (st3 := AnalyticsService.setItem_quiz_results _ st2).
  assert (Hm3 : AnalyticsService.getProgressMap st3
                = map (fun e => (fst e, Progress.mapDates reload (snd e)))
                      (Map_delete m studyPackId)).
  { change (AnalyticsService.getProgressMap st3)
      with (AnalyticsService.getProgressMap st1).
    apply getProgressMap_save; [now apply Map_delete_NoDup|].
    unfold Map_delete. now apply Forall_filter. }
  assert (Hs3 : AnalyticsService.getSessions st3
                = map (AnalyticsSession.mapDates reload reload_endTime)
                      (filter (fun s => negb (AnalyticsSession.studyPackId s
                                              =? studyPackId)%string)
                              (AnalyticsService.getSessions st))).
  { change (AnalyticsService.getSessions st3) with (AnalyticsService.getSessions st2).
    unfold st2. apply getSessions_set. }
  assert (Hq3 : AnalyticsService.getQuizResults st3
                = map (StoredQuizResult.mapDates reload)
                      (filter (fun r => negb (StoredQuizResult.studyPackId r
                                              =? studyPackId)%string)
                              (AnalyticsService.getQuizResults st))).
  { unfold st3. apply getQuizResults_set. }
  unfold AnalyticsService.getSessionsForStudyPack,
         AnalyticsService.getQuizResultsForStudyPack.
  rewrite Hm3, Hs3, Hq3.
  assert (HfS : forall p,
             filter (fun s : AnalyticsStudySession =>
                       (AnalyticsSession.studyPackId s =? p)%string)
                    (map (AnalyticsSession.mapDates reload reload_endTime)
                         (filter (fun s => negb (AnalyticsSession.studyPackId s
                                                 =? studyPackId)%string)
                                 (AnalyticsService.getSessions st)))
             = map (AnalyticsSession.mapDates reload reload_endTime)
                   (filter (fun s => (AnalyticsSession.studyPackId s =? p)%string)
                           (filter (fun s => negb (AnalyticsSession.studyPackId s
                                                   =? studyPackId)%string)
                                   (AnalyticsService.getSessions st)))).
  { intros p. now apply filter_map_invariant. }
  assert (HfQ : forall p,
             filter (fun r : StoredQuizResult.t Date =>
                       (StoredQuizResult.studyPackId r =? p)%string)
                    (map (StoredQuizResult.mapDates reload)
                         (filter (fun r => negb (StoredQuizResult.studyPackId r
                                                 =? studyPackId)%string)
                                 (AnalyticsService.getQuizResults st)))
             = map (StoredQuizResult.mapDates reload)
                   (filter (fun r => (StoredQuizResult.studyPackId r =? p)%string)
                           (filter (fun r => negb (StoredQuizResult.studyPackId r
                                                   =? studyPackId)%string)
                                   (AnalyticsService.getQuizResults st)))).
  { intros p. now apply filter_map_invariant. }
  split; [now rewrite Map_get_map, Map_get_delete_same|].
  split; [now rewrite HfS, filter_filter_negb|].
  split; [now rewrite HfQ, filter_filter_negb|].
  intros p' Hne. split; [now rewrite Map_get_map, Map_get_delete_other|].
  split.
  - rewrite HfS. f_equal.
    apply (filter_other_key AnalyticsSession.studyPackId). exact Hne.
  - rewrite HfQ, !map_map. cbn [StoredQuizResult.mapDates StoredQuizResult.result].
    rewrite (filter_other_key StoredQuizResult.studyPackId) by exact Hne.
    reflexivity.
Qed.


(** ** The sample storage *)

Example achievements_of_the_sample :
  Progress.achievements (AnalyticsService.updateAchievements sample_progress)
  = ["week_warrior"%string; "consistent_learner"%string; "time_champion"%string].
Proof. reflexivity. Qed.

Example the_sample_session_is_started :
  map AnalyticsSession.id (AnalyticsService.getSessions sample_analytics_storage)
  = ["session_1700000000000_k3x9"%string].
Proof. reflexivity. Qed.

Example the_sample_session_is_ended :
  let st' :=
    AnalyticsService.endSession "session_1700000000000_k3x9" None None
      (later 0 90500 sample_clock) sample_analytics_storage in
  let progress := AnalyticsService.getProgress "deck" sample_clock st' in
  (Progress.sessionsCount progress, Progress.totalStudyTime progress,
   Progress.streakDays progress, Progress.achievements progress)
  = (1, 90, 0, [])
  /\ map AnalyticsSession.duration (AnalyticsService.getSessions st') = [Some 90].
Proof. vm_compute. split; reflexivity. Qed.

Example the_sample_quiz_result_is_read_back :
  AnalyticsService.getQuizResultsForStudyPack "deck"
    (AnalyticsService.recordQuizResult "deck" sample_quiz_result
       sample_analytics_storage)
  = [sample_quiz_result].
Proof. reflexivity. Qed.
